(** * MoodMate: the mood classifier, the quote picker and the weekly trend

    A shallow embedding of the decision logic of the MoodMate server:

    - [server/services/sentiment.ts]: [analyzeSentiment] and [getMoodQuoteTag];
    - [server/routes.ts]: the guard and the quote pick of
      [POST /api/journal/entries], and the aggregation of
      [GET /api/mood/weekly].

    Conventions of the model.

    - A JavaScript string is a sequence of UTF-16 code units.  The model
      covers the strings whose code units lie in U+0000..U+00FF (Latin-1):
      a [string] whose [ascii] characters are read as these code units.  This
      range is closed under [toLowerCase], and it contains every keyword of
      the source.
    - A JavaScript number that the source only uses in exact arithmetic is a
      [nat] (counts) or a [Q] (the confidence, [Math.random()]): the model
      keeps the exact rational value of an expression the source evaluates
      in double precision.
    - An object used as an insertion-ordered table ([moodScores],
      [moodCounts]) is an association list; an object used as a dictionary
      ([moodByDate]) is a [gmap].
    - An instant is its time value, the milliseconds since the epoch.  The
      time zone of the server and the values that [new Date()] returns are
      parameters of the functions that read them. *)

From Stdlib Require Import ZArith QArith Qround Qminmax Ascii String List Sorted Lia.
From stdpp Require Import gmap strings list.

Import ListNotations.

(** ** JavaScript strings (Latin-1 code units) *)

Module Js.

Definition codeUnit (c : ascii) : N := N_of_ascii c.

Definition inRange (lo hi n : N) : bool := ((lo <=? n) && (n <=? hi))%N.

(** [String.prototype.toLowerCase], one code unit: A-Z, and the Latin-1
    capitals U+00C0..U+00DE except the multiplication sign U+00D7, move 32
    up; every other code unit of the range is its own lower case. *)
Definition lowerChar (c : ascii) : ascii :=
  let n := codeUnit c in
  if inRange 65 90 n || (inRange 192 222 n && negb (n =? 215)%N)
  then ascii_of_N (n + 32)
  else c.

Fixpoint toLowerCase (s : string) : string :=
  match s with
  | EmptyString => EmptyString
  | String c s' => String (lowerChar c) (toLowerCase s')
  end.

(** The class [\s] of a regular expression, on this range: TAB, LF, VT, FF,
    CR, SPACE and NO-BREAK SPACE. *)
Definition isWhitespace (c : ascii) : bool :=
  let n := codeUnit c in
  inRange 9 13 n || (n =? 32)%N || (n =? 160)%N.

(** The class [\w] without the [u] flag: [A-Za-z0-9_]. *)
Definition isWordChar (c : ascii) : bool :=
  let n := codeUnit c in
  inRange 97 122 n || inRange 65 90 n || inRange 48 57 n || (n =? 95)%N.

(** [Canonicalize] of a regular expression with the [i] flag and without the
    [u] flag: the upper case of the code unit when that is one code unit, and
    never an ASCII code unit for a non-ASCII one.  On this range: a-z and
    U+00E0..U+00FE except the division sign U+00F7 move 32 down, U+00FF goes
    to U+0178, U+00B5 to U+039C, and U+00DF (whose upper case is two letters)
    stays. *)
Definition canonicalize (c : ascii) : N :=
  let n := codeUnit c in
  if inRange 97 122 n || (inRange 224 254 n && negb (n =? 247)%N) then (n - 32)%N
  else if (n =? 255)%N then 376%N
  else if (n =? 181)%N then 924%N
  else n.

(** [s.split(/\s+/)]: the pieces of [s] between its maximal runs of
    whitespace.  [cur] is the piece being read; [inSep] holds while the scan
    is inside a separator, whose left piece has been pushed already.  A
    separator at the start leaves an empty first piece, one at the end an
    empty last piece, and the empty string gives one empty piece. *)
Fixpoint splitFrom (inSep : bool) (cur : string) (s : string) : list string :=
  match s with
  | EmptyString => [cur]
  | String c s' =>
      if isWhitespace c then
        if inSep then splitFrom true EmptyString s'
        else cur :: splitFrom true EmptyString s'
      else splitFrom false (cur +:+ String c EmptyString) s'
  end.

Definition splitWhitespace (s : string) : list string :=
  splitFrom false EmptyString s.

(** [s.includes(k)]: [k] starts at some position of [s]. *)
Fixpoint includes (s k : string) : bool :=
  String.prefix k s
  || match s with
     | EmptyString => false
     | String _ s' => includes s' k
     end.

(** *** The regular expression [\bKEYWORD\b] with the flags [g] and [i]

    The source builds the pattern from the text of the keyword.  The
    keywords it does so for are made of letters, which a pattern reads as
    themselves: the keyword is matched as a literal. *)

Definition wordBefore (prev : option ascii) : bool :=
  match prev with Some c => isWordChar c | None => false end.

Definition wordAt (s : string) : bool :=
  match s with String c _ => isWordChar c | EmptyString => false end.

(** The assertion [\b] between the code unit [prev] and the text [s]. *)
Definition isBoundary (prev : option ascii) (s : string) : bool :=
  negb (Bool.eqb (wordBefore prev) (wordAt s)).

Definition charMatches (k c : ascii) : bool :=
  (canonicalize k =? canonicalize c)%N.

(** The literal [k], code unit by code unit under the [i] flag, then [\b]. *)
Fixpoint literalThenBoundary (k : string) (prev : option ascii) (s : string) : bool :=
  match k with
  | EmptyString => isBoundary prev s
  | String kc k' =>
      match s with
      | EmptyString => false
      | String c s' => charMatches kc c && literalThenBoundary k' (Some c) s'
      end
  end.

(** [\bKEYWORD\b] matches at the position whose left neighbour is [prev] and
    whose right context is [s]. *)
Definition matchesAt (k : string) (prev : option ascii) (s : string) : bool :=
  isBoundary prev s && literalThenBoundary k prev s.

(** [s.match(regex)] with the [g] flag collects the matches from left to
    right, each search starting where the last match ended (one code unit
    further after an empty match).  [scanMatches] counts them: [skip] is the
    number of code units that still belong to the last match. *)
Fixpoint scanMatches (k : string) (prev : option ascii) (skip : nat) (s : string) : nat :=
  match skip with
  | S skip' =>
      match s with
      | EmptyString => 0
      | String c s' => scanMatches k (Some c) skip' s'
      end
  | O =>
      match s with
      | EmptyString => if matchesAt k prev s then 1 else 0
      | String c s' =>
          if matchesAt k prev s
          then S (scanMatches k (Some c) (Nat.pred (String.length k)) s')
          else scanMatches k (Some c) 0 s'
      end
  end.

(** The number of elements of [s.match(new RegExp(`\\b${k}\\b`, 'gi'))], 0
    when the result is [null]. *)
Definition countMatches (k s : string) : nat := scanMatches k None 0 s.

End Js.

(** ** JavaScript dates *)

Module JsDate.

Definition msPerDay : Z := 86400000.

(** [Day(t)]: the day number of a time value.  For an instant it is the UTC
    day, the one that [toISOString] prints. *)
Definition utcDay (t : Z) : Z := (t / msPerDay)%Z.

(** [TimeWithinDay(t)] *)
Definition timeWithinDay (t : Z) : Z := (t mod msPerDay)%Z.

(** [DateFromTime(t)]: the day of the month, 1 to 31, of a time value in the
    proleptic Gregorian calendar.  The days are counted in the cycle of 400
    years (146097 days) from a first of March, [doe] is the day of the
    cycle, [yoe] its year, [doy] the day of that year counted from the first
    of March, and [mp] the month counted from March. *)
Definition dateFromTime (t : Z) : Z :=
  let doe := ((utcDay t + 719468) mod 146097)%Z in
  let yoe := ((doe - doe / 1460 + doe / 36524 - doe / 146096) / 365)%Z in
  let doy := (doe - (365 * yoe + yoe / 4 - yoe / 100))%Z in
  let mp := ((5 * doy + 2) / 153)%Z in
  (doy - (153 * mp + 2) / 5 + 1)%Z.

(** The time zone of the server.  [offsetAt t] is the offset of the local
    time from UTC, in milliseconds, at the instant [t] ([LocalTZA(t, true)]),
    and [offsetOf t] is the offset with which the local time value [t] is
    read ([LocalTZA(t, false)]). *)
Record TimeZone := {
  offsetAt : Z -> Z;
  offsetOf : Z -> Z
}.

(** A time zone without change of the clock, such as UTC ([fixedOffset 0]). *)
Definition fixedOffset (offset : Z) : TimeZone :=
  {| offsetAt := fun _ => offset; offsetOf := fun _ => offset |}.

(** [LocalTime(t)] and [UTC(t)] *)
Definition localTime (tz : TimeZone) (t : Z) : Z := (t + offsetAt tz t)%Z.

Definition utc (tz : TimeZone) (t : Z) : Z := (t - offsetOf tz t)%Z.

(** [date.getDate()]: the day of the month in local time. *)
Definition getDate (tz : TimeZone) (t : Z) : Z := dateFromTime (localTime tz t).

(** [date.setDate(dt)], the new time value of [date]:
    [UTC(MakeDate(MakeDay(YearFromTime(t), MonthFromTime(t), dt),
    TimeWithinDay(t)))] for the local time [t] of [date].  [MakeDay] counts
    [dt - 1] days from the first of the month of [t], which is the day
    [Day(t) - (DateFromTime(t) - 1)]; a [dt] outside the month goes over
    into the months around it. *)
Definition setDate (tz : TimeZone) (date : Z) (dt : Z) : Z :=
  let t := localTime tz date in
  utc tz ((utcDay t - dateFromTime t + dt) * msPerDay + timeWithinDay t)%Z.

End JsDate.

(** ** server/services/sentiment.ts *)

Inductive MoodType := happy | sad | anxious | suicidal | neutral.

Global Instance MoodType_eq_dec : EqDecision MoodType.
Proof. solve_decision. Defined.

Module Sentiment.

Record SentimentAnalysisResult := {
  mood : MoodType;
  confidence : Q;
  isCrisis : bool
}.

(** [moodKeywords], in the order of its keys. *)
Definition happyKeywords : list string :=
  ["happy"; "joy"; "excited"; "grateful"; "blessed"; "amazing"; "wonderful";
   "great"; "fantastic"; "love"; "celebration"; "success"; "achievement";
   "proud"; "smile"; "laugh"].

Definition sadKeywords : list string :=
  ["sad"; "depressed"; "down"; "upset"; "disappointed"; "heartbroken";
   "crying"; "tears"; "lonely"; "empty"; "loss"; "grief"; "miss"; "hurt";
   "pain"].

Definition anxiousKeywords : list string :=
  ["anxious"; "worried"; "nervous"; "stress"; "panic"; "overwhelmed";
   "scared"; "fear"; "tension"; "restless"; "uncertain"; "doubt"; "pressure";
   "worry"].

Definition suicidalKeywords : list string :=
  ["suicide"; "kill myself"; "end it all"; "want to die"; "no point";
   "hopeless"; "worthless"; "better off dead"; "can't go on"; "give up";
   "end my life"].

Definition moodKeywords : list (MoodType * list string) :=
  [(happy, happyKeywords); (sad, sadKeywords); (anxious, anxiousKeywords);
   (suicidal, suicidalKeywords)].

(** [crisisKeywords.some(keyword => lowerText.includes(keyword.toLowerCase()))] *)
Definition crisisKeywords : list string := suicidalKeywords.

Definition hasCrisisKeywords (lowerText : string) : bool :=
  existsb (fun keyword => Js.includes lowerText (Js.toLowerCase keyword))
          crisisKeywords.

(** [moodScores]: a table in the insertion order of its keys. *)
Definition Scores := list (MoodType * nat).

Definition initialScores : Scores :=
  [(happy, 0); (sad, 0); (anxious, 0); (suicidal, 0); (neutral, 0)].

(** [moodScores[mood] += n]: the key keeps its place. *)
Definition addScore (m : MoodType) (n : nat) (scores : Scores) : Scores :=
  map (fun e => if decide (fst e = m) then (fst e, snd e + n) else e) scores.

(** The inner [keywords.forEach]: a [null] match list adds nothing, which is
    adding the count 0. *)
Definition scoreKeywords (lowerText : string) (m : MoodType)
    (keywords : list string) (scores : Scores) : Scores :=
  fold_left (fun sc keyword => addScore m (Js.countMatches keyword lowerText) sc)
            keywords scores.

(** [Object.entries(moodKeywords).forEach], which skips [suicidal]. *)
Definition countKeywordMatches (lowerText : string) : Scores :=
  fold_left (fun sc entry =>
               if decide (fst entry = suicidal) then sc
               else scoreKeywords lowerText (fst entry) (snd entry) sc)
            moodKeywords initialScores.

(** [Math.max(...Object.values(moodScores))] *)
Definition maxScoreOf (scores : Scores) : nat := list_max (map snd scores).

(** [Object.entries(moodScores).find(([_, score]) => score === maxScore)?.[0]] *)
Definition findMood (scores : Scores) (maxScore : nat) : option MoodType :=
  fst <$> List.find (fun e => snd e =? maxScore) scores.

Definition natQ (n : nat) : Q := inject_Z (Z.of_nat n).

Definition analyzeSentiment (text : string) : SentimentAnalysisResult :=
  let lowerText := Js.toLowerCase text in
  let words := Js.splitWhitespace lowerText in
  if hasCrisisKeywords lowerText then
    {| mood := suicidal; confidence := 9 # 10; isCrisis := true |}
  else
    let moodScores := countKeywordMatches lowerText in
    let maxScore := maxScoreOf moodScores in
    if maxScore =? 0 then
      {| mood := neutral; confidence := 1 # 2; isCrisis := false |}
    else
      let detectedMood := findMood moodScores maxScore in
      let confidence := Qmin (natQ maxScore / natQ (length words) * 10) 1 in
      {| mood := default neutral detectedMood;
         confidence := confidence;
         isCrisis := false |}.

(** [getMoodQuoteTag]: the [default] branch of the switch is the one of
    [neutral]; the type has no further value. *)
Definition getMoodQuoteTag (m : MoodType) : string :=
  match m with
  | happy => "happy"
  | sad | suicidal => "sad"
  | anxious => "anxious"
  | neutral => "general"
  end.

End Sentiment.

(** ** server/routes.ts *)

Module Routes.

Import Sentiment JsDate.

(** *** [POST /api/journal/entries]: the guard on [req.body.entryText] *)

(** What [req.body.entryText] can be when the body is parsed JSON: a JSON
    value, or [undefined] when the field is missing. *)
Inductive JsValue :=
| JsUndefined
| JsNull
| JsBoolean (b : bool)
| JsNumber (x : Q)
| JsString (s : string)
| JsObject.

(** [!!v] *)
Definition truthy (v : JsValue) : bool :=
  match v with
  | JsUndefined | JsNull => false
  | JsBoolean b => b
  | JsNumber x => negb (Qeq_bool x 0)
  | JsString s => negb (String.eqb s EmptyString)
  | JsObject => true
  end.

(** [typeof v === 'string'] *)
Definition isString (v : JsValue) : bool :=
  match v with JsString _ => true | _ => false end.

(** How a call ends: with a value or with a thrown error. *)
Inductive Outcome (A : Type) :=
| Returned (a : A)
| Threw (error : string).
Arguments Returned {A} a.
Arguments Threw {A} error.

(** [analyzeSentiment] as the runtime sees it, where the argument is any
    value: the function has no check of its own, and its first statement,
    [text.toLowerCase()], throws a [TypeError] on a value that is not a
    string. *)
Definition callAnalyzeSentiment (text : JsValue) : Outcome SentimentAnalysisResult :=
  match text with
  | JsString s => Returned (analyzeSentiment s)
  | _ => Threw "TypeError"
  end.

(** The start of the handler, up to the classification: either the answer
    400 with its message, or the result of [analyzeSentiment(entryText)]. *)
Inductive Classified :=
| BadRequest (message : string)
| Analyzed (sentimentResult : Outcome SentimentAnalysisResult).

Definition classifyEntry (entryText : JsValue) : Classified :=
  if negb (truthy entryText) || negb (isString entryText)
  then BadRequest "Entry text is required"
  else Analyzed (callAnalyzeSentiment entryText).

(** *** [POST /api/journal/entries]: the quote of the entry *)

Record Quote := {
  id : Z;
  quoteText : string;
  author : option string;
  moodTag : string
}.

(** [arr[i]] for a number [i] that is an integer: [undefined] out of range. *)
Definition arrayGet {A} (arr : list A) (i : Z) : option A :=
  if (i <? 0)%Z then None else arr !! Z.to_nat i.

(** [availableQuotes[Math.floor(Math.random() * availableQuotes.length)]],
    where [random] is the value that [Math.random()] returned. *)
Definition pickQuote (random : Q) (availableQuotes : list Quote) : option Quote :=
  arrayGet availableQuotes (Qfloor (random * natQ (length availableQuotes))).

(** [randomQuote?.id || null] *)
Definition quoteIdOf (randomQuote : option Quote) : option Z :=
  match randomQuote with
  | Some q => if (id q =? 0)%Z then None else Some (id q)
  | None => None
  end.

(** *** [GET /api/mood/weekly] *)

(** The key of a day, [date.toISOString().split('T')[0]]: the UTC calendar
    date of an instant, kept as its day number (days since the epoch), so
    that the day before [IsoDate d] is [IsoDate (d - 1)].  [NoDate] is the key
    [''] of an entry without [createdAt]. *)
Inductive DateKey :=
| IsoDate (day : Z)
| NoDate.

Global Instance DateKey_eq_dec : EqDecision DateKey.
Proof. solve_decision. Defined.

Global Instance DateKey_countable : Countable DateKey.
Proof.
  refine (inj_countable'
            (fun k => match k with IsoDate d => Some d | NoDate => None end)
            (fun o => match o with Some d => IsoDate d | None => NoDate end) _).
  intros []; reflexivity.
Defined.

(** The two columns of a journal entry that the aggregation reads.
    [createdAt] is the UTC day number of the timestamp, [None] for [null];
    [detectedMood] is one of the five moods, the only values the column is
    written with. *)
Record JournalEntry := {
  createdAt : option Z;
  detectedMood : MoodType
}.

Definition dateKeyOf (entry : JournalEntry) : DateKey :=
  match createdAt entry with
  | Some d => IsoDate d
  | None => NoDate
  end.

(** [entries.forEach]: group the moods by date key, in the order of the
    entries. *)
Definition groupEntry (moodByDate : gmap DateKey (list MoodType))
    (entry : JournalEntry) : gmap DateKey (list MoodType) :=
  let dateKey := dateKeyOf entry in
  let moodByDate :=
    match moodByDate !! dateKey with
    | Some _ => moodByDate
    | None => <[dateKey := []]> moodByDate
    end in
  <[dateKey := default [] (moodByDate !! dateKey) ++ [detectedMood entry]]> moodByDate.

Definition groupByDate (entries : list JournalEntry) : gmap DateKey (list MoodType) :=
  foldl groupEntry ∅ entries.

(** [moodCounts]: a table in the insertion order of its keys. *)
Definition Counts := list (MoodType * nat).

Definition getCount (moodCounts : Counts) (m : MoodType) : option nat :=
  snd <$> List.find (fun e => bool_decide (fst e = m)) moodCounts.

(** [moodCounts[m] = n]: an existing key keeps its place, a new one goes to
    the end. *)
Fixpoint setCount (moodCounts : Counts) (m : MoodType) (n : nat) : Counts :=
  match moodCounts with
  | [] => [(m, n)]
  | e :: rest =>
      if decide (fst e = m) then (m, n) :: rest
      else e :: setCount rest m n
  end.

(** [moodCounts[mood] = (moodCounts[mood] || 0) + 1] for every mood of the
    day. *)
Definition countMoods (dayMoods : list MoodType) : Counts :=
  foldl (fun moodCounts m => setCount moodCounts m (default 0 (getCount moodCounts m) + 1))
        [] dayMoods.

(** [Array.prototype.sort] with the comparator [(a, b) => b[1] - a[1]]: the
    sort is stable, so its result is the one of any stable sort by falling
    count; here an insertion sort, in which an entry goes before the entries
    that followed it in the input and do not have a larger count. *)
Fixpoint insertByCount (e : MoodType * nat) (sorted : list (MoodType * nat))
    : list (MoodType * nat) :=
  match sorted with
  | [] => [e]
  | e' :: rest =>
      if snd e' <=? snd e then e :: sorted
      else e' :: insertByCount e rest
  end.

Definition sortByCount (entries : list (MoodType * nat)) : list (MoodType * nat) :=
  foldr insertByCount [] entries.

(** The body of the loop after [dayMoods] is read.  The table of a day
    that has observations is not empty, so [sortedMoods[0]] is an entry: the
    branch of the empty list is never taken. *)
Definition dominantMoodOf (dayMoods : list MoodType) : MoodType :=
  if 0 <? length dayMoods then
    let moodCounts := countMoods dayMoods in
    let sortedMoods := sortByCount moodCounts in
    match sortedMoods with
    | topMood :: _ =>
        let tiedMoods := List.filter (fun e => snd e =? snd topMood) sortedMoods in
        if 1 <? length tiedMoods then neutral else fst topMood
    | [] => neutral
    end
  else neutral.

Record WeeklyPoint := {
  date : DateKey;
  mood : MoodType;
  entries : nat
}.

(** One turn of the loop.  [now] is the value of [new Date()] in this
    turn; [date.setDate(date.getDate() - i)] moves the calendar day of its
    local time, in the time zone [tz] of the server, and [toISOString] prints
    the UTC day of the result. *)
Definition weeklyPoint (tz : TimeZone) (moodByDate : gmap DateKey (list MoodType))
    (now : Z) (i : Z) : WeeklyPoint :=
  let date := now in
  let date := setDate tz date (getDate tz date - i) in
  let dateKey := IsoDate (utcDay date) in
  let dayMoods := default [] (moodByDate !! dateKey) in
  {| date := dateKey;
     mood := dominantMoodOf dayMoods;
     entries := length dayMoods |}.

(** [for (let i = 6; i >= 0; i--)], where [clock i] is the value of
    [new Date()] in the turn [i]. *)
Definition weeklyData (tz : TimeZone) (clock : Z -> Z) (entries : list JournalEntry)
    : list WeeklyPoint :=
  let moodByDate := groupByDate entries in
  map (fun i => weeklyPoint tz moodByDate (clock i) i) [6; 5; 4; 3; 2; 1; 0]%Z.

End Routes.

(** ** The properties, in the words of the specification *)

Module Spec.

Import Sentiment Routes.

(** A text contains a keyword "case-insensitively, as a substring, anywhere":
    a part of the text is the keyword up to the case of its letters. *)
Definition containsIgnoringCase (text keyword : string) : Prop :=
  exists before occurrence after,
    text = before +:+ occurrence +:+ after /\
    Js.toLowerCase occurrence = Js.toLowerCase keyword.

(** The whole-word occurrences of a keyword in a text: the positions, all of
    them, at which the keyword stands between two word boundaries. *)
Fixpoint wholeWordOccurrences (k : string) (prev : option ascii) (s : string) : nat :=
  (if Js.matchesAt k prev s then 1 else 0)
  + match s with
    | EmptyString => 0
    | String c s' => wholeWordOccurrences k (Some c) s'
    end.

Definition wholeWordCount (k s : string) : nat := wholeWordOccurrences k None s.

(** The sum of a category: the whole-word occurrence counts of its keywords. *)
Definition categorySum (keywords : list string) (lowerText : string) : nat :=
  list_sum (map (fun k => wholeWordCount k lowerText) keywords).

Definition categoryScore (m : MoodType) (lowerText : string) : nat :=
  match m with
  | happy => categorySum happyKeywords lowerText
  | sad => categorySum sadKeywords lowerText
  | anxious => categorySum anxiousKeywords lowerText
  | suicidal | neutral => 0
  end.

Definition scoredCategories : list MoodType := [happy; sad; anxious].

(** The whitespace-delimited tokens of a text: its maximal runs of code
    units that are not whitespace.  [inToken] holds while the scan is inside
    one. *)
Fixpoint tokensFrom (inToken : bool) (s : string) : nat :=
  match s with
  | EmptyString => 0
  | String c s' =>
      if Js.isWhitespace c then tokensFrom false s'
      else (if inToken then 0 else 1) + tokensFrom true s'
  end.

Definition tokenCount (s : string) : nat := tokensFrom false s.

(** The frequency of a mood among the observations of a day, and the moods
    that attain the maximum frequency of the day. *)
Definition frequency (m : MoodType) (dayMoods : list MoodType) : nat :=
  length (List.filter (fun m' => bool_decide (m' = m)) dayMoods).


(** The observations bucketed to a day, in the order of the entries. *)
Definition observationsOf (day : DateKey) (entries : list JournalEntry) : list MoodType :=
  map detectedMood (List.filter (fun e => bool_decide (dateKeyOf e = day)) entries).

(** The tags of the quote catalogue. *)
Definition quoteTags : list string := ["happy"; "sad"; "anxious"; "general"].

End Spec.

(** ** Notions used by the proofs *)

Module Aux.

Import Sentiment.

(** The two constant results of [analyzeSentiment]. *)
Definition crisisResult : SentimentAnalysisResult :=
  {| mood := suicidal; confidence := 9 # 10; isCrisis := true |}.

Definition neutralResult : SentimentAnalysisResult :=
  {| mood := neutral; confidence := 1 # 2; isCrisis := false |}.

(** The largest of the three category sums. *)
Definition topScore (lowerText : string) : nat :=
  Nat.max (Spec.categoryScore happy lowerText)
          (Nat.max (Spec.categoryScore sad lowerText)
                   (Spec.categoryScore anxious lowerText)).

(** The first category, in the order happy, sad, anxious, whose sum is the
    largest one. *)
Definition firstTop (lowerText : string) : MoodType :=
  if Spec.categoryScore happy lowerText =? topScore lowerText then happy
  else if Spec.categoryScore sad lowerText =? topScore lowerText then sad
  else anxious.

(** The code units that [Js.canonicalize] gives to word characters. *)
Definition isWordCode (n : N) : bool :=
  Js.inRange 65 90 n || Js.inRange 48 57 n || (n =? 95)%N.

(** A keyword made of word characters only. *)
Fixpoint allWordChars (k : string) : bool :=
  match k with
  | EmptyString => true
  | String c k' => Js.isWordChar c && allWordChars k'
  end.

(** [s] starts with at least [n] word characters. *)
Fixpoint wordRun (n : nat) (s : string) : Prop :=
  match n with
  | O => True
  | S n' =>
      match s with
      | EmptyString => False
      | String c s' => Js.isWordChar c = true /\ wordRun n' s'
      end
  end.

(** [occ] is the keyword [k] up to the case of its letters, as the [i] flag
    compares them. *)
Fixpoint sameIgnoringCase (k occ : string) : Prop :=
  match k, occ with
  | EmptyString, EmptyString => True
  | String kc k', String c occ' =>
      Js.charMatches kc c = true /\ sameIgnoringCase k' occ'
  | _, _ => False
  end.

(** The code unit before the position that follows [occ]. *)
Fixpoint lastOf (prev : option ascii) (occ : string) : option ascii :=
  match occ with
  | EmptyString => prev
  | String c occ' => lastOf (Some c) occ'
  end.

(** The last code unit of [s] is whitespace; [prevWs] answers for the empty
    string. *)
Fixpoint endsWith (prevWs : bool) (s : string) : bool :=
  match s with
  | EmptyString => prevWs
  | String c s' => endsWith (Js.isWhitespace c) s'
  end.

(** The text ends with whitespace. *)
Definition trailingGap (s : string) : bool := endsWith false s.

(** The text is empty or starts with whitespace. *)
Definition leadingGap (s : string) : bool :=
  match s with
  | EmptyString => true
  | String c _ => Js.isWhitespace c
  end.

Definition gap (b : bool) : nat := if b then 1 else 0.

End Aux.

(** ** Arrays and ordered queries *)

Module Arr.

(** A stable sort, as [Array.prototype.sort] is and as the model takes
    [ORDER BY] to be: [before x y] says that [x] may stand before [y], and an
    element goes before the elements that followed it in the input whenever
    it may.  The properties proved of a query do not depend on the order of
    rows that compare equal. *)
Fixpoint insertSorted {A} (before : A -> A -> bool) (x : A) (sorted : list A) : list A :=
  match sorted with
  | [] => [x]
  | y :: rest =>
      if before x y then x :: sorted
      else y :: insertSorted before x rest
  end.

Definition sort {A} (before : A -> A -> bool) (l : list A) : list A :=
  foldr (insertSorted before) [] l.

End Arr.

(** ** shared/schema.ts *)

Module Schema.

Import Routes.

(** A row of [users].  A timestamp is a number of milliseconds since the
    epoch, [None] for [null]. *)
Module User.
Record t := {
  id : Z;
  email : string;
  passwordHash : string;
  trustedEmail : string;
  createdAt : option Z;
  updatedAt : option Z
}.
End User.

(** A row of [journal_entries].  [detectedMood] is one of the five moods and
    [isQuoteRevealed] a boolean: the only values the code writes. *)
Module JournalEntry.
Record t := {
  id : Z;
  userId : Z;
  entryText : string;
  detectedMood : MoodType;
  quoteId : option Z;
  isQuoteRevealed : bool;
  createdAt : option Z
}.
End JournalEntry.

(** [InsertQuote]: a quote without the columns that the database fills. *)
Module InsertQuote.
Record t := {
  quoteText : string;
  author : option string;
  moodTag : string
}.
End InsertQuote.

(** What the schemas take from their libraries: the format that zod's
    [email()] accepts, and the check that drizzle-zod derives for a string
    column declared [varchar(255)]. *)
Record Formats := {
  isEmail : string -> bool;
  fitsVarchar : string -> bool
}.

(** [z.string()] *)
Definition asString (v : JsValue) : option string :=
  match v with JsString s => Some s | _ => None end.

(** [z.string().min(n)] *)
Definition stringMin (n : nat) (v : JsValue) : option string :=
  match v with
  | JsString s => if n <=? String.length s then Some s else None
  | _ => None
  end.

(** [z.string().email()] *)
Definition emailString (f : Formats) (v : JsValue) : option string :=
  match v with
  | JsString s => if isEmail f s then Some s else None
  | _ => None
  end.

(** A string column of [createInsertSchema(users)]. *)
Definition varcharString (f : Formats) (v : JsValue) : option string :=
  match v with
  | JsString s => if fitsVarchar f s then Some s else None
  | _ => None
  end.

(** The fields of a request body that a schema reads; a missing field is
    [JsUndefined]. *)
Record SignupBody := {
  signupEmail : JsValue;
  signupPassword : JsValue;
  signupTrustedEmail : JsValue
}.

Record InsertUser := {
  insEmail : string;
  insPassword : string;
  insTrustedEmail : string
}.

(** [insertUserSchema.parse]: [None] when it throws. *)
Definition insertUserSchema (f : Formats) (body : SignupBody) : option InsertUser :=
  match varcharString f (signupEmail body),
        stringMin 1 (signupPassword body),
        varcharString f (signupTrustedEmail body) with
  | Some e, Some p, Some t =>
      Some {| insEmail := e; insPassword := p; insTrustedEmail := t |}
  | _, _, _ => None
  end.

(** [loginSchema.parse] *)
Definition loginSchema (f : Formats) (email password : JsValue) : option (string * string) :=
  match emailString f email, stringMin 1 password with
  | Some e, Some p => Some (e, p)
  | _, _ => None
  end.

(** [changePasswordSchema.parse] *)
Definition changePasswordSchema (currentPassword newPassword : JsValue)
    : option (string * string) :=
  match stringMin 1 currentPassword, stringMin 8 newPassword with
  | Some c, Some n => Some (c, n)
  | _, _ => None
  end.

(** [updateTrustedEmailSchema.parse] *)
Definition updateTrustedEmailSchema (f : Formats) (trustedEmail : JsValue) : option string :=
  emailString f trustedEmail.

End Schema.

(** ** server/storage.ts *)

Module Storage.

Import Routes Schema.

(** The three tables, each in the order of insertion, and the next value of
    the sequence behind each [serial] key.  Of the failures of the database
    the model has the refusal of a journal entry, see [createJournalEntry];
    every other statement succeeds.  A timestamp is an instant: [now()] of
    the database is the time [now] of the request, and the database keeps
    its times in UTC, as drizzle writes and reads them. *)
Record Db := {
  users : list User.t;
  journalEntries : list JournalEntry.t;
  quotes : list Quote;
  userSeq : Z;
  entrySeq : Z;
  quoteSeq : Z
}.

Definition getUser (db : Db) (id : Z) : option User.t :=
  List.find (fun u => (User.id u =? id)%Z) (users db).

Definition getUserByEmail (db : Db) (email : string) : option User.t :=
  List.find (fun u => String.eqb (User.email u) email) (users db).

(** [createUser]: the database gives the id and both timestamps. *)
Definition createUser (db : Db) (email passwordHash trustedEmail : string) (now : Z)
    : User.t * Db :=
  let user :=
    {| User.id := userSeq db; User.email := email;
       User.passwordHash := passwordHash; User.trustedEmail := trustedEmail;
       User.createdAt := Some now; User.updatedAt := Some now |} in
  (user,
   {| users := users db ++ [user]; journalEntries := journalEntries db;
      quotes := quotes db; userSeq := (userSeq db + 1)%Z;
      entrySeq := entrySeq db; quoteSeq := quoteSeq db |}).

Definition setUsers (db : Db) (us : list User.t) : Db :=
  {| users := us; journalEntries := journalEntries db; quotes := quotes db;
     userSeq := userSeq db; entrySeq := entrySeq db; quoteSeq := quoteSeq db |}.

Definition updateUserPassword (db : Db) (id : Z) (passwordHash : string) (now : Z) : Db :=
  setUsers db
    (map (fun u =>
            if (User.id u =? id)%Z then
              {| User.id := User.id u; User.email := User.email u;
                 User.passwordHash := passwordHash;
                 User.trustedEmail := User.trustedEmail u;
                 User.createdAt := User.createdAt u; User.updatedAt := Some now |}
            else u)
         (users db)).

Definition updateUserTrustedEmail (db : Db) (id : Z) (trustedEmail : string) (now : Z) : Db :=
  setUsers db
    (map (fun u =>
            if (User.id u =? id)%Z then
              {| User.id := User.id u; User.email := User.email u;
                 User.passwordHash := User.passwordHash u;
                 User.trustedEmail := trustedEmail;
                 User.createdAt := User.createdAt u; User.updatedAt := Some now |}
            else u)
         (users db)).

(** [InsertJournalEntry] *)
Record InsertJournalEntry := {
  insUserId : Z;
  insEntryText : string;
  insDetectedMood : MoodType;
  insQuoteId : option Z;
  insIsQuoteRevealed : bool
}.

(** A value of a [text] column: PostgreSQL has no text with the code unit
    U+0000, and refuses a statement that binds one. *)
Fixpoint storable (s : string) : bool :=
  match s with
  | EmptyString => true
  | String c s' => negb (Js.codeUnit c =? 0)%N && storable s'
  end.

(** [references(() => users.id)] and [references(() => quotes.id)]: the row
    that a key names is in its table; [quote_id] may be [null]. *)
Definition userIdExists (db : Db) (id : Z) : bool :=
  existsb (fun u => (User.id u =? id)%Z) (users db).

Definition quoteIdExists (db : Db) (id : option Z) : bool :=
  match id with
  | Some q => existsb (fun quote => (Routes.id quote =? q)%Z) (quotes db)
  | None => true
  end.

Definition setEntrySeq (db : Db) (n : Z) : Db :=
  {| users := users db; journalEntries := journalEntries db; quotes := quotes db;
     userSeq := userSeq db; entrySeq := n; quoteSeq := quoteSeq db |}.

(** [createJournalEntry]: the new row, or [None] when the insertion throws.
    The database gives the id and the timestamp.  It refuses a text that is
    not [storable] before the statement runs, and it refuses a row whose
    [user_id] or [quote_id] names no row: then the sequence has given out
    the key already, and does not take it back. *)
Definition createJournalEntry (db : Db) (entry : InsertJournalEntry) (now : Z)
    : option JournalEntry.t * Db :=
  if negb (storable (insEntryText entry)) then (None, db)
  else
    let journalEntry :=
      {| JournalEntry.id := entrySeq db;
         JournalEntry.userId := insUserId entry;
         JournalEntry.entryText := insEntryText entry;
         JournalEntry.detectedMood := insDetectedMood entry;
         JournalEntry.quoteId := insQuoteId entry;
         JournalEntry.isQuoteRevealed := insIsQuoteRevealed entry;
         JournalEntry.createdAt := Some now |} in
    if userIdExists db (insUserId entry) && quoteIdExists db (insQuoteId entry) then
      (Some journalEntry,
       {| users := users db; journalEntries := journalEntries db ++ [journalEntry];
          quotes := quotes db; userSeq := userSeq db;
          entrySeq := (entrySeq db + 1)%Z; quoteSeq := quoteSeq db |})
    else (None, setEntrySeq db (entrySeq db + 1)%Z).

(** [ORDER BY created_at DESC]: the later row first, and a row without
    timestamp before the others. *)
Definition laterFirst (a b : JournalEntry.t) : bool :=
  match JournalEntry.createdAt a, JournalEntry.createdAt b with
  | None, _ => true
  | Some _, None => false
  | Some x, Some y => (y <=? x)%Z
  end.

Definition getUserJournalEntries (db : Db) (userId : Z) : list JournalEntry.t :=
  Arr.sort laterFirst
    (List.filter (fun e => (JournalEntry.userId e =? userId)%Z) (journalEntries db)).

Definition getQuote (db : Db) (id : Z) : option Quote :=
  List.find (fun q => (Routes.id q =? id)%Z) (quotes db).

(** [getJournalEntryWithQuote]: the entry, left-joined with its quote. *)
Definition getJournalEntryWithQuote (db : Db) (id : Z)
    : option (JournalEntry.t * option Quote) :=
  match List.find (fun e => (JournalEntry.id e =? id)%Z) (journalEntries db) with
  | None => None
  | Some e =>
      Some (e, match JournalEntry.quoteId e with
               | Some q => getQuote db q
               | None => None
               end)
  end.

Definition markQuoteAsRevealed (db : Db) (id : Z) : Db :=
  {| users := users db;
     journalEntries :=
       map (fun e =>
              if (JournalEntry.id e =? id)%Z then
                {| JournalEntry.id := JournalEntry.id e;
                   JournalEntry.userId := JournalEntry.userId e;
                   JournalEntry.entryText := JournalEntry.entryText e;
                   JournalEntry.detectedMood := JournalEntry.detectedMood e;
                   JournalEntry.quoteId := JournalEntry.quoteId e;
                   JournalEntry.isQuoteRevealed := true;
                   JournalEntry.createdAt := JournalEntry.createdAt e |}
              else e)
           (journalEntries db);
     quotes := quotes db; userSeq := userSeq db; entrySeq := entrySeq db;
     quoteSeq := quoteSeq db |}.

(** [gte(createdAt, startDate)] and [lte(createdAt, endDate)]: a comparison
    with [null] selects nothing. *)
Definition inRange (startDate endDate : Z) (e : JournalEntry.t) : bool :=
  match JournalEntry.createdAt e with
  | Some t => (startDate <=? t)%Z && (t <=? endDate)%Z
  | None => false
  end.

Definition getUserEntriesInDateRange (db : Db) (userId : Z) (startDate endDate : Z)
    : list JournalEntry.t :=
  Arr.sort laterFirst
    (List.filter (fun e => (JournalEntry.userId e =? userId)%Z
                           && inRange startDate endDate e)
                 (journalEntries db)).

Definition getQuotesByMoodTag (db : Db) (moodTag : string) : list Quote :=
  List.filter (fun q => String.eqb (Routes.moodTag q) moodTag) (quotes db).

(** [createQuote], and the insertion of several quotes in one statement:
    the sequence numbers them in their order. *)
Definition createQuote (db : Db) (quote : InsertQuote.t) : Quote * Db :=
  let newQuote :=
    {| Routes.id := quoteSeq db;
       Routes.quoteText := InsertQuote.quoteText quote;
       Routes.author := InsertQuote.author quote;
       Routes.moodTag := InsertQuote.moodTag quote |} in
  (newQuote,
   {| users := users db; journalEntries := journalEntries db;
      quotes := quotes db ++ [newQuote]; userSeq := userSeq db;
      entrySeq := entrySeq db; quoteSeq := (quoteSeq db + 1)%Z |}).

Definition insertQuotes (db : Db) (values : list InsertQuote.t) : Db :=
  foldl (fun db quote => snd (createQuote db quote)) db values.

Definition initialQuotes : list InsertQuote.t :=
  [ (* Happy quotes, sad quotes, anxious quotes, general quotes *)
  {| InsertQuote.quoteText := "Gratitude turns what we have into enough, and more.";
     InsertQuote.author := Some "Melody Beattie"; InsertQuote.moodTag := "happy" |};
  {| InsertQuote.quoteText := "The best time to plant a tree was 20 years ago. The second best time is now.";
     InsertQuote.author := Some "Chinese Proverb"; InsertQuote.moodTag := "happy" |};
  {| InsertQuote.quoteText := "Happiness is not something ready made. It comes from your own actions.";
     InsertQuote.author := Some "Dalai Lama"; InsertQuote.moodTag := "happy" |};
  {| InsertQuote.quoteText := "Joy is not in things; it is in us.";
     InsertQuote.author := Some "Richard Wagner"; InsertQuote.moodTag := "happy" |};
  {| InsertQuote.quoteText := "The secret of being happy is accepting where you are in life and making the most out of everyday.";
     InsertQuote.author := Some "Unknown"; InsertQuote.moodTag := "happy" |};
  {| InsertQuote.quoteText := "Happiness is a choice, not a result. Nothing will make you happy until you choose to be happy.";
     InsertQuote.author := Some "Ralph Marston"; InsertQuote.moodTag := "happy" |};
  {| InsertQuote.quoteText := "Count your age by friends, not years. Count your life by smiles, not tears.";
     InsertQuote.author := Some "John Lennon"; InsertQuote.moodTag := "happy" |};
  {| InsertQuote.quoteText := "The happiest people don't have the best of everything, they just make the best of everything.";
     InsertQuote.author := Some "Unknown"; InsertQuote.moodTag := "happy" |};
  {| InsertQuote.quoteText := "Every moment is a fresh beginning.";
     InsertQuote.author := Some "T.S. Eliot"; InsertQuote.moodTag := "sad" |};
  {| InsertQuote.quoteText := "The wound is the place where the Light enters you.";
     InsertQuote.author := Some "Rumi"; InsertQuote.moodTag := "sad" |};
  {| InsertQuote.quoteText := "What lies behind us and what lies before us are tiny matters compared to what lies within us.";
     InsertQuote.author := Some "Ralph Waldo Emerson"; InsertQuote.moodTag := "sad" |};
  {| InsertQuote.quoteText := "The darkest nights produce the brightest stars.";
     InsertQuote.author := Some "John Green"; InsertQuote.moodTag := "sad" |};
  {| InsertQuote.quoteText := "Sometimes you need to sit lonely on the floor in a quiet room in order to hear your own voice and not let it get drowned out by others.";
     InsertQuote.author := Some "Charlotte Eriksson"; InsertQuote.moodTag := "sad" |};
  {| InsertQuote.quoteText := "Pain is inevitable. Suffering is optional.";
     InsertQuote.author := Some "Haruki Murakami"; InsertQuote.moodTag := "sad" |};
  {| InsertQuote.quoteText := "The sun will rise and we will try again.";
     InsertQuote.author := Some "Twenty One Pilots"; InsertQuote.moodTag := "sad" |};
  {| InsertQuote.quoteText := "You are allowed to feel messed up and inside out. It doesn't mean you're defective - it just means you're human.";
     InsertQuote.author := Some "David Mitchell"; InsertQuote.moodTag := "sad" |};
  {| InsertQuote.quoteText := "This too shall pass. It might pass like a kidney stone, but it will pass.";
     InsertQuote.author := Some "Unknown"; InsertQuote.moodTag := "sad" |};
  {| InsertQuote.quoteText := "You have been assigned this mountain to show others it can be moved.";
     InsertQuote.author := Some "Mel Robbins"; InsertQuote.moodTag := "anxious" |};
  {| InsertQuote.quoteText := "Anxiety is the dizziness of freedom.";
     InsertQuote.author := Some ("S" +:+ String (ascii_of_nat 248) "ren Kierkegaard"); InsertQuote.moodTag := "anxious" |};
  {| InsertQuote.quoteText := "Nothing can harm you as much as your own thoughts unguarded.";
     InsertQuote.author := Some "Buddha"; InsertQuote.moodTag := "anxious" |};
  {| InsertQuote.quoteText := "You are braver than you believe, stronger than you seem, and smarter than you think.";
     InsertQuote.author := Some "A.A. Milne"; InsertQuote.moodTag := "anxious" |};
  {| InsertQuote.quoteText := "Breathe in peace, breathe out stress.";
     InsertQuote.author := Some "Unknown"; InsertQuote.moodTag := "anxious" |};
  {| InsertQuote.quoteText := "Worry does not empty tomorrow of its sorrow, it empties today of its strength.";
     InsertQuote.author := Some "Corrie ten Boom"; InsertQuote.moodTag := "anxious" |};
  {| InsertQuote.quoteText := "You can't control everything. Sometimes you just need to relax and have faith that things will work out.";
     InsertQuote.author := Some "Kody Keplinger"; InsertQuote.moodTag := "anxious" |};
  {| InsertQuote.quoteText := "Take deep breaths and remember: you've survived 100% of your bad days so far.";
     InsertQuote.author := Some "Unknown"; InsertQuote.moodTag := "anxious" |};
  {| InsertQuote.quoteText := "Anxiety is not your enemy. It's your body's way of telling you to slow down and pay attention.";
     InsertQuote.author := Some "Unknown"; InsertQuote.moodTag := "anxious" |};
  {| InsertQuote.quoteText := "Progress, not perfection.";
     InsertQuote.author := Some "Anonymous"; InsertQuote.moodTag := "general" |};
  {| InsertQuote.quoteText := "You are braver than you believe, stronger than you seem, and smarter than you think.";
     InsertQuote.author := Some "A.A. Milne"; InsertQuote.moodTag := "general" |};
  {| InsertQuote.quoteText := "The only way out is through.";
     InsertQuote.author := Some "Robert Frost"; InsertQuote.moodTag := "general" |};
  {| InsertQuote.quoteText := "Be yourself; everyone else is already taken.";
     InsertQuote.author := Some "Oscar Wilde"; InsertQuote.moodTag := "general" |};
  {| InsertQuote.quoteText := "Life is 10% what happens to you and 90% how you react to it.";
     InsertQuote.author := Some "Charles R. Swindoll"; InsertQuote.moodTag := "general" |};
  {| InsertQuote.quoteText := "The journey of a thousand miles begins with one step.";
     InsertQuote.author := Some "Lao Tzu"; InsertQuote.moodTag := "general" |};
  {| InsertQuote.quoteText := "What doesn't kill you makes you stronger.";
     InsertQuote.author := Some "Friedrich Nietzsche"; InsertQuote.moodTag := "general" |};
  {| InsertQuote.quoteText := "Yesterday is history, tomorrow is a mystery, today is a gift of God, which is why we call it the present.";
     InsertQuote.author := Some "Bill Keane"; InsertQuote.moodTag := "general" |};
  {| InsertQuote.quoteText := "It is during our darkest moments that we must focus to see the light.";
     InsertQuote.author := Some "Aristotle"; InsertQuote.moodTag := "general" |};
  {| InsertQuote.quoteText := "Believe you can and you're halfway there.";
     InsertQuote.author := Some "Theodore Roosevelt"; InsertQuote.moodTag := "general" |}
  ].

(** [initializeQuotes]: nothing when the table has a row. *)
Definition initializeQuotes (db : Db) : Db :=
  let existingQuotes := take 1 (quotes db) in
  if 0 <? length existingQuotes then db
  else insertQuotes db initialQuotes.

End Storage.

(** ** server/services/email.ts and the handlers of server/routes.ts *)

Module Api.

Import Sentiment JsDate Routes Schema Storage.

(** What the handlers take from bcrypt: [hash salt password] is
    [bcrypt.hash(password, 12)] when the library draws [salt], and [compare]
    is [bcrypt.compare]. *)
Record Bcrypt := {
  hash : string -> string -> string;
  compare : string -> string -> bool
}.

Record CrisisAlertEmailData := {
  userEmail : string;
  trustedPersonEmail : string;
  alertEntryText : string;
  timestamp : Z
}.

(** The field [transporter] of the email service: [null], or a transporter
    whose [sendMail] resolves or throws. *)
Inductive Transporter :=
| NotInitialized
| Initialized (sendMailResolves : bool).





(** [sendCrisisAlert]: [false] without transporter and when [sendMail]
    throws; the mail goes to [trustedPersonEmail].  [outbox] lists the mails
    that were sent. *)
Definition sendCrisisAlert (transporter : Transporter) (data : CrisisAlertEmailData)
    (outbox : list CrisisAlertEmailData) : bool * list CrisisAlertEmailData :=
  match transporter with
  | NotInitialized => (false, outbox)
  | Initialized true => (true, outbox ++ [data])
  | Initialized false => (false, outbox)
  end.

(** The server as one client sees it: the database, the [userId] of the
    session of the client, and the mails sent. *)
Record State := {
  db : Db;
  session : option Z;
  outbox : list CrisisAlertEmailData
}.

Inductive Body :=
| Message (message : string)
| UserBody (id : Z) (email trustedEmail : string)
| EntryBody (entry : option (JournalEntry.t * option Quote))
| EntriesBody (entries : list JournalEntry.t)
| WeeklyBody (weeklyData : list WeeklyPoint).

Record Response := {
  status : nat;
  body : Body
}.

Definition json (body : Body) : Response := {| status := 200; body := body |}.

Definition fail (status : nat) (message : string) : Response :=
  {| status := status; body := Message message |}.

(** [requireAuth]: [!req.session.userId] holds without a user id and for
    the id 0. *)
Definition requireAuth (st : State) : option Z :=
  match session st with
  | Some userId => if (userId =? 0)%Z then None else Some userId
  | None => None
  end.

Definition unauthorized : Response := fail 401 "Unauthorized".

Definition setDb (st : State) (db' : Db) : State :=
  {| db := db'; session := session st; outbox := outbox st |}.

Definition setSession (st : State) (s : option Z) : State :=
  {| db := db st; session := s; outbox := outbox st |}.

(** [POST /api/auth/signup] *)
Definition signup (f : Formats) (b : Bcrypt) (now : Z) (salt : string)
    (body : SignupBody) (st : State) : Response * State :=
  match insertUserSchema f body with
  | None => (fail 400 "Invalid input data", st)
  | Some validatedData =>
      match getUserByEmail (db st) (insEmail validatedData) with
      | Some existingUser => (fail 409 "User already exists", st)
      | None =>
          let passwordHash := hash b salt (insPassword validatedData) in
          let (user, db') :=
            createUser (db st) (insEmail validatedData) passwordHash
                       (insTrustedEmail validatedData) now in
          (json (UserBody (User.id user) (User.email user) (User.trustedEmail user)),
           {| db := db'; session := Some (User.id user); outbox := outbox st |})
      end
  end.

(** [POST /api/auth/login] *)
Definition login (f : Formats) (b : Bcrypt) (email password : JsValue) (st : State)
    : Response * State :=
  match loginSchema f email password with
  | None => (fail 400 "Invalid input data", st)
  | Some (email, password) =>
      match getUserByEmail (db st) email with
      | None => (fail 401 "Invalid credentials", st)
      | Some user =>
          if compare b password (User.passwordHash user) then
            (json (UserBody (User.id user) (User.email user) (User.trustedEmail user)),
             setSession st (Some (User.id user)))
          else (fail 401 "Invalid credentials", st)
      end
  end.

(** [POST /api/auth/logout], when the session store destroys the session. *)
Definition logout (st : State) : Response * State :=
  (json (Message "Logged out successfully"), setSession st None).

(** [GET /api/auth/me] *)
Definition me (st : State) : Response * State :=
  match requireAuth st with
  | None => (unauthorized, st)
  | Some userId =>
      match getUser (db st) userId with
      | None => (fail 404 "User not found", st)
      | Some user =>
          (json (UserBody (User.id user) (User.email user) (User.trustedEmail user)), st)
      end
  end.

(** [POST /api/journal/entries].  [now] is the time of the request, [random]
    the value of [Math.random()].  When the insertion throws, the [catch] of
    the handler answers 500. *)
Definition postJournalEntry (transporter : Transporter) (now : Z) (random : Q)
    (entryText : JsValue) (st : State) : Response * State :=
  match requireAuth st with
  | None => (unauthorized, st)
  | Some userId =>
      if negb (truthy entryText) || negb (isString entryText) then
        (fail 400 "Entry text is required", st)
      else
        match callAnalyzeSentiment entryText, entryText with
        | Returned sentimentResult, JsString text =>
            let quoteTag := getMoodQuoteTag (Sentiment.mood sentimentResult) in
            let availableQuotes := getQuotesByMoodTag (db st) quoteTag in
            let randomQuote := pickQuote random availableQuotes in
            match createJournalEntry (db st)
                    {| insUserId := userId; insEntryText := text;
                       insDetectedMood := Sentiment.mood sentimentResult;
                       insQuoteId := quoteIdOf randomQuote;
                       insIsQuoteRevealed := false |} now with
            | (Some entry, db') =>
                let outbox' :=
                  if isCrisis sentimentResult then
                    match getUser db' userId with
                    | Some user =>
                        snd (sendCrisisAlert transporter
                               {| userEmail := User.email user;
                                  trustedPersonEmail := User.trustedEmail user;
                                  alertEntryText := text; timestamp := now |}
                               (outbox st))
                    | None => outbox st
                    end
                  else outbox st in
                let entryWithQuote :=
                  getJournalEntryWithQuote db' (JournalEntry.id entry) in
                (json (EntryBody entryWithQuote),
                 {| db := db'; session := session st; outbox := outbox' |})
            | (None, db') =>
                (fail 500 "Failed to create journal entry", setDb st db')
            end
        | _, _ => (fail 500 "Failed to create journal entry", st)
        end
  end.

(** [GET /api/journal/entries] *)
Definition getJournalEntries (st : State) : Response * State :=
  match requireAuth st with
  | None => (unauthorized, st)
  | Some userId => (json (EntriesBody (getUserJournalEntries (db st) userId)), st)
  end.

(** The check of the two routes on one entry:
    [!entry || entry.userId !== req.session.userId]. *)
Definition ownEntry (userId : Z) (entry : option (JournalEntry.t * option Quote))
    : option (JournalEntry.t * option Quote) :=
  match entry with
  | Some e => if (JournalEntry.userId (fst e) =? userId)%Z then Some e else None
  | None => None
  end.

(** [GET /api/journal/entries/:id], for an id that [parseInt] reads as the
    integer [entryId]. *)
Definition getJournalEntry (entryId : Z) (st : State) : Response * State :=
  match requireAuth st with
  | None => (unauthorized, st)
  | Some userId =>
      match ownEntry userId (getJournalEntryWithQuote (db st) entryId) with
      | None => (fail 404 "Entry not found", st)
      | Some entry => (json (EntryBody (Some entry)), st)
      end
  end.

(** [POST /api/journal/entries/:id/reveal-quote] *)
Definition revealQuote (entryId : Z) (st : State) : Response * State :=
  match requireAuth st with
  | None => (unauthorized, st)
  | Some userId =>
      match ownEntry userId (getJournalEntryWithQuote (db st) entryId) with
      | None => (fail 404 "Entry not found", st)
      | Some _ =>
          (json (Message "Quote revealed"),
           setDb st (markQuoteAsRevealed (db st) entryId))
      end
  end.

(** The two columns that the aggregation reads, the timestamp as its day. *)
Definition toObservation (e : JournalEntry.t) : Routes.JournalEntry :=
  {| Routes.createdAt := utcDay <$> JournalEntry.createdAt e;
     Routes.detectedMood := JournalEntry.detectedMood e |}.

(** [GET /api/mood/weekly].  [endNow] and [startNow] are the values of the
    two [new Date()] for [endDate] and [startDate], and [clock i] is the
    value of [new Date()] in the turn [i] of the loop.
    [startDate.setDate(endDate.getDate() - 6)] sets the day of the month of
    [startDate], in the time zone [tz] of the server. *)
Definition getWeeklyMood (tz : TimeZone) (endNow startNow : Z) (clock : Z -> Z)
    (st : State) : Response * State :=
  match requireAuth st with
  | None => (unauthorized, st)
  | Some userId =>
      let endDate := endNow in
      let startDate := setDate tz startNow (getDate tz endDate - 6) in
      let entries := getUserEntriesInDateRange (db st) userId startDate endDate in
      (json (WeeklyBody (weeklyData tz clock (map toObservation entries))), st)
  end.

(** [POST /api/profile/change-password] *)
Definition changePassword (b : Bcrypt) (now : Z) (salt : string)
    (currentPassword newPassword : JsValue) (st : State) : Response * State :=
  match requireAuth st with
  | None => (unauthorized, st)
  | Some userId =>
      match changePasswordSchema currentPassword newPassword with
      | None => (fail 400 "Invalid input data", st)
      | Some (currentPassword, newPassword) =>
          match getUser (db st) userId with
          | None => (fail 404 "User not found", st)
          | Some user =>
              if compare b currentPassword (User.passwordHash user) then
                let newPasswordHash := hash b salt newPassword in
                (json (Message "Password updated successfully"),
                 setDb st (updateUserPassword (db st) userId newPasswordHash now))
              else (fail 400 "Current password is incorrect", st)
          end
      end
  end.

(** [POST /api/profile/update-trusted-email] *)
Definition updateTrustedEmail (f : Formats) (now : Z) (trustedEmail : JsValue)
    (st : State) : Response * State :=
  match requireAuth st with
  | None => (unauthorized, st)
  | Some userId =>
      match updateTrustedEmailSchema f trustedEmail with
      | None => (fail 400 "Invalid input data", st)
      | Some trustedEmail =>
          (json (Message "Trusted email updated successfully"),
           setDb st (updateUserTrustedEmail (db st) userId trustedEmail now))
      end
  end.

End Api.

(** ** client/src/components/sidebar.tsx *)

Module Sidebar.

Import Schema.

(** [entry => entry.createdAt] *)
Definition hasCreatedAt (entry : JournalEntry.t) : bool :=
  match JournalEntry.createdAt entry with Some _ => true | None => false end.

(** [new Date(entry.createdAt!).getTime()] *)
Definition getTime (entry : JournalEntry.t) : Z :=
  default 0%Z (JournalEntry.createdAt entry).

(** The comparator [(a, b) => getTime(b) - getTime(a)] leaves [a] before [b]
    when [a] is not the earlier one. *)
Definition newerFirst (a b : JournalEntry.t) : bool := (getTime b <=? getTime a)%Z.

Definition recentEntries (entries : list JournalEntry.t) : list JournalEntry.t :=
  take 5 (Arr.sort newerFirst (List.filter hasCreatedAt entries)).

(** The texts of [getRelativeTime]: 'Unknown', 'Just now', [`${h}h ago`],
    'Yesterday', [`${d}d ago`], and [entryDate.toLocaleDateString()]. *)
Inductive RelativeTime :=
| Unknown
| JustNow
| HoursAgo (diffHours : Z)
| Yesterday
| DaysAgo (diffDays : Z)
| LocaleDate (entryDate : Z).

(** [getRelativeTime]: [now] is the value of [new Date()], and a date is its
    number of milliseconds.  [Math.floor] of a quotient is the floor
    division. *)
Definition getRelativeTime (now : Z) (date : option Z) : RelativeTime :=
  match date with
  | None => Unknown
  | Some entryDate =>
      let diffMs := (now - entryDate)%Z in
      let diffHours := (diffMs / (1000 * 60 * 60))%Z in
      let diffDays := (diffHours / 24)%Z in
      if (diffDays =? 0)%Z then
        if (diffHours =? 0)%Z then JustNow else HoursAgo diffHours
      else if (diffDays =? 1)%Z then Yesterday
      else if (diffDays <? 7)%Z then DaysAgo diffDays
      else LocaleDate entryDate
  end.

End Sidebar.

(** ** client/src/components/mood-chart.tsx *)

Module MoodChart.

Import Sentiment Routes.

(** [Math.max(...data.map(d => d.entries), 1)] *)
Definition maxEntries (data : list WeeklyPoint) : nat :=
  list_max (map entries data ++ [1]).

(** [heightPercentage] of a day of the chart. *)
Definition heightPercentage (maxEntries : nat) (day : WeeklyPoint) : Q :=
  if 0 <? entries day
  then Qmax (natQ (entries day) / natQ maxEntries * 100) 20
  else 10.

End MoodChart.

(** ** client/src/pages/mood-tracker.tsx *)

Module MoodTracker.

Import Routes.

(** The height of a bar, in percent:
    [day.entries > 0 ? Math.min(day.entries * 30 + 20, 100) : 10]. *)
Definition barHeight (day : WeeklyPoint) : nat :=
  if 0 <? entries day then Nat.min (entries day * 30 + 20) 100 else 10.

(** [weeklyData.reduce((sum, day) => sum + day.entries, 0)] *)
Definition totalEntries (weeklyData : list WeeklyPoint) : nat :=
  foldl (fun sum day => sum + entries day) 0 weeklyData.

(** [weeklyData.filter(day => day.entries > 0).length] *)
Definition daysTracked (weeklyData : list WeeklyPoint) : nat :=
  length (List.filter (fun day => 0 <? entries day) weeklyData).

(** The table of the mood distribution, in the insertion order of its
    keys: [acc[day.mood] = (acc[day.mood] || 0) + 1] for the days that have
    entries. *)
Definition moodDistribution (weeklyData : list WeeklyPoint) : Counts :=
  foldl (fun acc day =>
           if 0 <? entries day
           then setCount acc (Routes.mood day)
                         (default 0 (getCount acc (Routes.mood day)) + 1)
           else acc)
        [] weeklyData.

End MoodTracker.

(** ** client/src/pages/dashboard.tsx *)

Module Dashboard.

(** [String.prototype.trim]: without the whitespace at both ends, which on
    this range of code units is the class [\s]. *)
Fixpoint trimStart (s : string) : string :=
  match s with
  | EmptyString => EmptyString
  | String c s' => if Js.isWhitespace c then trimStart s' else s
  end.

Fixpoint trimEnd (s : string) : string :=
  match s with
  | EmptyString => EmptyString
  | String c s' =>
      match trimEnd s' with
      | EmptyString => if Js.isWhitespace c then EmptyString else String c EmptyString
      | rest => String c rest
      end
  end.

Definition trim (s : string) : string := trimEnd (trimStart s).

(** [handleSubmit]: the text that goes to [POST /api/journal/entries] as
    [entryText], or [None] when the toast "Empty entry" is shown instead. *)
Definition handleSubmit (moodText : string) : option string :=
  if String.eqb (trim moodText) EmptyString then None else Some moodText.

End Dashboard.

(** ** The constraints of the database *)

Module Inv.

Import JsDate Routes Schema Storage Api.

(** A database before any request: empty tables, sequences at 1. *)
Definition emptyDb : Db :=
  {| users := []; journalEntries := []; quotes := [];
     userSeq := 1; entrySeq := 1; quoteSeq := 1 |}.

(** What the declarations of the tables ensure: the keys are distinct
    values that their sequence has given out, counted from 1, and the emails
    of the users are distinct. *)
Record wf (db : Db) : Prop := {
  wf_seqs : (1 <= userSeq db /\ 1 <= entrySeq db /\ 1 <= quoteSeq db)%Z;
  wf_user_ids : Forall (fun u => (1 <= User.id u < userSeq db)%Z) (users db);
  wf_user_keys : NoDup (map User.id (users db));
  wf_emails : NoDup (map User.email (users db));
  wf_entry_ids : Forall (fun e => (1 <= JournalEntry.id e < entrySeq db)%Z) (journalEntries db);
  wf_entry_keys : NoDup (map JournalEntry.id (journalEntries db));
  wf_quote_ids : Forall (fun q => (1 <= Routes.id q < quoteSeq db)%Z) (quotes db);
  wf_quote_keys : NoDup (map Routes.id (quotes db))
}.

(** A code unit that is an ASCII letter. *)
Definition isLetter (c : ascii) : bool :=
  let n := Js.codeUnit c in
  Js.inRange 97 122 n || Js.inRange 65 90 n.

(** No code unit of the text is an ASCII letter. *)
Fixpoint noLetter (s : string) : bool :=
  match s with
  | EmptyString => true
  | String c s' => negb (isLetter c) && noLetter s'
  end.

(** The keyword starts with a letter. *)
Definition startsWithLetter (k : string) : bool :=
  match k with String c _ => isLetter c | EmptyString => false end.

(** Every code unit of the text is whitespace. *)
Fixpoint allWhitespace (s : string) : bool :=
  match s with
  | EmptyString => true
  | String c s' => Js.isWhitespace c && allWhitespace s'
  end.

(** The rows of a user in the table of the entries. *)
Definition entriesOf (db : Db) (userId : Z) : list JournalEntry.t :=
  List.filter (fun e => (JournalEntry.userId e =? userId)%Z) (journalEntries db).

(** The row that the handler inserts for a text. *)
Definition insertedEntry (db : Db) (userId : Z) (text : string) (random : Q)
    : InsertJournalEntry :=
  {| insUserId := userId; insEntryText := text;
     insDetectedMood := Sentiment.mood (Sentiment.analyzeSentiment text);
     insQuoteId :=
       quoteIdOf (pickQuote random
                    (getQuotesByMoodTag db
                       (Sentiment.getMoodQuoteTag (Sentiment.mood (Sentiment.analyzeSentiment text)))));
     insIsQuoteRevealed := false |}.

(** The row that the database makes of an insertion, and the database
    with that row. *)
Definition rowOf (db : Db) (entry : InsertJournalEntry) (now : Z) : JournalEntry.t :=
  {| JournalEntry.id := entrySeq db;
     JournalEntry.userId := insUserId entry;
     JournalEntry.entryText := insEntryText entry;
     JournalEntry.detectedMood := insDetectedMood entry;
     JournalEntry.quoteId := insQuoteId entry;
     JournalEntry.isQuoteRevealed := insIsQuoteRevealed entry;
     JournalEntry.createdAt := Some now |}.

Definition addEntry (db : Db) (row : JournalEntry.t) : Db :=
  {| users := users db; journalEntries := journalEntries db ++ [row];
     quotes := quotes db; userSeq := userSeq db;
     entrySeq := (entrySeq db + 1)%Z; quoteSeq := quoteSeq db |}.

(** The mails after the handler has run. *)
Definition outboxAfter (transporter : Transporter) (now : Z) (userId : Z)
    (text : string) (st : State) : list CrisisAlertEmailData :=
  if Sentiment.isCrisis (Sentiment.analyzeSentiment text) then
    match getUser (db st) userId with
    | Some user =>
        snd (sendCrisisAlert transporter
               {| userEmail := User.email user;
                  trustedPersonEmail := User.trustedEmail user;
                  alertEntryText := text; timestamp := now |}
               (outbox st))
    | None => outbox st
    end
  else outbox st.

(** An entry with its quote revealed. *)
Definition revealed (e : JournalEntry.t) : JournalEntry.t :=
  {| JournalEntry.id := JournalEntry.id e;
     JournalEntry.userId := JournalEntry.userId e;
     JournalEntry.entryText := JournalEntry.entryText e;
     JournalEntry.detectedMood := JournalEntry.detectedMood e;
     JournalEntry.quoteId := JournalEntry.quoteId e;
     JournalEntry.isQuoteRevealed := true;
     JournalEntry.createdAt := JournalEntry.createdAt e |}.

(** The day of an entry, [None] without timestamp. *)
Definition dayOf (e : JournalEntry.t) : option Z :=
  utcDay <$> JournalEntry.createdAt e.

(** The entry has a timestamp, and its day is [d]. *)
Definition onDay (d : Z) (e : JournalEntry.t) : bool :=
  match JournalEntry.createdAt e with
  | Some t => (utcDay t =? d)%Z
  | None => false
  end.

(** The entry has a day, one of the seven days that end with [today]. *)
Definition inWindow (today : Z) (e : Routes.JournalEntry) : bool :=
  match Routes.createdAt e with
  | Some d => (today - 6 <=? d)%Z && (d <=? today)%Z
  | None => false
  end.

(** The day has entries. *)
Definition tracked (day : WeeklyPoint) : bool := 0 <? entries day.

(** The database after the signups of two users, who get the ids 1 and 2. *)
Definition twoUsers : Db :=
  snd (createUser
         (snd (createUser emptyDb "ann@example.org" "hash" "bob@example.org" 0))
         "cyd@example.org" "hash" "dee@example.org" 0).

(** The time zone America/New_York in the year 2026: five hours behind UTC,
    and four hours behind from 2026-03-08T07:00Z, when the local clocks go
    from 02:00 to 03:00, to 2026-11-01T06:00Z, when they go from 02:00 back
    to 01:00.  A local time that the clocks skip is read with the offset
    before the change, and a local time that they show twice as the earlier
    instant. *)
Definition easternTime2026 : TimeZone :=
  {| offsetAt := fun t =>
       if (1772953200000 <=? t)%Z && (t <? 1793512800000)%Z
       then (-14400000)%Z else (-18000000)%Z;
     offsetOf := fun t =>
       if (1772938800000 <=? t)%Z && (t <? 1793498400000)%Z
       then (-14400000)%Z else (-18000000)%Z |}.

(** The days [today - 6], ..., [today]. *)
Definition windowDays (today : Z) : list Z :=
  [today - 6; today - 5; today - 4; today - 3; today - 2; today - 1; today]%Z.

(** The sum of the counts of a table. *)
Definition totalCount (counts : Counts) : nat := list_sum (map snd counts).

End Inv.

(** ** Strings *)

Section StringFacts.

Lemma toLowerCase_app (a b : string) :
  Js.toLowerCase (a +:+ b) = Js.toLowerCase a +:+ Js.toLowerCase b.
Proof.
  induction a as [|c a IH]; simpl; [reflexivity|]. now rewrite IH.
Qed.

Lemma prefix_app (k rest : string) : String.prefix k (k +:+ rest) = true.
Proof.
  induction k as [|c k IH]; simpl.
  - now destruct rest.
  - destruct (ascii_dec c c); [exact IH | congruence].
Qed.

Lemma includes_prefix (s k : string) :
  String.prefix k s = true -> Js.includes s k = true.
Proof. intros H. destruct s; cbn [Js.includes]; rewrite H; reflexivity. Qed.

Lemma includes_app (before k rest : string) :
  Js.includes (before +:+ k +:+ rest) k = true.
Proof.
  induction before as [|c b IH].
  - change (Js.includes (k +:+ rest) k = true). apply includes_prefix, prefix_app.
  - change (Js.includes (String c (b +:+ k +:+ rest)) k = true).
    cbn [Js.includes]. rewrite IH. apply orb_true_r.
Qed.

Lemma prefix_split (k s : string) :
  String.prefix k s = true -> exists rest, s = k +:+ rest.
Proof.
  revert s. induction k as [|c k IH]; intros s H.
  - exists s. reflexivity.
  - destruct s as [|c' s]; simpl in H; [discriminate|].
    destruct (ascii_dec c c') as [->|]; [|discriminate].
    destruct (IH _ H) as [rest ->]. exists rest. reflexivity.
Qed.

Lemma includes_split (s k : string) :
  Js.includes s k = true -> exists before rest, s = before +:+ k +:+ rest.
Proof.
  induction s as [|c s IH]; cbn [Js.includes]; intros H.
  - rewrite orb_false_r in H. destruct (prefix_split _ _ H) as [rest ->].
    exists EmptyString, rest. reflexivity.
  - apply orb_true_iff in H as [H|H].
    + destruct (prefix_split _ _ H) as [rest ->].
      exists EmptyString, rest. reflexivity.
    + destruct (IH H) as (before & rest & ->).
      exists (String c before), rest. reflexivity.
Qed.

End StringFacts.

(** ** The keyword pattern *)

Section RegexFacts.

Import Aux.

Lemma isWordChar_canonicalize (c : ascii) :
  Js.isWordChar c = isWordCode (Js.canonicalize c).
Proof. destruct c as [[] [] [] [] [] [] [] []]; reflexivity. Qed.

Lemma charMatches_word (k c : ascii) :
  Js.isWordChar k = true -> Js.charMatches k c = true -> Js.isWordChar c = true.
Proof.
  unfold Js.charMatches. intros Hk Heq. apply N.eqb_eq in Heq.
  rewrite isWordChar_canonicalize in *. congruence.
Qed.

(** A matched keyword of word characters covers word characters only. *)
Lemma literal_wordRun (k : string) (prev : option ascii) (s : string) :
  allWordChars k = true ->
  Js.literalThenBoundary k prev s = true ->
  wordRun (String.length k) s.
Proof.
  revert prev s. induction k as [|kc k IH]; intros prev s Hk Hm; [exact I|].
  destruct s as [|c s]; [discriminate|].
  cbn in Hk, Hm. apply andb_true_iff in Hk as [Hkc Hk].
  apply andb_true_iff in Hm as [Hc Hm].
  split; [eapply charMatches_word; eassumption | eapply IH; eassumption].
Qed.

(** [\bKEYWORD\b] matches at a position exactly when the keyword stands
    there, up to letter case, between two word boundaries. *)
Lemma literalThenBoundary_occurrence (k : string) (prev : option ascii) (s : string) :
  Js.literalThenBoundary k prev s = true
  <-> exists occ rest,
        s = occ +:+ rest /\ sameIgnoringCase k occ
        /\ Js.isBoundary (lastOf prev occ) rest = true.
Proof.
  revert prev s. induction k as [|kc k IH]; intros prev s; cbn [Js.literalThenBoundary].
  - split.
    + intros H. exists EmptyString, s. repeat split. exact H.
    + intros (occ & rest & -> & Hocc & Hb). destruct occ; [exact Hb | destruct Hocc].
  - destruct s as [|c s].
    + split; [discriminate|].
      intros (occ & rest & Hs & Hocc & _). destruct occ; [destruct Hocc | discriminate].
    + rewrite andb_true_iff, IH. split.
      * intros (Hc & occ & rest & -> & Hocc & Hb).
        exists (String c occ), rest. repeat split; assumption.
      * intros (occ & rest & Hs & Hocc & Hb).
        destruct occ as [|c' occ]; [destruct Hocc|].
        injection Hs as <- ->. destruct Hocc as [Hc Hocc].
        split; [exact Hc|]. exists occ, rest. repeat split; assumption.
Qed.

Lemma matchesAt_occurrence (k : string) (prev : option ascii) (s : string) :
  Js.matchesAt k prev s = true
  <-> Js.isBoundary prev s = true
      /\ exists occ rest,
           s = occ +:+ rest /\ sameIgnoringCase k occ
           /\ Js.isBoundary (lastOf prev occ) rest = true.
Proof.
  unfold Js.matchesAt. now rewrite andb_true_iff, literalThenBoundary_occurrence.
Qed.

(** No match starts between two word characters. *)
Lemma matchesAt_inside (k : string) (p c : ascii) (s : string) :
  Js.isWordChar p = true -> Js.isWordChar c = true ->
  Js.matchesAt k (Some p) (String c s) = false.
Proof.
  intros Hp Hc. unfold Js.matchesAt, Js.isBoundary. cbn. rewrite Hp, Hc.
  reflexivity.
Qed.

Lemma scanMatches_all (k : string) :
  allWordChars k = true ->
  forall (s : string) (prev : option ascii) (skip : nat),
    skip = 0 \/ Js.wordBefore prev = true ->
    wordRun skip s ->
    Js.scanMatches k prev skip s = Spec.wholeWordOccurrences k prev s.
Proof.
  intros Hk. induction s as [|c s IH]; intros prev skip Hprev Hrun.
  - destruct skip; [|destruct Hrun]. cbn. lia.
  - destruct skip as [|skip].
    + cbn [Js.scanMatches Spec.wholeWordOccurrences].
      destruct (Js.matchesAt k prev (String c s)) eqn:Hm.
      * cbn [Nat.add]. f_equal.
        unfold Js.matchesAt in Hm. apply andb_true_iff in Hm as [_ Hm].
        pose proof (literal_wordRun _ _ _ Hk Hm) as Hr.
        destruct k as [|kc k]; [apply IH; [now left | exact I]|].
        destruct Hr as [Hc Hr]. apply IH; [now right | exact Hr].
      * apply IH; [now left | exact I].
    + destruct Hprev as [|Hprev]; [discriminate|].
      destruct Hrun as [Hc Hrun].
      destruct prev as [p|]; [|discriminate].
      cbn [Js.scanMatches Spec.wholeWordOccurrences].
      rewrite matchesAt_inside by assumption.
      apply IH; [now right | exact Hrun].
Qed.

(** For a keyword of word characters, the matches that a global search
    collects are all the whole-word occurrences. *)
Lemma countMatches_wholeWordCount (k s : string) :
  allWordChars k = true -> Js.countMatches k s = Spec.wholeWordCount k s.
Proof.
  intros Hk. apply scanMatches_all; [exact Hk | now left | exact I].
Qed.

End RegexFacts.

(** ** The score table *)

Section ScoreFacts.

Import Sentiment Aux.

Lemma list_sum_cons (n : nat) (l : list nat) : list_sum (n :: l) = n + list_sum l.
Proof. reflexivity. Qed.

Lemma addScore_addScore (m : MoodType) (a b : nat) (scores : Scores) :
  addScore m b (addScore m a scores) = addScore m (a + b) scores.
Proof.
  unfold addScore. rewrite map_map. apply map_ext. intros [m' n]. cbn.
  destruct (decide (m' = m)) as [->|Hne]; cbn.
  - rewrite decide_True by reflexivity. f_equal. lia.
  - rewrite decide_False by assumption. reflexivity.
Qed.

Lemma addScore_0 (m : MoodType) (scores : Scores) : addScore m 0 scores = scores.
Proof.
  unfold addScore. rewrite <- (map_id scores) at 2. apply map_ext.
  intros [m' n]. cbn. destruct (decide (m' = m)); [|reflexivity].
  f_equal. lia.
Qed.

(** The matches of the keywords of one category, added up in the order of
    the list. *)
Lemma scoreKeywords_sum (lowerText : string) (m : MoodType)
    (keywords : list string) (scores : Scores) :
  scoreKeywords lowerText m keywords scores
  = addScore m (list_sum (map (fun k => Js.countMatches k lowerText) keywords)) scores.
Proof.
  unfold scoreKeywords. revert scores.
  induction keywords as [|k ks IH]; intros scores; cbn [fold_left map].
  - apply eq_sym, addScore_0.
  - rewrite IH, addScore_addScore, list_sum_cons. reflexivity.
Qed.

Lemma sum_wholeWord (lowerText : string) (keywords : list string) :
  forallb allWordChars keywords = true ->
  list_sum (map (fun k => Js.countMatches k lowerText) keywords)
  = Spec.categorySum keywords lowerText.
Proof.
  unfold Spec.categorySum. induction keywords as [|k ks IH]; intros H.
  - reflexivity.
  - cbn [forallb] in H. apply andb_true_iff in H as [Hk Hks].
    cbn [map]. rewrite !list_sum_cons, IH by assumption.
    now rewrite countMatches_wholeWordCount.
Qed.

(** The table after the scoring loop: each of the three scored categories
    holds the sum of its whole-word occurrence counts, and the two other
    keys are still 0. *)
Lemma countKeywordMatches_table (lowerText : string) :
  countKeywordMatches lowerText
  = [(happy, Spec.categoryScore happy lowerText);
     (sad, Spec.categoryScore sad lowerText);
     (anxious, Spec.categoryScore anxious lowerText);
     (suicidal, 0); (neutral, 0)].
Proof.
  unfold countKeywordMatches, moodKeywords. cbn [fold_left fst snd].
  repeat (case_decide; try done).
  rewrite !scoreKeywords_sum.
  rewrite !sum_wholeWord by reflexivity.
  reflexivity.
Qed.

Lemma maxScoreOf_table (h s a : nat) :
  maxScoreOf [(happy, h); (sad, s); (anxious, a); (suicidal, 0); (neutral, 0)]
  = Nat.max h (Nat.max s a).
Proof. unfold maxScoreOf. cbn. lia. Qed.

(** [find] takes the first key, in the order happy, sad, anxious, whose
    score is the maximum. *)
Lemma findMood_table (h s a : nat) :
  let M := Nat.max h (Nat.max s a) in
  M <> 0 ->
  findMood [(happy, h); (sad, s); (anxious, a); (suicidal, 0); (neutral, 0)] M
  = Some (if h =? M then happy else if s =? M then sad else anxious).
Proof.
  intros M HM. unfold findMood. cbn.
  destruct (h =? M) eqn:Hh; [reflexivity|].
  destruct (s =? M) eqn:Hs; [reflexivity|].
  apply Nat.eqb_neq in Hh, Hs.
  assert (a = M) as Ha by (unfold M in *; lia).
  rewrite <- Ha at 1. rewrite Nat.eqb_refl. reflexivity.
Qed.

End ScoreFacts.

(** ** [analyzeSentiment] *)

Section ClassifierFacts.

Import Sentiment Aux.

Lemma analyzeSentiment_crisis (text : string) :
  hasCrisisKeywords (Js.toLowerCase text) = true ->
  analyzeSentiment text = crisisResult.
Proof. intros H. unfold analyzeSentiment. rewrite H. reflexivity. Qed.

Lemma analyzeSentiment_neutral (text : string) :
  hasCrisisKeywords (Js.toLowerCase text) = false ->
  topScore (Js.toLowerCase text) = 0 ->
  analyzeSentiment text = neutralResult.
Proof.
  intros H H0. unfold analyzeSentiment. rewrite H.
  rewrite countKeywordMatches_table, maxScoreOf_table.
  fold (topScore (Js.toLowerCase text)). rewrite H0. reflexivity.
Qed.

Lemma analyzeSentiment_scored (text : string) :
  hasCrisisKeywords (Js.toLowerCase text) = false ->
  topScore (Js.toLowerCase text) <> 0 ->
  analyzeSentiment text
  = {| mood := firstTop (Js.toLowerCase text);
       confidence :=
         Qmin (natQ (topScore (Js.toLowerCase text))
               / natQ (length (Js.splitWhitespace (Js.toLowerCase text))) * 10) 1;
       isCrisis := false |}.
Proof.
  intros H H0. unfold analyzeSentiment. rewrite H.
  rewrite countKeywordMatches_table, maxScoreOf_table.
  fold (topScore (Js.toLowerCase text)).
  destruct (topScore (Js.toLowerCase text) =? 0) eqn:E.
  - apply Nat.eqb_eq in E. contradiction.
  - unfold topScore at 2. rewrite findMood_table by exact H0. reflexivity.
Qed.

Lemma firstTop_scored (lowerText : string) :
  firstTop lowerText ∈ Spec.scoredCategories.
Proof.
  unfold firstTop, Spec.scoredCategories.
  repeat case_match; set_solver.
Qed.

Lemma firstTop_cases (lowerText : string) :
  firstTop lowerText = happy \/ firstTop lowerText = sad
  \/ firstTop lowerText = anxious.
Proof. unfold firstTop. repeat case_match; tauto. Qed.

Lemma firstTop_top (lowerText : string) :
  Spec.categoryScore (firstTop lowerText) lowerText = topScore lowerText.
Proof.
  unfold firstTop.
  destruct (Nat.eqb_spec (Spec.categoryScore happy lowerText) (topScore lowerText))
    as [Hh|Hh]; [exact Hh|].
  destruct (Nat.eqb_spec (Spec.categoryScore sad lowerText) (topScore lowerText))
    as [Hs|Hs]; [exact Hs|].
  unfold topScore in *. lia.
Qed.

Lemma topScore_bound (lowerText : string) (m : MoodType) :
  Spec.categoryScore m lowerText <= topScore lowerText.
Proof. unfold topScore. destruct m; cbn [Spec.categoryScore]; lia. Qed.

Lemma crisisKeywords_lower :
  Forall (fun k => Js.toLowerCase k = k) crisisKeywords.
Proof. repeat constructor. Qed.

Lemma hasCrisisKeywords_contains (text keyword : string) :
  In keyword crisisKeywords ->
  Spec.containsIgnoringCase text keyword ->
  hasCrisisKeywords (Js.toLowerCase text) = true.
Proof.
  intros Hin (before & occ & rest & -> & Hocc).
  apply existsb_exists. exists keyword. split; [exact Hin|].
  rewrite !toLowerCase_app, Hocc. apply includes_app.
Qed.

End ClassifierFacts.

(** ** Pieces, tokens and the confidence *)

Section ConfidenceFacts.

Import Sentiment Aux.

Lemma splitFrom_length (s : string) :
  forall cur : string,
    length (Js.splitFrom false cur s)
    = Spec.tokensFrom true s + 1 + gap (endsWith false s)
    /\ length (Js.splitFrom true cur s)
      = Spec.tokensFrom false s + gap (endsWith true s).
Proof.
  induction s as [|c s IH]; intros cur; [split; reflexivity|].
  cbn [Js.splitFrom Spec.tokensFrom endsWith].
  destruct (Js.isWhitespace c); cbn [length].
  - destruct (IH EmptyString) as [_ ->]. lia.
  - destruct (IH (cur +:+ String c EmptyString)) as [-> _]. lia.
Qed.

Lemma splitFrom_inToken (s cur : string) :
  length (Js.splitFrom false cur s)
  = Spec.tokensFrom true s + 1 + gap (endsWith false s).
Proof. apply splitFrom_length. Qed.

Lemma splitFrom_inSep (s cur : string) :
  length (Js.splitFrom true cur s)
  = Spec.tokensFrom false s + gap (endsWith true s).
Proof. apply splitFrom_length. Qed.

(** The pieces of [split(/\s+/)] are the tokens, one more piece when the
    text is empty or starts with whitespace, and one more when it ends with
    whitespace. *)
Lemma splitWhitespace_length (s : string) :
  length (Js.splitWhitespace s)
  = Spec.tokenCount s + gap (leadingGap s) + gap (trailingGap s).
Proof.
  unfold Js.splitWhitespace, Spec.tokenCount, trailingGap.
  destruct s as [|c s]; [reflexivity|].
  cbn [Js.splitFrom Spec.tokensFrom endsWith leadingGap].
  destruct (Js.isWhitespace c).
  - cbn [length gap]. rewrite splitFrom_inSep. lia.
  - rewrite splitFrom_inToken. cbn [gap]. lia.
Qed.

Lemma splitWhitespace_nonempty (s : string) : 1 <= length (Js.splitWhitespace s).
Proof.
  rewrite splitWhitespace_length. unfold Spec.tokenCount.
  destruct s as [|c s]; cbn; [lia|].
  destruct (Js.isWhitespace c); cbn; lia.
Qed.

Lemma natQ_nonneg (n : nat) : (0 <= natQ n)%Q.
Proof. unfold natQ, Qle. cbn. lia. Qed.

(** [Math.min(score / count * 10, 1)] lies between 0 and 1. *)
Lemma ratio_bounds (score count : nat) :
  (0 <= Qmin (natQ score / natQ count * 10) 1 <= 1)%Q.
Proof.
  split; [|apply Q.le_min_r].
  apply Q.min_glb; [|discriminate].
  apply Qmult_le_0_compat; [|discriminate].
  apply Qmult_le_0_compat; [apply natQ_nonneg|].
  apply Qinv_le_0_compat, natQ_nonneg.
Qed.

Lemma confidence_bounds (text : string) :
  (0 <= confidence (analyzeSentiment text) <= 1)%Q.
Proof.
  destruct (hasCrisisKeywords (Js.toLowerCase text)) eqn:Hc.
  - rewrite analyzeSentiment_crisis by exact Hc. split; discriminate.
  - destruct (Nat.eq_dec (topScore (Js.toLowerCase text)) 0) as [H0|H0].
    + rewrite analyzeSentiment_neutral by assumption. split; discriminate.
    + rewrite analyzeSentiment_scored by assumption. apply ratio_bounds.
Qed.

End ConfidenceFacts.

(** ** The weekly aggregation *)

Section AggregationFacts.

Import Sentiment Routes Aux.

Lemma groupEntry_lookup (moodByDate : gmap DateKey (list MoodType))
    (e : JournalEntry) (k : DateKey) :
  default [] (groupEntry moodByDate e !! k)
  = default [] (moodByDate !! k)
    ++ (if bool_decide (dateKeyOf e = k) then [detectedMood e] else []).
Proof.
  unfold groupEntry.
  destruct (moodByDate !! dateKeyOf e) eqn:E; case_bool_decide as Hk.
  - subst k. rewrite lookup_insert_eq, E. reflexivity.
  - rewrite lookup_insert_ne by done. now rewrite app_nil_r.
  - subst k. rewrite !lookup_insert_eq, E. reflexivity.
  - rewrite !lookup_insert_ne by done. now rewrite app_nil_r.
Qed.

Lemma foldl_groupEntry_lookup (entries : list JournalEntry)
    (acc : gmap DateKey (list MoodType)) (k : DateKey) :
  default [] (foldl groupEntry acc entries !! k)
  = default [] (acc !! k) ++ Spec.observationsOf k entries.
Proof.
  revert acc. induction entries as [|e es IH]; intros acc; cbn [foldl].
  - unfold Spec.observationsOf. cbn. now rewrite app_nil_r.
  - rewrite IH, groupEntry_lookup. unfold Spec.observationsOf.
    cbn [List.filter]. destruct (bool_decide (dateKeyOf e = k)); cbn [map].
    + now rewrite <- app_assoc.
    + now rewrite app_nil_r.
Qed.

(** The bucket of a day holds the moods of the entries of that day. *)
Lemma groupByDate_lookup (entries : list JournalEntry) (k : DateKey) :
  default [] (groupByDate entries !! k) = Spec.observationsOf k entries.
Proof.
  unfold groupByDate. rewrite foldl_groupEntry_lookup, lookup_empty. reflexivity.
Qed.

Lemma getCount_setCount (counts : Counts) (m : MoodType) (n : nat) (m' : MoodType) :
  getCount (setCount counts m n) m'
  = if decide (m' = m) then Some n else getCount counts m'.
Proof.
  unfold getCount. induction counts as [|[k v] rest IH]; cbn [setCount fst].
  - cbn. case_bool_decide; case_decide; congruence || reflexivity.
  - destruct (decide (k = m)) as [->|Hk]; cbn [List.find fst].
    + case_bool_decide; case_decide; congruence || reflexivity.
    + case_bool_decide as Hkm'.
      * subst k. rewrite decide_False by congruence. reflexivity.
      * exact IH.
Qed.

Lemma keys_setCount (counts : Counts) (m : MoodType) (n : nat) :
  (setCount counts m n).*1
  = if decide (m ∈ counts.*1) then counts.*1 else counts.*1 ++ [m].
Proof.
  induction counts as [|[k v] rest IH]; cbn [setCount fst].
  - rewrite decide_False by apply not_elem_of_nil. reflexivity.
  - destruct (decide (k = m)) as [->|Hk]; cbn [fmap list_fmap fst].
    + rewrite decide_True by apply list_elem_of_here. reflexivity.
    + fold (fmap (M:=list) (@fst MoodType nat)). rewrite IH.
      destruct (decide (m ∈ rest.*1)) as [Hin|Hin].
      * rewrite decide_True by now apply list_elem_of_further. reflexivity.
      * rewrite decide_False; [reflexivity|].
        rewrite elem_of_cons. intros [->|?]; congruence.
Qed.

Lemma frequency_snoc (m x : MoodType) (l : list MoodType) :
  Spec.frequency m (l ++ [x])
  = Spec.frequency m l + (if decide (x = m) then 1 else 0).
Proof.
  unfold Spec.frequency. rewrite List.filter_app, length_app. cbn.
  case_bool_decide; case_decide; try congruence; reflexivity.
Qed.

Lemma countMoods_snoc (l : list MoodType) (x : MoodType) :
  countMoods (l ++ [x])
  = setCount (countMoods l) x (default 0 (getCount (countMoods l) x) + 1).
Proof. unfold countMoods. now rewrite foldl_snoc. Qed.

(** The table of a day: a mood has an entry when it occurs, and the entry
    holds its frequency. *)
Lemma getCount_countMoods (l : list MoodType) (m : MoodType) :
  getCount (countMoods l) m
  = if Spec.frequency m l =? 0 then None else Some (Spec.frequency m l).
Proof.
  induction l as [|x l IH] using rev_ind; [reflexivity|].
  rewrite countMoods_snoc, getCount_setCount, frequency_snoc.
  destruct (decide (m = x)) as [->|Hne].
  - rewrite decide_True by reflexivity. rewrite IH.
    destruct (Nat.eqb_spec (Spec.frequency x l) 0) as [E|E].
    + rewrite E. reflexivity.
    + cbn [default]. destruct (Nat.eqb_spec (Spec.frequency x l + 1) 0); [lia|].
      reflexivity.
  - rewrite decide_False by congruence. rewrite Nat.add_0_r. exact IH.
Qed.

Lemma NoDup_countMoods (l : list MoodType) : NoDup (countMoods l).*1.
Proof.
  induction l as [|x l IH] using rev_ind; [constructor|].
  rewrite countMoods_snoc, keys_setCount. case_decide as Hin; [exact IH|].
  apply NoDup_app. split_and!; [exact IH | | apply NoDup_singleton].
  intros y Hy Hy'. apply list_elem_of_singleton in Hy'. congruence.
Qed.


Lemma In_getCount (l : list MoodType) (m : MoodType) (n : nat) :
  (m, n) ∈ countMoods l <-> n = Spec.frequency m l /\ 0 < n.
Proof.
  pose proof (NoDup_countMoods l) as Hnd.
  pose proof (getCount_countMoods l m) as Hget.
  revert Hnd Hget. generalize (countMoods l). intros counts Hnd Hget.
  assert ((m, n) ∈ counts <-> getCount counts m = Some n) as ->.
  { clear Hget. unfold getCount.
    induction counts as [|[k v] rest IH]; cbn [List.find fst].
    - rewrite elem_of_nil. split; [tauto | discriminate].
    - cbn in Hnd. apply NoDup_cons in Hnd as [Hk Hnd].
      rewrite elem_of_cons. case_bool_decide as Hkm.
      + subst k. cbn. split.
        * intros [[= ->]|Hin]; [reflexivity|].
          exfalso. apply Hk. apply list_elem_of_fmap. now exists (m, n).
        * intros [= ->]. now left.
      + rewrite <- (IH Hnd). split; [intros [[= -> ->]|?]; [congruence|assumption] | tauto]. }
  rewrite Hget. destruct (Nat.eqb_spec (Spec.frequency m l) 0) as [E|E].
  - split; [discriminate | lia].
  - split; [intros [= <-]; lia | intros [-> _]; reflexivity].
Qed.









Lemma elem_of_filter_bool {A} (f : A -> bool) (l : list A) (x : A) :
  x ∈ List.filter f l <-> x ∈ l /\ f x = true.
Proof. rewrite !list_elem_of_In. apply filter_In. Qed.




End AggregationFacts.

(** ** The quote of an entry *)

Section QuoteFacts.

Import Sentiment Routes.

Lemma arrayGet_nil {A} (i : Z) : arrayGet (@nil A) i = None.
Proof. unfold arrayGet. destruct (i <? 0)%Z; reflexivity. Qed.

(** [Math.floor(random * length)] is an index of the array when [random]
    lies in [0, 1) and the array is not empty. *)
Lemma floor_index (random : Q) (n : nat) :
  (0 <= random)%Q -> (random < 1)%Q -> 0 < n ->
  (0 <= Qfloor (random * natQ n) < Z.of_nat n)%Z.
Proof.
  intros H0 H1 Hn.
  assert (0 < natQ n)%Q as Hpos by (unfold natQ, Qlt; cbn; lia).
  split.
  - change 0%Z with (Qfloor 0). apply Qfloor_resp_le.
    apply Qmult_le_0_compat; [exact H0 | apply Qlt_le_weak, Hpos].
  - rewrite Zlt_Qlt. eapply Qle_lt_trans; [apply Qfloor_le|].
    fold (natQ n). rewrite <- (Qmult_1_l (natQ n)) at 2.
    apply Qmult_lt_compat_r; assumption.
Qed.

Lemma pickQuote_some (random : Q) (availableQuotes : list Quote) :
  (0 <= random)%Q -> (random < 1)%Q -> availableQuotes <> [] ->
  exists q, pickQuote random availableQuotes = Some q /\ q ∈ availableQuotes.
Proof.
  intros H0 H1 Hne.
  assert (0 < length availableQuotes) as Hlen
    by (destruct availableQuotes; [congruence | cbn; lia]).
  pose proof (floor_index random _ H0 H1 Hlen) as [Hlo Hhi].
  unfold pickQuote, arrayGet.
  destruct (Z.ltb_spec (Qfloor (random * natQ (length availableQuotes))) 0); [lia|].
  destruct (lookup_lt_is_Some_2 availableQuotes
              (Z.to_nat (Qfloor (random * natQ (length availableQuotes)))))
    as [q Hq]; [lia|].
  exists q. split; [exact Hq|]. apply list_elem_of_lookup. eauto.
Qed.

End QuoteFacts.

(** ** The claims about [analyzeSentiment] and [getMoodQuoteTag] *)

Section ClassifierClaims.

Import Sentiment Aux.

(** C1.  A text that contains an entry of the crisis-keyword list, in any
    letter case, as a substring, anywhere, is classified
    [{mood: suicidal, confidence: 0.9, isCrisis: true}]: the function returns
    at the crisis check, before any category is scored, whatever other mood
    keywords the text holds. *)
Theorem crisis_keyword_short_circuits (text keyword : string) :
  In keyword crisisKeywords ->
  Spec.containsIgnoringCase text keyword ->
  analyzeSentiment text
  = {| mood := suicidal; confidence := 9 # 10; isCrisis := true |}.
Proof.
  intros Hin Hocc. apply analyzeSentiment_crisis.
  eapply hasCrisisKeywords_contains; eassumption.
Qed.

Lemma crisis_keyword_short_circuits_witness :
  analyzeSentiment "I am HAPPY and grateful, but there is No Pointer"
  = {| mood := suicidal; confidence := 9 # 10; isCrisis := true |}.
Proof.
  apply (crisis_keyword_short_circuits _ "no point").
  - cbn. tauto.
  - exists "I am HAPPY and grateful, but there is ", "No Point", "er".
    split; reflexivity.
Defined.

(** The scenario of the specification: a happy mood, no crisis, and a
    positive confidence. *)
Example happy_and_grateful :
  mood (analyzeSentiment "I feel happy and grateful today") = happy
  /\ isCrisis (analyzeSentiment "I feel happy and grateful today") = false
  /\ (0 < confidence (analyzeSentiment "I feel happy and grateful today"))%Q.
Proof. vm_compute. repeat split. Qed.

(** C5.  In every result [isCrisis] is true exactly when the mood is
    [suicidal], and the mood is [suicidal] exactly when the crisis check
    found a keyword: the scoring of the categories never gives it. *)
Theorem isCrisis_iff_suicidal (text : string) :
  (isCrisis (analyzeSentiment text) = true
   <-> mood (analyzeSentiment text) = suicidal)
  /\ (mood (analyzeSentiment text) = suicidal
      <-> hasCrisisKeywords (Js.toLowerCase text) = true).
Proof.
  destruct (hasCrisisKeywords (Js.toLowerCase text)) eqn:Hc.
  - rewrite analyzeSentiment_crisis by exact Hc. cbn. tauto.
  - destruct (Nat.eq_dec (topScore (Js.toLowerCase text)) 0) as [H0|H0].
    + rewrite analyzeSentiment_neutral by assumption. cbn.
      split; split; discriminate.
    + rewrite analyzeSentiment_scored by assumption. cbn [mood isCrisis].
      destruct (firstTop_cases (Js.toLowerCase text)) as [-> | [-> | -> ] ];
        split; split; discriminate.
Qed.

(** C6.  For a text without crisis keyword, the score table holds, for
    happy, sad and anxious, the sum over the keyword list of the category of
    the whole-word occurrence counts in the lower-cased text (matched up to
    letter case); when all three sums are 0 the result is
    [{mood: neutral, confidence: 0.5, isCrisis: false}], and otherwise the
    mood is one of the three categories and its sum is the largest. *)
Theorem keyword_scoring (text : string) :
  hasCrisisKeywords (Js.toLowerCase text) = false ->
  countKeywordMatches (Js.toLowerCase text)
  = [(happy, Spec.categorySum happyKeywords (Js.toLowerCase text));
     (sad, Spec.categorySum sadKeywords (Js.toLowerCase text));
     (anxious, Spec.categorySum anxiousKeywords (Js.toLowerCase text));
     (suicidal, 0); (neutral, 0)]
  /\ ((forall m, m ∈ Spec.scoredCategories ->
         Spec.categoryScore m (Js.toLowerCase text) = 0) ->
      analyzeSentiment text
      = {| mood := neutral; confidence := 1 # 2; isCrisis := false |})
  /\ ((exists m, m ∈ Spec.scoredCategories
                 /\ Spec.categoryScore m (Js.toLowerCase text) <> 0) ->
      mood (analyzeSentiment text) ∈ Spec.scoredCategories
      /\ isCrisis (analyzeSentiment text) = false
      /\ forall m, m ∈ Spec.scoredCategories ->
           Spec.categoryScore m (Js.toLowerCase text)
           <= Spec.categoryScore (mood (analyzeSentiment text)) (Js.toLowerCase text)).
Proof.
  intros Hc. split; [apply countKeywordMatches_table|]. split.
  - intros Hzero. apply analyzeSentiment_neutral; [exact Hc|].
    unfold topScore. rewrite !Hzero; [reflexivity | | |];
      unfold Spec.scoredCategories; set_solver.
  - intros (m & _ & Hm).
    assert (topScore (Js.toLowerCase text) <> 0) as H0.
    { pose proof (topScore_bound (Js.toLowerCase text) m). lia. }
    rewrite analyzeSentiment_scored by assumption. cbn [mood isCrisis].
    split; [apply firstTop_scored|]. split; [reflexivity|].
    intros m' _. rewrite firstTop_top. apply topScore_bound.
Qed.

Lemma keyword_scoring_witness :
  mood (analyzeSentiment "So worried and nervous today, yet happy")
  ∈ Spec.scoredCategories.
Proof.
  refine (proj1 (proj2 (proj2 (keyword_scoring
    "So worried and nervous today, yet happy" _)) _)).
  - reflexivity.
  - exists anxious. split; [unfold Spec.scoredCategories; set_solver|].
    vm_compute. discriminate.
Defined.



(** C8.  [getMoodQuoteTag] maps happy to "happy", sad and suicidal to "sad",
    anxious to "anxious" and neutral to "general"; it is defined on every
    mood, and its values are exactly the four quote tags. *)
Theorem getMoodQuoteTag_table :
  getMoodQuoteTag happy = "happy"
  /\ getMoodQuoteTag sad = "sad"
  /\ getMoodQuoteTag suicidal = "sad"
  /\ getMoodQuoteTag anxious = "anxious"
  /\ getMoodQuoteTag neutral = "general"
  /\ forall tag : string,
       tag ∈ Spec.quoteTags <-> exists m, getMoodQuoteTag m = tag.
Proof.
  repeat (split; [reflexivity|]). intros tag. unfold Spec.quoteTags. split.
  - rewrite !elem_of_cons, elem_of_nil.
    intros [->|[->|[->|[->|[]]]]];
      [exists happy | exists sad | exists anxious | exists neutral]; reflexivity.
  - intros [[] <-]; cbn; set_solver.
Qed.

End ClassifierClaims.

(** ** Dates *)

Section DateFacts.

Import JsDate Inv.

(** The day of the month of 1970-01-01, 1969-12-31T23:59:59.999,
    2000-02-29, 2026-03-01 and 2026-03-09T23:30. *)
Example dateFromTime_samples :
  map dateFromTime [0; -1; 951782400000; 1772323200000; 1773099000000]%Z
  = [1; 31; 29; 1; 9]%Z.
Proof. reflexivity. Qed.

(** [setDate] in UTC: from 2026-03-02T10:00Z, [setDate(getDate() - 6)] gives
    2026-02-24T10:00Z and [setDate(31)] gives 2026-03-31T10:00Z.  In the time
    zone America/New_York, from 2026-03-09T23:30Z (19:30 local time),
    [setDate(1)] gives 19:30 on the first of March in the local time of the
    winter, 2026-03-02T00:30Z. *)
Example setDate_samples :
  setDate (fixedOffset 0) 1772445600000 (getDate (fixedOffset 0) 1772445600000 - 6)
  = 1771927200000%Z
  /\ setDate (fixedOffset 0) 1772445600000 31 = 1774951200000%Z
  /\ setDate easternTime2026 1773099000000 1 = 1772411400000%Z.
Proof. repeat split; reflexivity. Qed.

(** [startDate.setDate(endDate.getDate() - 6)] with two readings of the clock
    around midnight at the end of a month, in UTC: [endDate] is
    2026-01-31T23:59:59.999Z, [startDate] is read as 2026-02-01T00:00Z and
    becomes 2026-02-25T00:00Z, after [endDate]. *)
Example startDate_across_midnight :
  setDate (fixedOffset 0) 1769904000000 (getDate (fixedOffset 0) 1769903999999 - 6)
  = 1771977600000%Z.
Proof. reflexivity. Qed.

End DateFacts.

(** ** The claims about the routes *)

Section RouteClaims.

Import Sentiment JsDate Routes Aux Inv.

(** C2, as stated: [analyzeSentiment] fails on the empty text.  It does
    not: called with the empty string it throws nothing and returns the
    neutral result. *)
Lemma empty_text_is_classified :
  callAnalyzeSentiment (JsString "")
  = Returned {| Sentiment.mood := neutral; confidence := 1 # 2; isCrisis := false |}
  /\ ~ exists error, callAnalyzeSentiment (JsString "") = Threw error.
Proof. split; [reflexivity|]. intros [error H]. discriminate. Qed.

(** C2, amended.  [analyzeSentiment] has no input check: for every string,
    the empty one included, it returns a result and throws nothing, and a
    value that is not a string makes its first statement throw a
    [TypeError].  The rejection is the guard of [POST /api/journal/entries]:
    an [entryText] that is the empty string or is not a string is answered
    with 400 and "Entry text is required" before [analyzeSentiment] is
    called, and every non-empty string passes the guard and is classified. *)
Theorem entry_text_guard :
  (forall s : string,
     callAnalyzeSentiment (JsString s) = Returned (analyzeSentiment s))
  /\ (forall v : JsValue,
        isString v = false -> callAnalyzeSentiment v = Threw "TypeError")
  /\ (forall v : JsValue,
        v = JsString "" \/ isString v = false ->
        classifyEntry v = BadRequest "Entry text is required")
  /\ (forall s : string,
        s <> EmptyString ->
        classifyEntry (JsString s) = Analyzed (Returned (analyzeSentiment s))).
Proof.
  split; [reflexivity|]. split; [|split].
  - intros [] Hv; (discriminate || reflexivity).
  - intros v [->|Hv]; [reflexivity|]. unfold classifyEntry. rewrite Hv.
    now rewrite orb_true_r.
  - intros s Hs. unfold classifyEntry. cbn.
    destruct (String.eqb_spec s EmptyString); [contradiction|reflexivity].
Qed.

(** C9.  For a value of [Math.random()], which lies in [0, 1): with no
    candidate the pick is [undefined] and the stored quote id is [null], no
    error; with candidates the pick is one of them. *)
Theorem pickQuote_member (random : Q) (availableQuotes : list Quote) :
  (0 <= random)%Q -> (random < 1)%Q ->
  (availableQuotes = [] ->
   pickQuote random availableQuotes = None
   /\ quoteIdOf (pickQuote random availableQuotes) = None)
  /\ (availableQuotes <> [] ->
      exists q, pickQuote random availableQuotes = Some q /\ q ∈ availableQuotes).
Proof.
  intros H0 H1. split.
  - intros ->. unfold pickQuote. rewrite arrayGet_nil. split; reflexivity.
  - intros Hne. apply pickQuote_some; assumption.
Qed.

Lemma pickQuote_member_witness :
  exists q,
    pickQuote (2 # 3)
      [ {| id := 1; quoteText := "a"; author := None; moodTag := "sad" |};
        {| id := 2; quoteText := "b"; author := Some "B"; moodTag := "sad" |};
        {| id := 3; quoteText := "c"; author := None; moodTag := "sad" |} ]
    = Some q
    /\ q ∈ [ {| id := 1; quoteText := "a"; author := None; moodTag := "sad" |};
             {| id := 2; quoteText := "b"; author := Some "B"; moodTag := "sad" |};
             {| id := 3; quoteText := "c"; author := None; moodTag := "sad" |} ].
Proof.
  refine (proj2 (pickQuote_member (2 # 3) _ _ _) _).
  - discriminate.
  - reflexivity.
  - discriminate.
Defined.

(** C3.  The weekly data are 7 points, but their days are not always the
    7 days that end today: [setDate] moves the local calendar day and
    [toISOString] prints the UTC day.  On a server in the time zone
    America/New_York, at 2026-03-09T23:30Z (19:30 local time, the day after
    the clocks went forward), today is the day 20521 (2026-03-09) in UTC and
    in local time, and the days of the points are 03-04, 03-05, 03-06,
    03-07, 03-08, 03-08 and 03-09: the day 03-08 is there twice and the day
    03-03 (20515), the first of the window, is missing, whatever the entries
    are. *)
Theorem weeklyData_repeats_a_day :
  (forall tz clock entries, length (weeklyData tz clock entries) = 7)
  /\ utcDay 1773099000000 = 20521%Z
  /\ utcDay (localTime easternTime2026 1773099000000) = 20521%Z
  /\ forall entries,
       map date (weeklyData easternTime2026 (fun _ => 1773099000000%Z) entries)
       = [IsoDate 20516; IsoDate 20517; IsoDate 20518; IsoDate 20519;
          IsoDate 20520; IsoDate 20520; IsoDate 20521]
       /\ ~ NoDup (map date
                     (weeklyData easternTime2026 (fun _ => 1773099000000%Z) entries))
       /\ IsoDate 20515
          ∉ map date (weeklyData easternTime2026 (fun _ => 1773099000000%Z) entries).
Proof.
  split; [reflexivity|]. split; [reflexivity|]. split; [reflexivity|].
  intros entries.
  assert (map date (weeklyData easternTime2026 (fun _ => 1773099000000%Z) entries)
          = [IsoDate 20516; IsoDate 20517; IsoDate 20518; IsoDate 20519;
             IsoDate 20520; IsoDate 20520; IsoDate 20521]) as E by reflexivity.
  split; [exact E|]. rewrite E. split.
  - intros H. do 4 apply NoDup_cons_1_2 in H. apply NoDup_cons_1_1 in H.
    apply H, list_elem_of_here.
  - rewrite !elem_of_cons, elem_of_nil. intros H.
    repeat (destruct H as [[=]|H]). exact H.
Qed.

(** The same request when the clocks have gone back: at 2026-11-03T00:30Z
    (19:30 local time on 2026-11-02) the day 2026-11-01 (20758) is missing
    between 10-31 and 11-02, and an entry of the day that is there twice in
    March is counted in both of its points. *)
Example weeklyData_clock_changes :
  map date (weeklyData easternTime2026 (fun _ => 1793665800000%Z) [])
  = [IsoDate 20753; IsoDate 20754; IsoDate 20755; IsoDate 20756;
     IsoDate 20757; IsoDate 20759; IsoDate 20760]
  /\ map entries
       (weeklyData easternTime2026 (fun _ => 1773099000000%Z)
          [ {| createdAt := Some 20520%Z; detectedMood := happy |} ])
     = [0; 0; 0; 0; 1; 1; 0].
Proof. split; vm_compute; reflexivity. Qed.



(** The scenarios of a day, on a server in UTC on the day 100: two happy and
    one sad entry give happy with 3 entries, one happy and one sad entry give
    neutral with 2 entries, and no entry gives neutral with 0 entries. *)
Example weeklyData_scenarios :
  weeklyData (fixedOffset 0) (fun _ => 8640000000%Z)
    [ {| createdAt := Some 100%Z; detectedMood := happy |};
      {| createdAt := Some 99%Z; detectedMood := happy |};
      {| createdAt := Some 100%Z; detectedMood := happy |};
      {| createdAt := Some 99%Z; detectedMood := sad |};
      {| createdAt := Some 100%Z; detectedMood := sad |} ]
  = [ {| date := IsoDate 94; Routes.mood := neutral; entries := 0 |};
      {| date := IsoDate 95; Routes.mood := neutral; entries := 0 |};
      {| date := IsoDate 96; Routes.mood := neutral; entries := 0 |};
      {| date := IsoDate 97; Routes.mood := neutral; entries := 0 |};
      {| date := IsoDate 98; Routes.mood := neutral; entries := 0 |};
      {| date := IsoDate 99; Routes.mood := neutral; entries := 2 |};
      {| date := IsoDate 100; Routes.mood := happy; entries := 3 |} ].
Proof. vm_compute. reflexivity. Qed.

End RouteClaims.

(** ** The confidence *)

Section ConfidenceClaims.

Import Sentiment Aux.

(** C7, at a text that starts with whitespace.  The text has 11
    whitespace-delimited tokens, one of them the keyword "happy", so the claim
    gives the confidence min(1 / 11 * 10, 1) = 10/11.  [split(/\s+/)] gives 12
    pieces, the first one empty, and the confidence of the result is
    1 / 12 * 10 = 10/12. *)
Theorem confidence_counts_empty_pieces :
  Spec.tokenCount (Js.toLowerCase " happy a b c d e f g h i j") = 11
  /\ Js.splitWhitespace (Js.toLowerCase " happy a b c d e f g h i j")
     = [""; "happy"; "a"; "b"; "c"; "d"; "e"; "f"; "g"; "h"; "i"; "j"]
  /\ hasCrisisKeywords (Js.toLowerCase " happy a b c d e f g h i j") = false
  /\ mood (analyzeSentiment " happy a b c d e f g h i j") = happy
  /\ Spec.categoryScore happy (Js.toLowerCase " happy a b c d e f g h i j") = 1
  /\ confidence (analyzeSentiment " happy a b c d e f g h i j") = 10 # 12
  /\ ~ (confidence (analyzeSentiment " happy a b c d e f g h i j")
        == Qmin (natQ 1
                 / natQ (Spec.tokenCount (Js.toLowerCase " happy a b c d e f g h i j"))
                 * 10) 1)%Q.
Proof. vm_compute. repeat split; try reflexivity. discriminate. Qed.

(** X1.  The confidence of every result lies in [0, 1]. *)
Theorem confidence_in_unit_interval (text : string) :
  (0 <= confidence (analyzeSentiment text))%Q
  /\ (confidence (analyzeSentiment text) <= 1)%Q.
Proof. apply confidence_bounds. Qed.

(** X2.  When a category wins, the confidence is
    [min(maxScore / words.length * 10, 1)], where [maxScore] is the sum of
    the winning category and [words.length] is the number of pieces of
    [split(/\s+/)]: the number of tokens, plus one when the text starts with
    whitespace, plus one when it ends with whitespace.  It is at least 1. *)
Theorem confidence_of_winner (text : string) :
  hasCrisisKeywords (Js.toLowerCase text) = false ->
  topScore (Js.toLowerCase text) <> 0 ->
  confidence (analyzeSentiment text)
  = Qmin (natQ (Spec.categoryScore (mood (analyzeSentiment text)) (Js.toLowerCase text))
          / natQ (length (Js.splitWhitespace (Js.toLowerCase text))) * 10) 1
  /\ length (Js.splitWhitespace (Js.toLowerCase text))
     = Spec.tokenCount (Js.toLowerCase text)
       + gap (leadingGap (Js.toLowerCase text))
       + gap (trailingGap (Js.toLowerCase text))
  /\ 1 <= length (Js.splitWhitespace (Js.toLowerCase text)).
Proof.
  intros Hc H0. split; [|split].
  - rewrite analyzeSentiment_scored by assumption. cbn [mood confidence].
    now rewrite firstTop_top.
  - apply splitWhitespace_length.
  - apply splitWhitespace_nonempty.
Qed.

Lemma confidence_of_winner_witness :
  length (Js.splitWhitespace (Js.toLowerCase "Happy but  worried, worried ")) = 5.
Proof.
  refine (eq_trans (proj1 (proj2 (confidence_of_winner
    "Happy but  worried, worried " _ _))) _).
  - reflexivity.
  - vm_compute. discriminate.
  - reflexivity.
Defined.

(** X3.  For a keyword made of word characters, as the keywords of the
    three scored categories are, the matches that the global search for
    [\bKEYWORD\b] collects are all the whole-word occurrences of the keyword:
    two matches cannot overlap, so none is skipped. *)
Theorem global_search_counts_whole_words (k s : string) :
  allWordChars k = true ->
  Js.countMatches k s = Spec.wholeWordCount k s.
Proof. apply countMatches_wholeWordCount. Qed.

Lemma global_search_counts_whole_words_witness :
  Js.countMatches "happy" "happy, unhappy but happy-go-lucky"
  = Spec.wholeWordCount "happy" "happy, unhappy but happy-go-lucky".
Proof. apply global_search_counts_whole_words. reflexivity. Defined.

End ConfidenceClaims.

(** ** Texts without letters, and the saturation of the confidence *)

Section LetterFacts.

Import Sentiment Aux Inv.

Lemma isLetter_lowerChar (c : ascii) : isLetter (Js.lowerChar c) = isLetter c.
Proof. destruct c as [[] [] [] [] [] [] [] []]; reflexivity. Qed.

Lemma isLetter_canonicalize (c : ascii) :
  isLetter c = Js.inRange 65 90 (Js.canonicalize c).
Proof. destruct c as [[] [] [] [] [] [] [] []]; reflexivity. Qed.

Lemma charMatches_letter (k c : ascii) :
  isLetter k = true -> Js.charMatches k c = true -> isLetter c = true.
Proof.
  unfold Js.charMatches. intros Hk Heq. apply N.eqb_eq in Heq.
  rewrite isLetter_canonicalize in *. congruence.
Qed.

Lemma noLetter_toLowerCase (s : string) : noLetter (Js.toLowerCase s) = noLetter s.
Proof.
  induction s as [|c s IH]; [reflexivity|].
  cbn [Js.toLowerCase noLetter]. now rewrite isLetter_lowerChar, IH.
Qed.

Lemma noLetter_app (a b : string) : noLetter (a +:+ b) = noLetter a && noLetter b.
Proof.
  induction a as [|c a IH]; [reflexivity|].
  change (noLetter (String c (a +:+ b)) = noLetter (String c a) && noLetter b).
  cbn [noLetter]. now rewrite IH, andb_assoc.
Qed.

Lemma includes_noLetter (s k : string) :
  noLetter s = true -> startsWithLetter k = true -> Js.includes s k = false.
Proof.
  intros Hs Hk. destruct (Js.includes s k) eqn:E; [|reflexivity].
  apply includes_split in E as (before & rest & ->).
  rewrite !noLetter_app in Hs. apply andb_true_iff in Hs as [_ Hs].
  apply andb_true_iff in Hs as [Hs _].
  destruct k as [|c k]; [discriminate|]. cbn in Hs, Hk.
  rewrite Hk in Hs. discriminate.
Qed.

Lemma matchesAt_noLetter (k : string) (prev : option ascii) (s : string) :
  noLetter s = true -> startsWithLetter k = true -> Js.matchesAt k prev s = false.
Proof.
  intros Hs Hk. unfold Js.matchesAt.
  destruct k as [|kc k]; [discriminate|]. cbn in Hk.
  destruct s as [|c s]; cbn [Js.literalThenBoundary]; [apply andb_false_r|].
  cbn in Hs. apply andb_true_iff in Hs as [Hc _].
  destruct (Js.charMatches kc c) eqn:E; [|apply andb_false_r].
  rewrite (charMatches_letter _ _ Hk E) in Hc. discriminate.
Qed.

Lemma wholeWordOccurrences_noLetter (k : string) (s : string) (prev : option ascii) :
  noLetter s = true -> startsWithLetter k = true ->
  Spec.wholeWordOccurrences k prev s = 0.
Proof.
  intros Hs Hk. revert prev. induction s as [|c s IH]; intros prev;
    cbn [Spec.wholeWordOccurrences]; rewrite matchesAt_noLetter by assumption.
  - reflexivity.
  - cbn in Hs. apply andb_true_iff in Hs as [_ Hs]. now rewrite IH.
Qed.

Lemma categorySum_noLetter (keywords : list string) (s : string) :
  noLetter s = true -> forallb startsWithLetter keywords = true ->
  Spec.categorySum keywords s = 0.
Proof.
  intros Hs. unfold Spec.categorySum.
  induction keywords as [|k ks IH]; intros Hk; [reflexivity|].
  cbn [forallb] in Hk. apply andb_true_iff in Hk as [Hk Hks].
  cbn [map]. rewrite list_sum_cons, IH by assumption.
  unfold Spec.wholeWordCount. now rewrite wholeWordOccurrences_noLetter.
Qed.

Lemma hasCrisisKeywords_noLetter (s : string) :
  noLetter s = true -> hasCrisisKeywords s = false.
Proof.
  intros Hs. unfold hasCrisisKeywords.
  assert (forallb (fun k => startsWithLetter (Js.toLowerCase k)) crisisKeywords = true)
    as Hk by reflexivity.
  revert Hk. induction crisisKeywords as [|k ks IH]; intros Hk; [reflexivity|].
  cbn [forallb existsb] in *. apply andb_true_iff in Hk as [Hk Hks].
  rewrite includes_noLetter by assumption. now apply IH.
Qed.

Lemma analyzeSentiment_noLetter (text : string) :
  noLetter text = true -> analyzeSentiment text = neutralResult.
Proof.
  intros Ht. rewrite <- noLetter_toLowerCase in Ht.
  apply analyzeSentiment_neutral; [now apply hasCrisisKeywords_noLetter|].
  unfold topScore, Spec.categoryScore.
  rewrite !categorySum_noLetter by (assumption || reflexivity). reflexivity.
Qed.

(** The quotient [score / count * 10] reaches 1 exactly when the count is at
    most ten times the score. *)
Lemma ratio_saturates (score count : nat) :
  1 <= count ->
  (Qmin (natQ score / natQ count * 10) 1 == 1)%Q <-> count <= 10 * score.
Proof.
  intros Hc.
  assert (0 < natQ count)%Q as Hpos by (unfold natQ, Qlt; cbn; lia).
  assert (natQ score / natQ count * 10 == natQ (10 * score) / natQ count)%Q as E.
  { unfold natQ. rewrite Nat2Z.inj_mul, inject_Z_mult. change (inject_Z (Z.of_nat 10)) with 10%Q.
    field. intros H. rewrite H in Hpos. now apply Qlt_irrefl in Hpos. }
  rewrite E. split.
  - intros H.
    assert (1 <= natQ (10 * score) / natQ count)%Q as H1.
    { rewrite <- H. apply Q.le_min_l. }
    destruct (le_lt_dec count (10 * score)) as [Hle|Hlt]; [exact Hle|].
    exfalso. apply (Qle_not_lt _ _ H1). apply Qlt_shift_div_r; [exact Hpos|].
    rewrite Qmult_1_l. unfold natQ. rewrite <- Zlt_Qlt. lia.
  - intros H. apply Q.min_r. apply Qle_shift_div_l; [exact Hpos|].
    rewrite Qmult_1_l. unfold natQ. rewrite <- Zle_Qle. lia.
Qed.

End LetterFacts.

(** ** Queries *)

Section QueryFacts.

Import JsDate Routes Schema Storage Api Inv.

Lemma find_app_none {A} (f : A -> bool) (l1 l2 : list A) :
  List.find f l1 = None -> List.find f (l1 ++ l2) = List.find f l2.
Proof.
  induction l1 as [|x l1 IH]; cbn [List.find app]; [reflexivity|].
  destruct (f x); [discriminate | exact IH].
Qed.

Lemma find_app_some {A} (f : A -> bool) (l1 l2 : list A) (x : A) :
  List.find f l1 = Some x -> List.find f (l1 ++ l2) = Some x.
Proof.
  induction l1 as [|y l1 IH]; cbn [List.find app]; [discriminate|].
  destruct (f y); [trivial | exact IH].
Qed.

Lemma find_none_iff {A} (f : A -> bool) (l : list A) :
  List.find f l = None <-> forall x, x ∈ l -> f x = false.
Proof.
  split.
  - intros H x Hx. apply list_elem_of_In in Hx. eapply find_none; eassumption.
  - intros H. induction l as [|y l IH]; [reflexivity|]. cbn [List.find].
    rewrite (H y) by apply list_elem_of_here.
    apply IH. intros x Hx. apply H. now apply list_elem_of_further.
Qed.

(** A row is found by its key when the keys of the table are distinct. *)
Lemma find_unique {A K} (key : A -> K) (eqb : K -> K -> bool) (l : list A) (x : A) :
  (forall a b, eqb a b = true <-> a = b) ->
  NoDup (map key l) -> x ∈ l ->
  List.find (fun y => eqb (key y) (key x)) l = Some x.
Proof.
  intros Heqb Hnd Hx. induction l as [|y l IH]; [now apply elem_of_nil in Hx|].
  cbn [map] in Hnd. apply NoDup_cons in Hnd as [Hy Hnd]. cbn [List.find].
  apply elem_of_cons in Hx as [->|Hx].
  - now rewrite (proj2 (Heqb _ _) eq_refl).
  - destruct (eqb (key y) (key x)) eqn:E; [|now apply IH].
    apply Heqb in E. exfalso. apply Hy. rewrite E.
    apply list_elem_of_In, in_map, list_elem_of_In, Hx.
Qed.

Lemma find_map {A} (p : A -> bool) (g : A -> A) (l : list A) :
  (forall x, p (g x) = p x) ->
  List.find p (map g l) = g <$> List.find p l.
Proof.
  intros Hp. induction l as [|x l IH]; [reflexivity|].
  cbn [map List.find]. rewrite Hp. destruct (p x); [reflexivity | exact IH].
Qed.

Lemma Zeqb_iff (a b : Z) : (a =? b)%Z = true <-> a = b.
Proof. apply Z.eqb_eq. Qed.

Lemma String_eqb_iff (a b : string) : String.eqb a b = true <-> a = b.
Proof. apply String.eqb_eq. Qed.

(** The sort keeps the elements, and with a comparison that is total and
    transitive it orders them. *)
Lemma insertSorted_perm {A} (before : A -> A -> bool) (x : A) (l : list A) :
  Arr.insertSorted before x l ≡ₚ x :: l.
Proof.
  induction l as [|y l IH]; cbn [Arr.insertSorted]; [reflexivity|].
  destruct (before x y); [reflexivity|]. rewrite IH. apply Permutation_swap.
Qed.

Lemma sort_perm {A} (before : A -> A -> bool) (l : list A) :
  Arr.sort before l ≡ₚ l.
Proof.
  unfold Arr.sort. induction l as [|x l IH]; cbn [foldr]; [reflexivity|].
  now rewrite insertSorted_perm, IH.
Qed.

Lemma insertSorted_sorted {A} (before : A -> A -> bool) (x : A) (l : list A) :
  (forall a b, before a b = true \/ before b a = true) ->
  (forall a b c, before a b = true -> before b c = true -> before a c = true) ->
  StronglySorted (fun a b => before a b = true) l ->
  StronglySorted (fun a b => before a b = true) (Arr.insertSorted before x l).
Proof.
  intros Htot Htrans. induction 1 as [|y l Hs IH Hy]; cbn [Arr.insertSorted].
  - repeat constructor.
  - destruct (before x y) eqn:E.
    + constructor; [now constructor|]. constructor; [exact E|].
      eapply Forall_impl; [exact Hy|]. intros z Hz. eapply Htrans; eassumption.
    + constructor; [exact IH|]. rewrite insertSorted_perm.
      constructor; [|exact Hy].
      destruct (Htot x y) as [H|H]; [congruence | exact H].
Qed.

Lemma sort_sorted {A} (before : A -> A -> bool) (l : list A) :
  (forall a b, before a b = true \/ before b a = true) ->
  (forall a b c, before a b = true -> before b c = true -> before a c = true) ->
  StronglySorted (fun a b => before a b = true) (Arr.sort before l).
Proof.
  intros Htot Htrans. unfold Arr.sort.
  induction l as [|x l IH]; cbn [foldr]; [constructor|].
  now apply insertSorted_sorted.
Qed.

Lemma laterFirst_total (a b : JournalEntry.t) :
  laterFirst a b = true \/ laterFirst b a = true.
Proof.
  unfold laterFirst.
  destruct (JournalEntry.createdAt a), (JournalEntry.createdAt b); auto.
  destruct (Z.leb_spec z0 z); [now left|]. right. apply Z.leb_le. lia.
Qed.

Lemma laterFirst_trans (a b c : JournalEntry.t) :
  laterFirst a b = true -> laterFirst b c = true -> laterFirst a c = true.
Proof.
  unfold laterFirst.
  destruct (JournalEntry.createdAt a), (JournalEntry.createdAt b),
    (JournalEntry.createdAt c); try (discriminate || reflexivity).
  rewrite !Z.leb_le. lia.
Qed.

Lemma length_filter_perm {A} (f : A -> bool) (l l' : list A) :
  l ≡ₚ l' -> length (List.filter f l) = length (List.filter f l').
Proof.
  induction 1 as [|x l l' _ IH|x y l|l l' l'' _ IH1 _ IH2]; cbn [List.filter].
  - reflexivity.
  - destruct (f x); cbn [length]; now rewrite IH.
  - destruct (f x), (f y); reflexivity.
  - now rewrite IH1.
Qed.

End QueryFacts.

(** ** The constraints are kept *)

Section InvariantFacts.

Import JsDate Routes Schema Storage Api Inv.

Lemma wf_emptyDb : wf emptyDb.
Proof. constructor; cbn; try constructor; lia. Qed.

Lemma getUserByEmail_None (db : Db) (email : string) :
  getUserByEmail db email = None <-> email ∉ map User.email (users db).
Proof.
  unfold getUserByEmail. rewrite find_none_iff. split.
  - intros H Hin. apply list_elem_of_In, in_map_iff in Hin as (u & <- & Hu).
    apply list_elem_of_In in Hu. specialize (H u Hu).
    now rewrite String.eqb_refl in H.
  - intros H u Hu. destruct (String.eqb_spec (User.email u) email) as [E|E];
      [|reflexivity].
    exfalso. apply H. rewrite <- E.
    apply list_elem_of_In, in_map, list_elem_of_In, Hu.
Qed.

Lemma wf_createUser (db : Db) (email passwordHash trustedEmail : string) (now : Z) :
  wf db -> getUserByEmail db email = None ->
  wf (snd (createUser db email passwordHash trustedEmail now)).
Proof.
  intros [Hs Hu Huk He Hen Henk Hq Hqk] Hnew. apply getUserByEmail_None in Hnew.
  constructor; cbn; try assumption.
  - lia.
  - apply Forall_app. split.
    + eapply Forall_impl; [exact Hu|]. cbn. lia.
    + repeat constructor; cbn; lia.
  - rewrite map_app. apply NoDup_app. split_and!; [exact Huk | | apply NoDup_singleton].
    cbn. intros i Hi Hi'. apply list_elem_of_singleton in Hi'. subst i.
    apply list_elem_of_In, in_map_iff in Hi as (u & Hid & Hin).
    rewrite Forall_forall in Hu. apply list_elem_of_In in Hin.
    specialize (Hu u Hin). cbn in Hu. lia.
  - rewrite map_app. apply NoDup_app. split_and!; [exact He | | apply NoDup_singleton].
    cbn. intros e He1 He2. apply list_elem_of_singleton in He2. now subst e.
Qed.

Lemma wf_twoUsers : wf twoUsers.
Proof.
  apply wf_createUser; [apply wf_createUser; [apply wf_emptyDb | reflexivity] | reflexivity].
Qed.

Lemma wf_setUsers (db : Db) (g : User.t -> User.t) :
  (forall u, User.id (g u) = User.id u) ->
  (forall u, User.email (g u) = User.email u) ->
  wf db -> wf (setUsers db (map g (users db))).
Proof.
  intros Hid Hem [Hs Hu Huk He Hen Henk Hq Hqk].
  constructor; cbn; try assumption.
  - apply Forall_forall. intros u Hu'.
    apply list_elem_of_In, in_map_iff in Hu' as (u0 & <- & Hu0).
    rewrite Hid. rewrite Forall_forall in Hu. apply Hu, list_elem_of_In, Hu0.
  - rewrite map_map. erewrite map_ext; [exact Huk|]. intros u. apply Hid.
  - rewrite map_map. erewrite map_ext; [exact He|]. intros u. apply Hem.
Qed.

Lemma wf_updateUserPassword (db : Db) (id : Z) (passwordHash : string) (now : Z) :
  wf db -> wf (updateUserPassword db id passwordHash now).
Proof.
  intros H. unfold updateUserPassword.
  apply (wf_setUsers db _); [| |exact H]; intros u; destruct (User.id u =? id)%Z; reflexivity.
Qed.

Lemma wf_updateUserTrustedEmail (db : Db) (id : Z) (trustedEmail : string) (now : Z) :
  wf db -> wf (updateUserTrustedEmail db id trustedEmail now).
Proof.
  intros H. unfold updateUserTrustedEmail.
  apply (wf_setUsers db _); [| |exact H]; intros u; destruct (User.id u =? id)%Z; reflexivity.
Qed.

Lemma wf_createJournalEntry (db : Db) (entry : InsertJournalEntry) (now : Z) :
  wf db -> wf (snd (createJournalEntry db entry now)).
Proof.
  intros Hwf. unfold createJournalEntry.
  destruct (negb (storable (insEntryText entry))); [exact Hwf|].
  destruct Hwf as [Hs Hu Huk He Hen Henk Hq Hqk].
  destruct (userIdExists db (insUserId entry) && quoteIdExists db (insQuoteId entry));
    cbn [snd]; [|constructor; cbn; try assumption;
                 [lia | eapply Forall_impl; [exact Hen|]; cbn; lia]].
  constructor; cbn; try assumption.
  - lia.
  - apply Forall_app. split.
    + eapply Forall_impl; [exact Hen|]. cbn. lia.
    + repeat constructor; cbn; lia.
  - rewrite map_app. apply NoDup_app. split_and!; [exact Henk | | apply NoDup_singleton].
    cbn. intros i Hi Hi'. apply list_elem_of_singleton in Hi'. subst i.
    apply list_elem_of_In, in_map_iff in Hi as (e & Hid & Hin).
    rewrite Forall_forall in Hen. apply list_elem_of_In in Hin.
    specialize (Hen e Hin). cbn in Hen. lia.
Qed.

Lemma wf_markQuoteAsRevealed (db : Db) (id : Z) :
  wf db -> wf (markQuoteAsRevealed db id).
Proof.
  intros [Hs Hu Huk He Hen Henk Hq Hqk]. constructor; cbn; try assumption.
  - apply Forall_forall. intros e He'.
    apply list_elem_of_In, in_map_iff in He' as (e0 & <- & He0).
    rewrite Forall_forall in Hen. apply list_elem_of_In in He0.
    specialize (Hen e0 He0). destruct (JournalEntry.id e0 =? id)%Z; exact Hen.
  - rewrite map_map. erewrite map_ext; [exact Henk|].
    intros e. destruct (JournalEntry.id e =? id)%Z; reflexivity.
Qed.

Lemma wf_createQuote (db : Db) (quote : InsertQuote.t) :
  wf db -> wf (snd (createQuote db quote)).
Proof.
  intros [Hs Hu Huk He Hen Henk Hq Hqk]. constructor; cbn; try assumption.
  - lia.
  - apply Forall_app. split.
    + eapply Forall_impl; [exact Hq|]. cbn. lia.
    + repeat constructor; cbn; lia.
  - rewrite map_app. apply NoDup_app. split_and!; [exact Hqk | | apply NoDup_singleton].
    cbn. intros i Hi Hi'. apply list_elem_of_singleton in Hi'. subst i.
    apply list_elem_of_In, in_map_iff in Hi as (q & Hid & Hin).
    rewrite Forall_forall in Hq. apply list_elem_of_In in Hin.
    specialize (Hq q Hin). cbn in Hq. lia.
Qed.

Lemma wf_insertQuotes (values : list InsertQuote.t) (db : Db) :
  wf db -> wf (insertQuotes db values).
Proof.
  unfold insertQuotes. revert db.
  induction values as [|v vs IH]; intros db H; cbn [foldl]; [exact H|].
  apply IH, wf_createQuote, H.
Qed.

Lemma wf_initializeQuotes (db : Db) : wf db -> wf (initializeQuotes db).
Proof.
  intros H. unfold initializeQuotes.
  destruct (0 <? length (take 1 (quotes db))); [exact H|].
  now apply wf_insertQuotes.
Qed.

End InvariantFacts.

(** ** [POST /api/journal/entries] *)

Section PostEntryFacts.

Import Sentiment JsDate Routes Schema Storage Api Inv.

Lemma userIdExists_getUser (db : Db) (id : Z) :
  userIdExists db id = match getUser db id with Some _ => true | None => false end.
Proof.
  unfold userIdExists, getUser. induction (users db) as [|u us IH]; [reflexivity|].
  cbn [existsb List.find]. destruct (User.id u =? id)%Z; [reflexivity | exact IH].
Qed.

Lemma elem_of_getQuotesByMoodTag (db : Db) (tag : string) (q : Quote) :
  q ∈ getQuotesByMoodTag db tag <-> q ∈ quotes db /\ Routes.moodTag q = tag.
Proof.
  unfold getQuotesByMoodTag. rewrite elem_of_filter_bool, String.eqb_eq. tauto.
Qed.

Lemma pickQuote_elem_of (random : Q) (availableQuotes : list Quote) (q : Quote) :
  pickQuote random availableQuotes = Some q -> q ∈ availableQuotes.
Proof.
  unfold pickQuote, arrayGet. destruct (_ <? 0)%Z; [discriminate|].
  intros H. apply list_elem_of_lookup. eauto.
Qed.

(** The quote that the handler picks is in the table of the quotes. *)
Lemma quoteIdExists_pickQuote (db : Db) (tag : string) (random : Q) :
  quoteIdExists db (quoteIdOf (pickQuote random (getQuotesByMoodTag db tag))) = true.
Proof.
  destruct (pickQuote random (getQuotesByMoodTag db tag)) as [q|] eqn:E; [|reflexivity].
  apply pickQuote_elem_of, elem_of_getQuotesByMoodTag in E as [Hq _].
  cbn [quoteIdOf]. destruct (Routes.id q =? 0)%Z; [reflexivity|].
  cbn [quoteIdExists]. apply existsb_exists. exists q.
  split; [apply list_elem_of_In, Hq | apply Z.eqb_refl].
Qed.

Lemma createJournalEntry_accepted (db : Db) (entry : InsertJournalEntry) (now : Z) :
  storable (insEntryText entry) = true ->
  userIdExists db (insUserId entry) = true ->
  quoteIdExists db (insQuoteId entry) = true ->
  createJournalEntry db entry now
  = (Some (rowOf db entry now), addEntry db (rowOf db entry now)).
Proof.
  intros Ht Hu Hq. unfold createJournalEntry. rewrite Ht, Hu, Hq. reflexivity.
Qed.

(** The handler for a user of the session and a text that passes the guard,
    when the database takes the row. *)
Lemma postJournalEntry_run (transporter : Transporter) (now : Z) (random : Q)
    (text : string) (st : State) (userId : Z) (user : User.t) :
  requireAuth st = Some userId -> text <> EmptyString ->
  storable text = true -> getUser (db st) userId = Some user ->
  postJournalEntry transporter now random (JsString text) st
  = (json (EntryBody
             (getJournalEntryWithQuote
                (addEntry (db st)
                   (rowOf (db st) (insertedEntry (db st) userId text random) now))
                (entrySeq (db st)))),
     {| db := addEntry (db st)
                (rowOf (db st) (insertedEntry (db st) userId text random) now);
        session := session st;
        outbox := outboxAfter transporter now userId text st |}).
Proof.
  intros Hauth Htext Hstore Huser. unfold postJournalEntry. rewrite Hauth.
  cbn [truthy isString negb orb callAnalyzeSentiment].
  destruct (String.eqb_spec text EmptyString) as [E|_]; [contradiction|].
  fold (insertedEntry (db st) userId text random).
  rewrite createJournalEntry_accepted.
  - reflexivity.
  - exact Hstore.
  - cbn [insertedEntry insUserId]. rewrite userIdExists_getUser, Huser. reflexivity.
  - apply quoteIdExists_pickQuote.
Qed.

(** The handler when the database refuses the row. *)
Lemma postJournalEntry_refused (transporter : Transporter) (now : Z) (random : Q)
    (text : string) (st : State) (userId : Z) :
  requireAuth st = Some userId -> text <> EmptyString ->
  storable text = false \/ getUser (db st) userId = None ->
  postJournalEntry transporter now random (JsString text) st
  = (fail 500 "Failed to create journal entry",
     setDb st (if storable text
               then setEntrySeq (db st) (entrySeq (db st) + 1)
               else db st)).
Proof.
  intros Hauth Htext Href. unfold postJournalEntry. rewrite Hauth.
  cbn [truthy isString negb orb callAnalyzeSentiment].
  destruct (String.eqb_spec text EmptyString) as [E|_]; [contradiction|].
  unfold createJournalEntry. cbn [insEntryText insUserId].
  destruct (storable text); cbn [negb]; [|reflexivity].
  destruct Href as [Href|Href]; [discriminate|].
  rewrite userIdExists_getUser, Href. reflexivity.
Qed.

Lemma getQuote_unique (db : Db) (q : Quote) :
  wf db -> q ∈ quotes db -> getQuote db (Routes.id q) = Some q.
Proof.
  intros Hwf Hq. unfold getQuote.
  apply (find_unique Routes.id Z.eqb); [apply Zeqb_iff | apply Hwf | exact Hq].
Qed.

Lemma getJournalEntryWithQuote_new (db : Db) (entry : InsertJournalEntry) (now : Z) :
  wf db ->
  getJournalEntryWithQuote (addEntry db (rowOf db entry now)) (entrySeq db)
  = Some (rowOf db entry now,
          match insQuoteId entry with
          | Some q => getQuote db q
          | None => None
          end).
Proof.
  intros Hwf. unfold getJournalEntryWithQuote. cbn [addEntry rowOf journalEntries].
  rewrite find_app_none.
  - cbn [List.find JournalEntry.id]. rewrite Z.eqb_refl. reflexivity.
  - apply find_none_iff. intros e He. apply Z.eqb_neq.
    pose proof (wf_entry_ids db Hwf) as H. rewrite Forall_forall in H.
    specialize (H e He). cbn in H. lia.
Qed.

(** The quote that the response joins to the new entry. *)
Lemma attached_quote (db : Db) (tag : string) (random : Q) :
  wf db ->
  match pickQuote random (getQuotesByMoodTag db tag) with
  | Some q =>
      q ∈ quotes db /\ Routes.moodTag q = tag
      /\ quoteIdOf (Some q) = Some (Routes.id q)
      /\ getQuote db (Routes.id q) = Some q
  | None => True
  end.
Proof.
  intros Hwf. destruct (pickQuote random (getQuotesByMoodTag db tag)) as [q|] eqn:E;
    [|exact I].
  assert (q ∈ getQuotesByMoodTag db tag) as Hq by (eapply pickQuote_elem_of, E).
  apply elem_of_getQuotesByMoodTag in Hq as [Hq Htag].
  split; [exact Hq|]. split; [exact Htag|]. split; [|now apply getQuote_unique].
  cbn [quoteIdOf]. pose proof (wf_quote_ids db Hwf) as H.
  rewrite Forall_forall in H. specialize (H q Hq).
  cbn in H. destruct (Z.eqb_spec (Routes.id q) 0); [lia | reflexivity].
Qed.

Lemma moodTags_insertQuotes (values : list InsertQuote.t) (db : Db) :
  map Routes.moodTag (quotes (insertQuotes db values))
  = map Routes.moodTag (quotes db) ++ map InsertQuote.moodTag values.
Proof.
  unfold insertQuotes. revert db.
  induction values as [|v vs IH]; intros db; cbn [foldl map].
  - now rewrite app_nil_r.
  - rewrite IH. cbn [createQuote snd quotes].
    rewrite map_app, <- app_assoc. reflexivity.
Qed.

Lemma isCrisis_hasCrisisKeywords (text : string) :
  isCrisis (analyzeSentiment text) = hasCrisisKeywords (Js.toLowerCase text).
Proof.
  unfold analyzeSentiment. destruct (hasCrisisKeywords (Js.toLowerCase text));
    [reflexivity|]. destruct (_ =? 0); reflexivity.
Qed.

End PostEntryFacts.

(** ** Further properties of the classifier *)

Section ClassifierExtras.

Import Sentiment Aux Inv.

(** X4.  A text in which no code unit is an ASCII letter - the empty text,
    whitespace, digits, punctuation - is classified
    [{mood: neutral, confidence: 0.5, isCrisis: false}]: every keyword of the
    four lists starts with a letter. *)
Theorem text_without_letters_is_neutral (text : string) :
  noLetter text = true ->
  analyzeSentiment text
  = {| mood := neutral; confidence := 1 # 2; isCrisis := false |}.
Proof. apply analyzeSentiment_noLetter. Qed.

Lemma text_without_letters_is_neutral_witness :
  analyzeSentiment "  2024-06-01: 100% :-( !!!  "
  = {| mood := neutral; confidence := 1 # 2; isCrisis := false |}.
Proof. apply text_without_letters_is_neutral. reflexivity. Defined.

(** X5.  When a category wins, the confidence is 1 exactly when
    [words.length] is at most ten times the sum of the winning category: a
    text of at most ten pieces with one keyword match has the confidence 1,
    and a longer one with one match has less. *)
Theorem confidence_saturates (text : string) :
  hasCrisisKeywords (Js.toLowerCase text) = false ->
  topScore (Js.toLowerCase text) <> 0 ->
  (confidence (analyzeSentiment text) == 1)%Q
  <-> length (Js.splitWhitespace (Js.toLowerCase text))
      <= 10 * Spec.categoryScore (mood (analyzeSentiment text)) (Js.toLowerCase text).
Proof.
  intros Hc H0. rewrite analyzeSentiment_scored by assumption.
  cbn [mood confidence]. rewrite firstTop_top.
  apply ratio_saturates, splitWhitespace_nonempty.
Qed.

Lemma confidence_saturates_witness :
  ~ (confidence (analyzeSentiment "I was happy when the rain stopped and we all went out") == 1)%Q.
Proof.
  intros H.
  apply (confidence_saturates "I was happy when the rain stopped and we all went out")
    in H.
  - vm_compute in H. lia.
  - reflexivity.
  - vm_compute. discriminate.
Defined.

End ClassifierExtras.

(** ** Properties of the journal routes *)

Section EntryExtras.

Import Sentiment JsDate Routes Schema Storage Api Inv.

Lemma postJournalEntry_response (transporter : Transporter) (now : Z)
    (random : Q) (text : string) (st : State) (userId : Z) (user : User.t) :
  wf (db st) -> requireAuth st = Some userId -> text <> EmptyString ->
  storable text = true -> getUser (db st) userId = Some user ->
  exists entry quote,
    fst (postJournalEntry transporter now random (JsString text) st)
    = json (EntryBody (Some (entry, quote)))
    /\ forall q,
         pickQuote random
           (getQuotesByMoodTag (db st)
              (getMoodQuoteTag (Sentiment.mood (analyzeSentiment text)))) = Some q ->
         quote = Some q
         /\ JournalEntry.quoteId entry = Some (Routes.id q)
         /\ Routes.moodTag q = getMoodQuoteTag (Sentiment.mood (analyzeSentiment text)).
Proof.
  intros Hwf Hauth Htext Hstore Huser.
  rewrite (postJournalEntry_run _ _ _ _ _ _ _ Hauth Htext Hstore Huser). cbn [fst].
  rewrite getJournalEntryWithQuote_new by exact Hwf.
  eexists _, _. split; [reflexivity|]. intros q Hpick.
  cbn [insertedEntry insQuoteId rowOf JournalEntry.quoteId].
  pose proof (attached_quote (db st)
                (getMoodQuoteTag (Sentiment.mood (analyzeSentiment text))) random Hwf) as H.
  rewrite Hpick in *. destruct H as (Hq & Htag & Hid & Hget).
  rewrite Hid, Hget. auto.
Qed.

(** X6.  For a logged-in user and a non-empty text, [POST
    /api/journal/entries] either stores the entry or answers 500.  When the
    user of the session is in the table of the users and the text is one
    that the database stores (no code unit U+0000), it appends one row to
    the entries and changes no other table nor the session.  The row belongs
    to the user of the session, holds the text, the mood of
    [analyzeSentiment] and the time of the request, and its quote is not
    revealed.  The response is this row with its quote: a quote of the
    catalogue whose tag is [getMoodQuoteTag] of the mood, or no quote.  When
    the user of the session is not in the table of the users, or the text
    has the code unit U+0000, the database refuses the row: the answer is
    500 "Failed to create journal entry", and no table, nor the session, nor
    the mails change. *)
Theorem posted_entry_is_stored_or_refused (transporter : Transporter) (now : Z)
    (random : Q) (text : string) (st : State) (userId : Z) :
  wf (db st) -> requireAuth st = Some userId -> text <> EmptyString ->
  (forall user,
     storable text = true -> getUser (db st) userId = Some user ->
     exists entry quote,
       fst (postJournalEntry transporter now random (JsString text) st)
       = json (EntryBody (Some (entry, quote)))
       /\ journalEntries (db (snd (postJournalEntry transporter now random (JsString text) st)))
          = journalEntries (db st) ++ [entry]
       /\ users (db (snd (postJournalEntry transporter now random (JsString text) st)))
          = users (db st)
       /\ quotes (db (snd (postJournalEntry transporter now random (JsString text) st)))
          = quotes (db st)
       /\ session (snd (postJournalEntry transporter now random (JsString text) st))
          = session st
       /\ JournalEntry.userId entry = userId
       /\ JournalEntry.entryText entry = text
       /\ JournalEntry.detectedMood entry = Sentiment.mood (analyzeSentiment text)
       /\ JournalEntry.isQuoteRevealed entry = false
       /\ JournalEntry.createdAt entry = Some now
       /\ match quote with
          | Some q =>
              q ∈ quotes (db st)
              /\ Routes.moodTag q = getMoodQuoteTag (Sentiment.mood (analyzeSentiment text))
              /\ JournalEntry.quoteId entry = Some (Routes.id q)
          | None => JournalEntry.quoteId entry = None
          end)
  /\ (storable text = false \/ getUser (db st) userId = None ->
      fst (postJournalEntry transporter now random (JsString text) st)
      = fail 500 "Failed to create journal entry"
      /\ journalEntries (db (snd (postJournalEntry transporter now random (JsString text) st)))
         = journalEntries (db st)
      /\ users (db (snd (postJournalEntry transporter now random (JsString text) st)))
         = users (db st)
      /\ quotes (db (snd (postJournalEntry transporter now random (JsString text) st)))
         = quotes (db st)
      /\ session (snd (postJournalEntry transporter now random (JsString text) st))
         = session st
      /\ outbox (snd (postJournalEntry transporter now random (JsString text) st))
         = outbox st).
Proof.
  intros Hwf Hauth Htext. split.
  - intros user Hstore Huser.
    rewrite (postJournalEntry_run _ _ _ _ _ _ _ Hauth Htext Hstore Huser).
    cbn [fst snd db session].
    rewrite getJournalEntryWithQuote_new by exact Hwf.
    eexists _, _. split; [reflexivity|].
    repeat (split; [reflexivity|]).
    cbn [insertedEntry insQuoteId rowOf JournalEntry.quoteId].
    pose proof (attached_quote (db st)
                  (getMoodQuoteTag (Sentiment.mood (analyzeSentiment text))) random Hwf) as H.
    destruct (pickQuote random _) as [q|].
    + destruct H as (Hq & Htag & Hid & Hget). rewrite Hid, Hget. auto.
    + reflexivity.
  - intros Href. rewrite (postJournalEntry_refused _ _ _ _ _ _ Hauth Htext Href).
    cbn [fst snd setDb db session outbox].
    destruct (storable text); repeat split; reflexivity.
Qed.

Lemma posted_entry_is_stored_or_refused_witness :
  exists entry quote,
    fst (postJournalEntry NotInitialized 1700000000000 (1 # 3) (JsString "I feel happy")
           {| db := snd (createUser (initializeQuotes emptyDb) "ann@example.org" "hash"
                           "bob@example.org" 1690000000000);
              session := Some 1%Z; outbox := [] |})
    = json (EntryBody (Some (entry, quote)))
    /\ JournalEntry.detectedMood entry = happy.
Proof.
  destruct (proj1 (posted_entry_is_stored_or_refused NotInitialized 1700000000000 (1 # 3)
              "I feel happy"
              {| db := snd (createUser (initializeQuotes emptyDb) "ann@example.org" "hash"
                              "bob@example.org" 1690000000000);
                 session := Some 1%Z; outbox := [] |} 1
              (wf_createUser _ _ _ _ _ (wf_initializeQuotes _ wf_emptyDb) eq_refl)
              eq_refl ltac:(discriminate))
            {| User.id := 1; User.email := "ann@example.org";
               User.passwordHash := "hash"; User.trustedEmail := "bob@example.org";
               User.createdAt := Some 1690000000000%Z;
               User.updatedAt := Some 1690000000000%Z |}
            eq_refl eq_refl)
    as (entry & quote & H & _ & _ & _ & _ & _ & _ & Hmood & _).
  exists entry, quote. split; [exact H|]. rewrite Hmood. reflexivity.
Defined.

(** X7.  When the catalogue is the one that [initializeQuotes] writes into
    an empty table, every entry that is stored gets a quote: for a user of
    the session who is in the table of the users and every text that the
    database stores, the response carries a quote, and its tag is
    [getMoodQuoteTag] of the detected mood.  [random] is a value of
    [Math.random()], in [0, 1). *)
Theorem seeded_catalogue_gives_every_entry_a_quote (transporter : Transporter)
    (now : Z) (random : Q) (text : string) (st : State) (userId : Z) (user : User.t)
    (db0 : Db) :
  wf (db st) -> quotes db0 = [] ->
  quotes (db st) = quotes (initializeQuotes db0) ->
  requireAuth st = Some userId -> getUser (db st) userId = Some user ->
  text <> EmptyString -> storable text = true ->
  (0 <= random)%Q -> (random < 1)%Q ->
  exists entry q,
    fst (postJournalEntry transporter now random (JsString text) st)
    = json (EntryBody (Some (entry, Some q)))
    /\ JournalEntry.quoteId entry = Some (Routes.id q)
    /\ Routes.moodTag q = getMoodQuoteTag (Sentiment.mood (analyzeSentiment text)).
Proof.
  intros Hwf Hempty Hseed Hauth Huser Htext Hstore H0 H1.
  destruct (postJournalEntry_response transporter now random text st userId user
              Hwf Hauth Htext Hstore Huser) as (entry & quote & Hres & Hquote).
  assert (getQuotesByMoodTag (db st)
            (getMoodQuoteTag (Sentiment.mood (analyzeSentiment text))) <> []) as Hne.
  { assert (getMoodQuoteTag (Sentiment.mood (analyzeSentiment text))
            ∈ map Routes.moodTag (quotes (db st))) as Hin.
    { rewrite Hseed. unfold initializeQuotes. rewrite Hempty. cbn [take length Nat.ltb Nat.leb].
      rewrite moodTags_insertQuotes, Hempty. cbn [map app].
      destruct (Sentiment.mood (analyzeSentiment text)); vm_compute;
        repeat (first [apply list_elem_of_here | apply list_elem_of_further]). }
    apply list_elem_of_In, in_map_iff in Hin as (q & Htag & Hq).
    intros Hnil.
    assert (q ∈ getQuotesByMoodTag (db st)
                  (getMoodQuoteTag (Sentiment.mood (analyzeSentiment text)))) as Hq'.
    { apply elem_of_getQuotesByMoodTag. split; [apply list_elem_of_In, Hq | exact Htag]. }
    rewrite Hnil in Hq'. now apply elem_of_nil in Hq'. }
  destruct (pickQuote_some random _ H0 H1 Hne) as (q & Hpick & _).
  specialize (Hquote q Hpick) as (-> & Hid & Htag).
  exists entry, q. auto.
Qed.

Lemma seeded_catalogue_gives_every_entry_a_quote_witness :
  exists entry q,
    fst (postJournalEntry NotInitialized 1700000000000 (99 # 100)
           (JsString "there is no point")
           {| db := snd (createUser (initializeQuotes emptyDb) "ann@example.org" "hash"
                           "bob@example.org" 1690000000000);
              session := Some 1%Z; outbox := [] |})
    = json (EntryBody (Some (entry, Some q)))
    /\ Routes.moodTag q = "sad".
Proof.
  destruct (seeded_catalogue_gives_every_entry_a_quote NotInitialized 1700000000000
              (99 # 100) "there is no point"
              {| db := snd (createUser (initializeQuotes emptyDb) "ann@example.org" "hash"
                              "bob@example.org" 1690000000000);
                 session := Some 1%Z; outbox := [] |}
              1
              {| User.id := 1; User.email := "ann@example.org";
                 User.passwordHash := "hash"; User.trustedEmail := "bob@example.org";
                 User.createdAt := Some 1690000000000%Z;
                 User.updatedAt := Some 1690000000000%Z |}
              emptyDb)
    as (entry & q & H & _ & Htag).
  - apply wf_createUser; [apply wf_initializeQuotes, wf_emptyDb | reflexivity].
  - reflexivity.
  - vm_compute. reflexivity.
  - reflexivity.
  - vm_compute. reflexivity.
  - discriminate.
  - reflexivity.
  - discriminate.
  - reflexivity.
  - exists entry, q. split; [exact H|]. rewrite Htag. reflexivity.
Defined.

(** X8.  [initializeQuotes] touches the quotes only, and only when their
    table is empty: it then inserts the 36 initial quotes.  Run again, as at
    every start of the server, it changes nothing. *)
Theorem initializeQuotes_idempotent (db0 : Db) :
  initializeQuotes (initializeQuotes db0) = initializeQuotes db0
  /\ users (initializeQuotes db0) = users db0
  /\ journalEntries (initializeQuotes db0) = journalEntries db0
  /\ (quotes db0 <> [] -> initializeQuotes db0 = db0)
  /\ (quotes db0 = [] -> length (quotes (initializeQuotes db0)) = 36).
Proof.
  assert (forall values db1, users (insertQuotes db1 values) = users db1
                             /\ journalEntries (insertQuotes db1 values) = journalEntries db1
                             /\ length (quotes (insertQuotes db1 values))
                                = length (quotes db1) + length values) as Hins.
  { unfold insertQuotes. induction values as [|v vs IH]; intros db1; cbn [foldl length].
    - repeat split; lia.
    - destruct (IH (snd (createQuote db1 v))) as (-> & -> & ->).
      cbn [createQuote snd users journalEntries quotes]. rewrite length_app. cbn [length].
      repeat split; lia. }
  destruct (quotes db0) as [|q qs] eqn:E.
  - assert (initializeQuotes db0 = insertQuotes db0 initialQuotes) as Hinit
      by (unfold initializeQuotes; rewrite E; reflexivity).
    destruct (Hins initialQuotes db0) as (Hu & He & Hlen). rewrite E in Hlen.
    rewrite !Hinit.
    split; [|split; [exact Hu | split; [exact He | split; [congruence | intros _; exact Hlen]]]].
    unfold initializeQuotes.
    destruct (quotes (insertQuotes db0 initialQuotes)) as [|q qs] eqn:E'; [|reflexivity].
    cbn in Hlen. discriminate.
  - assert (initializeQuotes db0 = db0) as Hinit
      by (unfold initializeQuotes; rewrite E; reflexivity).
    rewrite !Hinit.
    repeat (split; [reflexivity|]). rewrite E. discriminate.
Qed.


(** X10.  The mail does not decide the answer: whatever the transporter is
    and whether [sendMail] resolves or throws, the response, the database
    and the session after [POST /api/journal/entries] are the same; and
    without a transporter, or when [sendMail] throws, no mail is recorded. *)
Theorem mail_failure_leaves_response (t t' : Transporter) (now : Z) (random : Q)
    (entryText : JsValue) (st : State) :
  fst (postJournalEntry t now random entryText st)
  = fst (postJournalEntry t' now random entryText st)
  /\ db (snd (postJournalEntry t now random entryText st))
     = db (snd (postJournalEntry t' now random entryText st))
  /\ session (snd (postJournalEntry t now random entryText st))
     = session (snd (postJournalEntry t' now random entryText st))
  /\ (t <> Initialized true ->
      outbox (snd (postJournalEntry t now random entryText st)) = outbox st).
Proof.
  unfold postJournalEntry. destruct (requireAuth st) as [userId|]; [|auto].
  destruct (negb (truthy entryText) || negb (isString entryText)); [auto|].
  destruct entryText; cbn [callAnalyzeSentiment]; auto.
  destruct (createJournalEntry _ _ _) as [[entry|] db']; [|auto].
  cbn [fst snd db session outbox].
  repeat (split; [reflexivity|]). intros Ht.
  destruct (isCrisis (analyzeSentiment s)); [|reflexivity].
  destruct (getUser _ userId); [|reflexivity].
  destruct t as [|[]]; [reflexivity | congruence | reflexivity].
Qed.

End EntryExtras.

(** ** Sessions and ownership *)

Section OwnershipExtras.

Import Sentiment JsDate Routes Schema Storage Api Inv.

Lemma requireAuth_None (st : State) :
  requireAuth st = None <-> session st = None \/ session st = Some 0%Z.
Proof.
  unfold requireAuth. destruct (session st) as [u|]; [|tauto].
  destruct (Z.eqb_spec u 0) as [->|Hne]; [tauto|].
  split; [discriminate|]. intros [H|[= H]]; [discriminate | contradiction].
Qed.

(** X11.  A request without the user id of a session (or with the id 0,
    which [!req.session.userId] takes for none) is answered 401 by every
    route behind [requireAuth], and changes neither the database nor the
    session nor the mails. *)
Theorem unauthenticated_requests_change_nothing (st : State) :
  session st = None \/ session st = Some 0%Z ->
  me st = (fail 401 "Unauthorized", st)
  /\ (forall transporter now random entryText,
        postJournalEntry transporter now random entryText st
        = (fail 401 "Unauthorized", st))
  /\ getJournalEntries st = (fail 401 "Unauthorized", st)
  /\ (forall entryId, getJournalEntry entryId st = (fail 401 "Unauthorized", st))
  /\ (forall entryId, revealQuote entryId st = (fail 401 "Unauthorized", st))
  /\ (forall tz endNow startNow clock,
        getWeeklyMood tz endNow startNow clock st = (fail 401 "Unauthorized", st))
  /\ (forall b now salt currentPassword newPassword,
        changePassword b now salt currentPassword newPassword st
        = (fail 401 "Unauthorized", st))
  /\ (forall f now trustedEmail,
        updateTrustedEmail f now trustedEmail st = (fail 401 "Unauthorized", st)).
Proof.
  intros H. apply requireAuth_None in H.
  unfold me, postJournalEntry, getJournalEntries, getJournalEntry, revealQuote,
    getWeeklyMood, changePassword, updateTrustedEmail.
  rewrite H. repeat split.
Qed.

Lemma unauthenticated_requests_change_nothing_witness :
  revealQuote 1%Z {| db := snd (createJournalEntry twoUsers
                                {| insUserId := 1; insEntryText := "happy";
                                   insDetectedMood := happy; insQuoteId := None;
                                   insIsQuoteRevealed := false |} 0);
                   session := Some 0%Z; outbox := [] |}
  = (fail 401 "Unauthorized",
     {| db := snd (createJournalEntry twoUsers
                     {| insUserId := 1; insEntryText := "happy";
                        insDetectedMood := happy; insQuoteId := None;
                        insIsQuoteRevealed := false |} 0);
        session := Some 0%Z; outbox := [] |}).
Proof.
  refine (proj1 (proj2 (proj2 (proj2 (proj2
    (unauthenticated_requests_change_nothing _ _))))) 1%Z).
  right. reflexivity.
Defined.

(** X12.  [GET /api/journal/entries] answers a logged-in user with the
    rows of that user, all of them and no row of another user, the later row
    first (a row without timestamp before the others), and changes
    nothing. *)
Theorem own_entries_listed (st : State) (userId : Z) :
  requireAuth st = Some userId ->
  exists entries,
    getJournalEntries st = (json (EntriesBody entries), st)
    /\ entries ≡ₚ entriesOf (db st) userId
    /\ (forall e, e ∈ entries <->
                  e ∈ journalEntries (db st) /\ JournalEntry.userId e = userId)
    /\ StronglySorted (fun a b => laterFirst a b = true) entries.
Proof.
  intros Hauth. unfold getJournalEntries. rewrite Hauth.
  eexists. split; [reflexivity|]. unfold getUserJournalEntries.
  split; [apply sort_perm|]. split.
  - intros e. rewrite sort_perm, elem_of_filter_bool, Z.eqb_eq. reflexivity.
  - apply sort_sorted; [apply laterFirst_total | apply laterFirst_trans].
Qed.

Lemma own_entries_listed_witness :
  exists entries,
    getJournalEntries
      {| db := snd (createJournalEntry
                      (snd (createJournalEntry twoUsers
                              {| insUserId := 2; insEntryText := "sad";
                                 insDetectedMood := sad; insQuoteId := None;
                                 insIsQuoteRevealed := false |} 10))
                      {| insUserId := 1; insEntryText := "happy";
                         insDetectedMood := happy; insQuoteId := None;
                         insIsQuoteRevealed := false |} 20);
         session := Some 1%Z; outbox := [] |}
    = (json (EntriesBody entries),
       {| db := snd (createJournalEntry
                       (snd (createJournalEntry twoUsers
                               {| insUserId := 2; insEntryText := "sad";
                                  insDetectedMood := sad; insQuoteId := None;
                                  insIsQuoteRevealed := false |} 10))
                       {| insUserId := 1; insEntryText := "happy";
                          insDetectedMood := happy; insQuoteId := None;
                          insIsQuoteRevealed := false |} 20);
          session := Some 1%Z; outbox := [] |}).
Proof.
  destruct (own_entries_listed
              {| db := snd (createJournalEntry
                              (snd (createJournalEntry twoUsers
                                      {| insUserId := 2; insEntryText := "sad";
                                         insDetectedMood := sad; insQuoteId := None;
                                         insIsQuoteRevealed := false |} 10))
                              {| insUserId := 1; insEntryText := "happy";
                                 insDetectedMood := happy; insQuoteId := None;
                                 insIsQuoteRevealed := false |} 20);
                 session := Some 1%Z; outbox := [] |} 1%Z eq_refl)
    as (entries & H & _).
  exists entries. exact H.
Defined.

Lemma key_unique {A K} (key : A -> K) (l : list A) (x y : A) :
  NoDup (map key l) -> x ∈ l -> y ∈ l -> key x = key y -> x = y.
Proof.
  intros Hnd Hx Hy Hk. induction l as [|z l IH]; [now apply elem_of_nil in Hx|].
  cbn [map] in Hnd. apply NoDup_cons in Hnd as [Hz Hnd].
  apply elem_of_cons in Hx as [->|Hx]; apply elem_of_cons in Hy as [->|Hy].
  - reflexivity.
  - exfalso. apply Hz. rewrite Hk. apply list_elem_of_In, in_map, list_elem_of_In, Hy.
  - exfalso. apply Hz. rewrite <- Hk. apply list_elem_of_In, in_map, list_elem_of_In, Hx.
  - now apply IH.
Qed.

(** The entry that the two routes on one entry act on: the row with the
    id, when it is a row of the user. *)
Lemma ownEntry_Some (db : Db) (userId entryId : Z) (e : JournalEntry.t) (q : option Quote) :
  ownEntry userId (getJournalEntryWithQuote db entryId) = Some (e, q) ->
  e ∈ journalEntries db /\ JournalEntry.id e = entryId /\ JournalEntry.userId e = userId.
Proof.
  unfold ownEntry, getJournalEntryWithQuote.
  destruct (List.find _ (journalEntries db)) as [e0|] eqn:E; [|discriminate].
  cbn [fst]. destruct (Z.eqb_spec (JournalEntry.userId e0) userId); [|discriminate].
  intros [= <- _]. apply find_some in E as [Hin Hid]. apply Z.eqb_eq in Hid.
  split; [apply list_elem_of_In, Hin | auto].
Qed.

Lemma ownEntry_None (db : Db) (userId entryId : Z) :
  wf db ->
  ownEntry userId (getJournalEntryWithQuote db entryId) = None ->
  forall e, e ∈ journalEntries db ->
            (JournalEntry.id e =? entryId)%Z && (JournalEntry.userId e =? userId)%Z = false.
Proof.
  intros Hwf Hnone e He.
  destruct (Z.eqb_spec (JournalEntry.id e) entryId) as [Hid|]; [|reflexivity].
  destruct (Z.eqb_spec (JournalEntry.userId e) userId) as [Hu|]; [|reflexivity].
  exfalso. unfold ownEntry, getJournalEntryWithQuote in Hnone.
  rewrite <- Hid in Hnone.
  rewrite (find_unique JournalEntry.id Z.eqb _ e Zeqb_iff (wf_entry_keys _ Hwf) He) in Hnone.
  cbn [fst] in Hnone. rewrite Hu, Z.eqb_refl in Hnone. discriminate.
Qed.



(** X14.  [POST /api/journal/entries/:id/reveal-quote] marks the quote of
    one row at most: the row with that id when it belongs to the user of the
    session.  Every other row, every row of another user, and every other
    column and table stay as they are. *)
Theorem reveal_marks_own_entry_only (st : State) (userId entryId : Z) :
  wf (db st) -> requireAuth st = Some userId ->
  journalEntries (db (snd (revealQuote entryId st)))
  = map (fun e =>
           if (JournalEntry.id e =? entryId)%Z && (JournalEntry.userId e =? userId)%Z
           then revealed e else e)
        (journalEntries (db st))
  /\ users (db (snd (revealQuote entryId st))) = users (db st)
  /\ quotes (db (snd (revealQuote entryId st))) = quotes (db st)
  /\ session (snd (revealQuote entryId st)) = session st
  /\ outbox (snd (revealQuote entryId st)) = outbox st.
Proof.
  intros Hwf Hauth. unfold revealQuote. rewrite Hauth.
  destruct (ownEntry userId (getJournalEntryWithQuote (db st) entryId)) as [[e0 q]|] eqn:E;
    cbn [snd setDb db markQuoteAsRevealed journalEntries users quotes session outbox];
    (split; [|auto]).
  - apply ownEntry_Some in E as (He0 & Hid0 & Hu0).
    apply map_ext_in. intros e He. apply list_elem_of_In in He.
    destruct (Z.eqb_spec (JournalEntry.id e) entryId) as [Hid|]; [|reflexivity].
    assert (e = e0) as ->.
    { apply (key_unique JournalEntry.id (journalEntries (db st)));
        [apply Hwf | assumption | assumption | congruence]. }
    replace (JournalEntry.userId e0 =? userId)%Z with true
      by (symmetry; apply Z.eqb_eq; exact Hu0).
    reflexivity.
  - rewrite <- (map_id (journalEntries (db st))) at 1.
    apply map_ext_in. intros e He. apply list_elem_of_In in He.
    now rewrite (ownEntry_None _ _ _ Hwf E e He).
Qed.

Lemma reveal_marks_own_entry_only_witness :
  map JournalEntry.isQuoteRevealed
    (journalEntries
       (db (snd (revealQuote 2
                   {| db := snd (createJournalEntry
                                   (snd (createJournalEntry twoUsers
                                           {| insUserId := 2; insEntryText := "sad";
                                              insDetectedMood := sad; insQuoteId := None;
                                              insIsQuoteRevealed := false |} 10))
                                   {| insUserId := 1; insEntryText := "happy";
                                      insDetectedMood := happy; insQuoteId := None;
                                      insIsQuoteRevealed := false |} 20);
                      session := Some 1%Z; outbox := [] |}))))
  = [false; true].
Proof.
  etransitivity.
  - apply f_equal. apply (reveal_marks_own_entry_only _ 1%Z 2%Z).
    + apply wf_createJournalEntry, wf_createJournalEntry, wf_twoUsers.
    + reflexivity.
  - reflexivity.
Defined.

End OwnershipExtras.

(** ** Accounts *)

Section AccountExtras.

Import Sentiment JsDate Routes Schema Storage Api Inv.

(** X15.  The constraints of the tables hold in the empty database and are
    kept by [initializeQuotes] and by every route, whatever the request: the
    keys stay distinct values that the sequences have given out, and no two
    users share an email (the signup answers 409 for an email that is
    taken). *)
Theorem handlers_keep_constraints :
  wf emptyDb
  /\ (forall db0, wf db0 -> wf (initializeQuotes db0))
  /\ forall st, wf (db st) ->
       (forall f b now salt request, wf (db (snd (signup f b now salt request st))))
       /\ (forall f b email password, wf (db (snd (login f b email password st))))
       /\ wf (db (snd (logout st)))
       /\ wf (db (snd (me st)))
       /\ (forall transporter now random entryText,
             wf (db (snd (postJournalEntry transporter now random entryText st))))
       /\ wf (db (snd (getJournalEntries st)))
       /\ (forall entryId, wf (db (snd (getJournalEntry entryId st))))
       /\ (forall entryId, wf (db (snd (revealQuote entryId st))))
       /\ (forall tz endNow startNow clock,
             wf (db (snd (getWeeklyMood tz endNow startNow clock st))))
       /\ (forall b now salt currentPassword newPassword,
             wf (db (snd (changePassword b now salt currentPassword newPassword st))))
       /\ (forall f now trustedEmail,
             wf (db (snd (updateTrustedEmail f now trustedEmail st)))).
Proof.
  split; [apply wf_emptyDb|]. split; [apply wf_initializeQuotes|].
  intros st Hwf. split_and!; intros.
  - unfold signup. destruct (insertUserSchema f request) as [v|]; [|exact Hwf].
    destruct (getUserByEmail (db st) (insEmail v)) eqn:E; [exact Hwf|].
    cbn [snd db]. now apply (wf_createUser (db st)).
  - unfold login. destruct (loginSchema f email password) as [[e p]|]; [|exact Hwf].
    destruct (getUserByEmail (db st) e); [|exact Hwf].
    destruct (compare b p _); exact Hwf.
  - exact Hwf.
  - unfold me. destruct (requireAuth st); [|exact Hwf].
    destruct (getUser (db st) z); exact Hwf.
  - unfold postJournalEntry. destruct (requireAuth st); [|exact Hwf].
    destruct (negb (truthy entryText) || negb (isString entryText)); [exact Hwf|].
    destruct entryText; cbn [callAnalyzeSentiment]; try exact Hwf.
    match goal with
    | |- context [createJournalEntry (db st) ?entry ?t] =>
        pose proof (wf_createJournalEntry (db st) entry t Hwf) as Hnew;
        destruct (createJournalEntry (db st) entry t) as [[row|] db']
    end; exact Hnew.
  - unfold getJournalEntries. destruct (requireAuth st); exact Hwf.
  - unfold getJournalEntry. destruct (requireAuth st); [|exact Hwf].
    destruct (ownEntry _ _); exact Hwf.
  - unfold revealQuote. destruct (requireAuth st); [|exact Hwf].
    destruct (ownEntry _ _); [|exact Hwf]. cbn [snd setDb db].
    apply wf_markQuoteAsRevealed, Hwf.
  - unfold getWeeklyMood. destruct (requireAuth st); exact Hwf.
  - unfold changePassword. destruct (requireAuth st); [|exact Hwf].
    destruct (changePasswordSchema _ _) as [[c n]|]; [|exact Hwf].
    destruct (getUser (db st) z); [|exact Hwf].
    destruct (compare b c _); [|exact Hwf]. cbn [snd setDb db].
    apply wf_updateUserPassword, Hwf.
  - unfold updateTrustedEmail. destruct (requireAuth st); [|exact Hwf].
    destruct (updateTrustedEmailSchema f trustedEmail); [|exact Hwf].
    cbn [snd setDb db]. apply wf_updateUserTrustedEmail, Hwf.
Qed.

Lemma stringMin_Some (n : nat) (v : JsValue) (s : string) :
  stringMin n v = Some s -> v = JsString s /\ n <= String.length s.
Proof.
  destruct v; cbn; try discriminate.
  destruct (Nat.leb_spec n (String.length s0)); [|discriminate].
  intros [= ->]. auto.
Qed.

Lemma varcharString_Some (f : Formats) (v : JsValue) (s : string) :
  varcharString f v = Some s -> v = JsString s.
Proof.
  destruct v; cbn; try discriminate. destruct (fitsVarchar f s0); [|discriminate].
  now intros [= ->].
Qed.

Lemma getUser_new (db0 : Db) (email passwordHash trustedEmail : string) (now : Z) :
  wf db0 ->
  getUser (snd (createUser db0 email passwordHash trustedEmail now)) (userSeq db0)
  = Some (fst (createUser db0 email passwordHash trustedEmail now)).
Proof.
  intros Hwf. unfold getUser. cbn [createUser fst snd users].
  rewrite find_app_none.
  - cbn [List.find User.id]. now rewrite Z.eqb_refl.
  - apply find_none_iff. intros u Hu. apply Z.eqb_neq.
    pose proof (wf_user_ids db0 Hwf) as H. rewrite Forall_forall in H.
    specialize (H u Hu). cbn in H. lia.
Qed.

Lemma getUserByEmail_new (db0 : Db) (email passwordHash trustedEmail : string) (now : Z) :
  getUserByEmail db0 email = None ->
  getUserByEmail (snd (createUser db0 email passwordHash trustedEmail now)) email
  = Some (fst (createUser db0 email passwordHash trustedEmail now)).
Proof.
  intros Hnone. unfold getUserByEmail in *. cbn [createUser fst snd users].
  rewrite find_app_none by exact Hnone.
  cbn [List.find User.email]. now rewrite String.eqb_refl.
Qed.

(** X16.  After a signup that succeeded the client is logged in, and
    [GET /api/auth/me] answers with the new user.  A later login with the
    email and the password of the signup succeeds, with the same user, when
    zod takes the email for an email; when it does not - the signup does not
    ask for it - every login with it is answered 400.  The hypothesis on
    bcrypt is that [compare] accepts a password against its own hash. *)
Theorem signup_then_login (f : Formats) (b : Bcrypt) (now : Z) (salt : string)
    (request : SignupBody) (st st' : State) (id : Z) (email trustedEmail : string) :
  (forall s p, compare b p (hash b s p) = true) ->
  wf (db st) ->
  signup f b now salt request st = (json (UserBody id email trustedEmail), st') ->
  signupEmail request = JsString email
  /\ requireAuth st' = Some id
  /\ me st' = (json (UserBody id email trustedEmail), st')
  /\ (isEmail f email = true ->
      forall st'', db st'' = db st' ->
        login f b (signupEmail request) (signupPassword request) st''
        = (json (UserBody id email trustedEmail), setSession st'' (Some id)))
  /\ (isEmail f email = false ->
      forall st'',
        login f b (signupEmail request) (signupPassword request) st''
        = (fail 400 "Invalid input data", st'')).
Proof.
  intros Hb Hwf. unfold signup.
  destruct (insertUserSchema f request) as [v|] eqn:Ev; [|discriminate].
  destruct (getUserByEmail (db st) (insEmail v)) eqn:Eu; [discriminate|].
  unfold insertUserSchema in Ev.
  destruct (varcharString f (signupEmail request)) as [e|] eqn:Ee; [|discriminate].
  destruct (stringMin 1 (signupPassword request)) as [p|] eqn:Ep; [|discriminate].
  destruct (varcharString f (signupTrustedEmail request)) as [t|] eqn:Et; [|discriminate].
  injection Ev as <-. cbn [insEmail insPassword insTrustedEmail] in *.
  apply varcharString_Some in Ee. apply stringMin_Some in Ep as [Ep Hlen].
  cbn [createUser User.id User.email User.trustedEmail].
  intros [= <- <- <- <-].
  pose proof (wf_seqs _ Hwf) as (Hseq & _).
  split; [exact Ee|]. split.
  { unfold requireAuth. cbn [session].
    destruct (Z.eqb_spec (userSeq (db st)) 0); [lia | reflexivity]. }
  split.
  { unfold me, requireAuth. cbn [session db].
    destruct (Z.eqb_spec (userSeq (db st)) 0); [lia|].
    pose proof (getUser_new (db st) e (hash b salt p) t now Hwf) as H.
    cbn [createUser fst snd] in H. rewrite H. reflexivity. }
  split.
  - intros Hmail st'' Hdb. unfold login, loginSchema. rewrite Ee, Ep.
    cbn [emailString stringMin]. rewrite Hmail.
    destruct (Nat.leb_spec 1 (String.length p)); [|lia].
    rewrite Hdb. cbn [db].
    pose proof (getUserByEmail_new (db st) e (hash b salt p) t now Eu) as Hfind.
    cbn [createUser fst snd] in Hfind. rewrite Hfind. cbn [User.passwordHash].
    rewrite Hb. reflexivity.
  - intros Hmail st''. unfold login, loginSchema. rewrite Ee.
    cbn [emailString]. rewrite Hmail. reflexivity.
Qed.

Lemma signup_then_login_witness :
  requireAuth
    (snd (signup {| isEmail := fun s => Js.includes s "@";
                    fitsVarchar := fun s => String.length s <=? 255 |}
                 {| hash := fun salt p => p; compare := String.eqb |}
                 1700000000000 "salt"
                 {| signupEmail := JsString "ann@example.org";
                    signupPassword := JsString "secret";
                    signupTrustedEmail := JsString "bob@example.org" |}
                 {| db := emptyDb; session := None; outbox := [] |}))
  = Some 1%Z.
Proof.
  refine (proj1 (proj2 (signup_then_login
    {| isEmail := fun s => Js.includes s "@";
       fitsVarchar := fun s => String.length s <=? 255 |}
    {| hash := fun salt p => p; compare := String.eqb |}
    1700000000000 "salt"
    {| signupEmail := JsString "ann@example.org";
       signupPassword := JsString "secret";
       signupTrustedEmail := JsString "bob@example.org" |}
    {| db := emptyDb; session := None; outbox := [] |} _
    1%Z "ann@example.org" "bob@example.org" _ _ _))).
  - intros s p. apply String.eqb_refl.
  - apply wf_emptyDb.
  - reflexivity.
Defined.

Lemma getUser_Some (db0 : Db) (userId : Z) (user : User.t) :
  getUser db0 userId = Some user -> user ∈ users db0 /\ User.id user = userId.
Proof.
  unfold getUser. intros H. apply find_some in H as [Hin Hid].
  apply Z.eqb_eq in Hid. split; [apply list_elem_of_In, Hin | exact Hid].
Qed.

(** X17.  After a change of password that succeeded, the request had the
    current password right and a new password of at least 8 code units, no
    other user was changed, and a login of the user with the new password
    succeeds (when zod takes the email of the user for an email).  The
    hypothesis on bcrypt is that [compare] accepts a password against its own
    hash. *)
Theorem change_password_then_login (f : Formats) (b : Bcrypt) (now : Z) (salt : string)
    (currentPassword newPassword : JsValue) (st st' : State) (userId : Z) (user : User.t) :
  (forall s p, compare b p (hash b s p) = true) ->
  wf (db st) ->
  requireAuth st = Some userId ->
  getUser (db st) userId = Some user ->
  changePassword b now salt currentPassword newPassword st
  = (json (Message "Password updated successfully"), st') ->
  (exists c n,
     currentPassword = JsString c /\ newPassword = JsString n
     /\ 8 <= String.length n
     /\ compare b c (User.passwordHash user) = true)
  /\ (forall u, u ∈ users (db st) -> User.id u <> userId -> u ∈ users (db st'))
  /\ (isEmail f (User.email user) = true ->
      forall st'', db st'' = db st' ->
        login f b (JsString (User.email user)) newPassword st''
        = (json (UserBody userId (User.email user) (User.trustedEmail user)),
           setSession st'' (Some userId))).
Proof.
  intros Hb Hwf Hauth Huser. unfold changePassword. rewrite Hauth.
  destruct (changePasswordSchema currentPassword newPassword) as [[c n]|] eqn:Es;
    [|discriminate].
  rewrite Huser. destruct (compare b c (User.passwordHash user)) eqn:Ec; [|discriminate].
  intros [= <-]. unfold changePasswordSchema in Es.
  destruct (stringMin 1 currentPassword) as [c'|] eqn:E1; [|discriminate].
  destruct (stringMin 8 newPassword) as [n'|] eqn:E8; [|discriminate].
  injection Es as -> ->.
  apply stringMin_Some in E1 as [-> _]. apply stringMin_Some in E8 as [-> Hlen].
  apply getUser_Some in Huser as [Hin Hid].
  split; [exists c, n; auto|]. split.
  - intros u Hu Hne. cbn [setDb db updateUserPassword setUsers users].
    apply list_elem_of_In, in_map_iff. exists u.
    split; [|apply list_elem_of_In, Hu].
    destruct (Z.eqb_spec (User.id u) userId); [contradiction | reflexivity].
  - intros Hmail st'' Hdb. unfold login, loginSchema.
    cbn [emailString stringMin]. rewrite Hmail.
    destruct (Nat.leb_spec 1 (String.length n)); [|lia].
    rewrite Hdb. unfold getUserByEmail.
    cbn [setDb db updateUserPassword setUsers users].
    rewrite find_map.
    + pose proof (find_unique User.email String.eqb (users (db st)) user
                    String_eqb_iff (wf_emails _ Hwf) Hin) as Hfind.
      rewrite Hfind. cbn [fmap option_fmap option_map].
      replace (User.id user =? userId)%Z with true
        by (symmetry; apply Z.eqb_eq; exact Hid).
      cbn [User.passwordHash User.id User.email User.trustedEmail].
      rewrite Hb, Hid. reflexivity.
    + intros u. destruct (User.id u =? userId)%Z; reflexivity.
Qed.

Lemma change_password_then_login_witness :
  login {| isEmail := fun s => Js.includes s "@";
           fitsVarchar := fun s => String.length s <=? 255 |}
        {| hash := fun salt p => p; compare := String.eqb |}
        (JsString "ann@example.org") (JsString "new secret")
        (snd (changePassword {| hash := fun salt p => p; compare := String.eqb |}
                1700000000001 "salt" (JsString "secret") (JsString "new secret")
                {| db := snd (createUser emptyDb "ann@example.org" "secret"
                                "bob@example.org" 1700000000000);
                   session := Some 1%Z; outbox := [] |}))
  = (json (UserBody 1 "ann@example.org" "bob@example.org"),
     setSession
       (snd (changePassword {| hash := fun salt p => p; compare := String.eqb |}
               1700000000001 "salt" (JsString "secret") (JsString "new secret")
               {| db := snd (createUser emptyDb "ann@example.org" "secret"
                               "bob@example.org" 1700000000000);
                  session := Some 1%Z; outbox := [] |}))
       (Some 1%Z)).
Proof.
  refine (proj2 (proj2 (change_password_then_login
    {| isEmail := fun s => Js.includes s "@";
       fitsVarchar := fun s => String.length s <=? 255 |}
    {| hash := fun salt p => p; compare := String.eqb |}
    1700000000001 "salt" (JsString "secret") (JsString "new secret")
    {| db := snd (createUser emptyDb "ann@example.org" "secret"
                    "bob@example.org" 1700000000000);
       session := Some 1%Z; outbox := [] |}
    (snd (changePassword {| hash := fun salt p => p; compare := String.eqb |}
            1700000000001 "salt" (JsString "secret") (JsString "new secret")
            {| db := snd (createUser emptyDb "ann@example.org" "secret"
                            "bob@example.org" 1700000000000);
               session := Some 1%Z; outbox := [] |}))
    1%Z
    {| User.id := 1; User.email := "ann@example.org"; User.passwordHash := "secret";
       User.trustedEmail := "bob@example.org";
       User.createdAt := Some 1700000000000%Z;
       User.updatedAt := Some 1700000000000%Z |} _ _ _ _ _)) _ _ _).
  - intros s p. apply String.eqb_refl.
  - apply wf_createUser; [apply wf_emptyDb | reflexivity].
  - reflexivity.
  - reflexivity.
  - reflexivity.
  - reflexivity.
  - reflexivity.
Defined.

End AccountExtras.

(** ** The weekly route *)

Section WeeklyExtras.

Import Sentiment JsDate Routes Schema Storage Api Inv.

Lemma length_filter_filter {A} (f g : A -> bool) (l : list A) :
  length (List.filter f (List.filter g l))
  = length (List.filter (fun x => g x && f x) l).
Proof.
  induction l as [|x l IH]; [reflexivity|]. cbn [List.filter].
  destruct (g x); cbn [List.filter andb]; [|exact IH].
  destruct (f x); cbn [length]; now rewrite IH.
Qed.

Lemma length_filter_ext {A} (f g : A -> bool) (l : list A) :
  (forall x, x ∈ l -> f x = g x) ->
  length (List.filter f l) = length (List.filter g l).
Proof.
  intros H. induction l as [|x l IH]; [reflexivity|]. cbn [List.filter].
  rewrite (H x) by apply list_elem_of_here.
  assert (length (List.filter f l) = length (List.filter g l)) as E
    by (apply IH; intros y Hy; apply H; now apply list_elem_of_further).
  destruct (g x); cbn [length]; now rewrite E.
Qed.

(** The observations of a day among the projected rows are the rows of
    that day. *)
Lemma observationsOf_toObservation (d : Z) (rows : list JournalEntry.t) :
  length (Spec.observationsOf (IsoDate d) (map toObservation rows))
  = length (List.filter (onDay d) rows).
Proof.
  unfold Spec.observationsOf. rewrite length_map.
  induction rows as [|e rows IH]; [reflexivity|]. cbn [map List.filter].
  assert (bool_decide (dateKeyOf (toObservation e) = IsoDate d) = onDay d e) as ->.
  { unfold dateKeyOf, toObservation, onDay. cbn [Routes.createdAt].
    destruct (JournalEntry.createdAt e) as [t|]; cbn [fmap option_fmap option_map].
    - destruct (Z.eqb_spec (utcDay t) d) as [->|Hne].
      + now apply bool_decide_eq_true_2.
      + apply bool_decide_eq_false_2. congruence.
    - now apply bool_decide_eq_false_2. }
  destruct (onDay d e); cbn [length]; now rewrite IH.
Qed.

(** A timestamp of one of the five days before today lies in the range of
    the query. *)
Lemma inRange_full_day (startNow endNow today t d : Z) :
  utcDay startNow = today -> utcDay endNow = today ->
  (today - 5 <= d <= today - 1)%Z -> utcDay t = d ->
  (startNow - 6 * msPerDay <= t <= endNow)%Z.
Proof.
  unfold utcDay, msPerDay. intros Hs He Hd Hday.
  pose proof (Z.mul_div_le startNow 86400000 eq_refl).
  pose proof (Z.mul_succ_div_gt startNow 86400000 eq_refl).
  pose proof (Z.mul_div_le endNow 86400000 eq_refl).
  pose proof (Z.mul_succ_div_gt endNow 86400000 eq_refl).
  pose proof (Z.mul_div_le t 86400000 eq_refl).
  pose proof (Z.mul_succ_div_gt t 86400000 eq_refl).
  lia.
Qed.

(** In a time zone without change of the clock, [setDate] moves the
    instant by whole days. *)
Lemma setDate_fixedOffset (offset t dt : Z) :
  setDate (fixedOffset offset) t dt
  = (t + (dt - dateFromTime (t + offset)) * msPerDay)%Z.
Proof.
  unfold setDate, localTime, utc, fixedOffset, utcDay, timeWithinDay.
  cbn [offsetAt offsetOf].
  pose proof (Z.div_mod (t + offset) msPerDay) as H.
  assert (msPerDay <> 0)%Z as Hne by discriminate. specialize (H Hne). lia.
Qed.

Lemma utcDay_add (t k : Z) : utcDay (t + k * msPerDay) = (utcDay t + k)%Z.
Proof. unfold utcDay. apply Z.div_add. discriminate. Qed.

Lemma dateFromTime_day (a b : Z) : utcDay a = utcDay b -> dateFromTime a = dateFromTime b.
Proof. unfold dateFromTime. now intros ->. Qed.

(** The day of a point in such a time zone: [i] days before the UTC day of
    the reading of the clock. *)
Lemma weeklyPoint_fixedOffset (offset : Z) (moodByDate : gmap DateKey (list MoodType))
    (now i : Z) :
  date (weeklyPoint (fixedOffset offset) moodByDate now i) = IsoDate (utcDay now - i).
Proof.
  unfold weeklyPoint. cbn [date]. rewrite setDate_fixedOffset. unfold getDate, localTime.
  cbn [fixedOffset offsetAt].
  replace (dateFromTime (now + offset) - i - dateFromTime (now + offset))%Z with (- i)%Z
    by lia.
  rewrite utcDay_add. reflexivity.
Qed.

Lemma weeklyData_fixedOffset (offset : Z) (clock : Z -> Z) (today : Z)
    (es : list Routes.JournalEntry) :
  (forall i, (0 <= i <= 6)%Z -> utcDay (clock i) = today) ->
  map date (weeklyData (fixedOffset offset) clock es) = map IsoDate (windowDays today).
Proof.
  intros Hclock. unfold weeklyData, windowDays. cbn [map].
  rewrite !weeklyPoint_fixedOffset, !Hclock by lia.
  repeat f_equal; lia.
Qed.

(** X18.  On a server whose time zone has no change of the clock, for a
    request whose readings of the clock are all on the UTC day [today], the
    two for [endDate] and [startDate] on one local day:
    [GET /api/mood/weekly] answers a logged-in user with seven points, one
    for each of the days [today - 6 .. today] (UTC), oldest first, and
    changes nothing.  The point of a day counts the rows of that user, and
    of no other user, whose timestamp is on that day and lies between the
    time of the request six days before and the time of the request.  For
    the five days before today that is every row of the user on that day;
    for the day six days back the rows of that day before the time of day of
    the request are left out. *)
Theorem weekly_counts_window (offset endNow startNow : Z) (clock : Z -> Z)
    (today : Z) (st : State) (userId : Z) :
  requireAuth st = Some userId ->
  utcDay endNow = today -> utcDay startNow = today ->
  (forall i, (0 <= i <= 6)%Z -> utcDay (clock i) = today) ->
  utcDay (startNow + offset) = utcDay (endNow + offset) ->
  exists weekly,
    getWeeklyMood (fixedOffset offset) endNow startNow clock st
    = (json (WeeklyBody weekly), st)
    /\ map date weekly = map IsoDate (windowDays today)
    /\ forall p d, p ∈ weekly -> date p = IsoDate d ->
         entries p
         = length (List.filter
                     (fun e => (JournalEntry.userId e =? userId)%Z
                               && inRange (startNow - 6 * msPerDay) endNow e
                               && onDay d e)
                     (journalEntries (db st)))
         /\ ((today - 5 <= d <= today - 1)%Z ->
             entries p
             = length (List.filter
                         (fun e => (JournalEntry.userId e =? userId)%Z && onDay d e)
                         (journalEntries (db st)))).
Proof.
  intros Hauth Hend Hstart Hclock Hlocal. unfold getWeeklyMood. rewrite Hauth.
  eexists. split; [reflexivity|]. split; [now apply weeklyData_fixedOffset|].
  assert (setDate (fixedOffset offset) startNow (getDate (fixedOffset offset) endNow - 6)
          = startNow - 6 * msPerDay)%Z as ->.
  { rewrite setDate_fixedOffset. unfold getDate, localTime. cbn [fixedOffset offsetAt].
    rewrite (dateFromTime_day _ _ Hlocal). lia. }
  intros p d Hp Hd. unfold weeklyData in Hp.
  apply list_elem_of_In, in_map_iff in Hp as (i & <- & Hi).
  unfold weeklyPoint in *. cbn [entries date] in *. rewrite Hd, groupByDate_lookup.
  rewrite observationsOf_toObservation. unfold getUserEntriesInDateRange.
  rewrite (length_filter_perm _ _ _ (sort_perm _ _)), length_filter_filter.
  split; [reflexivity|]. intros Hd5. apply length_filter_ext. intros e _.
  destruct (JournalEntry.userId e =? userId)%Z; [|reflexivity]. cbn [andb].
  unfold onDay, inRange. destruct (JournalEntry.createdAt e) as [t|]; [|reflexivity].
  destruct (Z.eqb_spec (utcDay t) d) as [Hday|]; [|apply andb_false_r].
  pose proof (inRange_full_day startNow endNow today t d Hstart Hend Hd5 Hday) as [H1 H2].
  apply Z.leb_le in H1, H2. now rewrite H1, H2.
Qed.

Lemma weekly_counts_window_witness :
  exists weekly,
    getWeeklyMood (fixedOffset 0) 907200000 907200000 (fun _ => 907200000%Z)
      {| db := snd (createJournalEntry
                      (snd (createJournalEntry twoUsers
                              {| insUserId := 1; insEntryText := "sad";
                                 insDetectedMood := sad; insQuoteId := None;
                                 insIsQuoteRevealed := false |}
                              (4 * 86400000 + 3600000)))
                      {| insUserId := 1; insEntryText := "happy";
                         insDetectedMood := happy; insQuoteId := None;
                         insIsQuoteRevealed := false |}
                      (9 * 86400000));
         session := Some 1%Z; outbox := [] |}
    = (json (WeeklyBody weekly),
       {| db := snd (createJournalEntry
                       (snd (createJournalEntry twoUsers
                               {| insUserId := 1; insEntryText := "sad";
                                  insDetectedMood := sad; insQuoteId := None;
                                  insIsQuoteRevealed := false |}
                               (4 * 86400000 + 3600000)))
                       {| insUserId := 1; insEntryText := "happy";
                          insDetectedMood := happy; insQuoteId := None;
                          insIsQuoteRevealed := false |}
                       (9 * 86400000));
          session := Some 1%Z; outbox := [] |})
    /\ map date weekly = map IsoDate (windowDays 10)
    /\ map entries weekly = [0; 0; 0; 0; 0; 1; 0].
Proof.
  destruct (weekly_counts_window 0 907200000 907200000 (fun _ => 907200000%Z) 10
              {| db := snd (createJournalEntry
                              (snd (createJournalEntry twoUsers
                                      {| insUserId := 1; insEntryText := "sad";
                                         insDetectedMood := sad; insQuoteId := None;
                                         insIsQuoteRevealed := false |}
                                      (4 * 86400000 + 3600000)))
                              {| insUserId := 1; insEntryText := "happy";
                                 insDetectedMood := happy; insQuoteId := None;
                                 insIsQuoteRevealed := false |}
                              (9 * 86400000));
                 session := Some 1%Z; outbox := [] |} 1%Z
              eq_refl eq_refl eq_refl (fun _ _ => eq_refl) eq_refl)
    as (weekly & H & Hdates & _).
  exists weekly. split; [exact H|]. split; [exact Hdates|].
  injection H as <-. vm_compute. reflexivity.
Defined.

End WeeklyExtras.

(** ** The sidebar *)

Section SidebarExtras.

Import Schema Sidebar Inv.

Lemma newerFirst_total (a b : JournalEntry.t) :
  newerFirst a b = true \/ newerFirst b a = true.
Proof. unfold newerFirst. rewrite !Z.leb_le. lia. Qed.

Lemma newerFirst_trans (a b c : JournalEntry.t) :
  newerFirst a b = true -> newerFirst b c = true -> newerFirst a c = true.
Proof. unfold newerFirst. rewrite !Z.leb_le. lia. Qed.

Lemma StronglySorted_app_order {A} (R : A -> A -> Prop) (l1 l2 : list A) :
  StronglySorted R (l1 ++ l2) ->
  StronglySorted R l1 /\ forall x y, x ∈ l1 -> y ∈ l2 -> R x y.
Proof.
  induction l1 as [|a l1 IH]; cbn [app]; intros H.
  - split; [constructor|]. intros x y Hx. now apply elem_of_nil in Hx.
  - apply StronglySorted_inv in H as [Hs Ha]. destruct (IH Hs) as [Hs1 Hord].
    split.
    + constructor; [exact Hs1|]. apply Forall_app in Ha. apply Ha.
    + intros x y Hx Hy. apply elem_of_cons in Hx as [->|Hx]; [|now apply Hord].
      rewrite Forall_forall in Ha. apply Ha, elem_of_app. now right.
Qed.

Lemma StronglySorted_weaken {A} (R R' : A -> A -> Prop) (l : list A) :
  (forall a b, R a b -> R' a b) -> StronglySorted R l -> StronglySorted R' l.
Proof.
  intros HR. induction 1 as [|a l Hs IH Ha]; constructor; [exact IH|].
  eapply Forall_impl; [exact Ha|]. intros b. apply HR.
Qed.

(** X19.  The sidebar shows at most five entries, all with a timestamp, the
    newest first, and they are the newest ones: an entry with a timestamp
    that is not shown is not newer than any entry shown.  When five or fewer
    entries have a timestamp, all of them are shown. *)
Theorem recent_entries_are_the_latest_five (entries : list JournalEntry.t) :
  length (recentEntries entries)
  = Nat.min 5 (length (List.filter hasCreatedAt entries))
  /\ (forall r, r ∈ recentEntries entries -> r ∈ entries /\ hasCreatedAt r = true)
  /\ StronglySorted (fun a b => (getTime b <= getTime a)%Z) (recentEntries entries)
  /\ (forall e r,
        e ∈ entries -> hasCreatedAt e = true -> r ∈ recentEntries entries ->
        e ∈ recentEntries entries \/ (getTime e <= getTime r)%Z).
Proof.
  unfold recentEntries.
  set (sorted := Arr.sort newerFirst (List.filter hasCreatedAt entries)).
  assert (sorted ≡ₚ List.filter hasCreatedAt entries) as Hperm by apply sort_perm.
  assert (StronglySorted (fun a b => newerFirst a b = true) sorted) as Hsorted
    by (apply sort_sorted; [apply newerFirst_total | apply newerFirst_trans]).
  rewrite <- (take_drop 5 sorted) in Hsorted.
  apply StronglySorted_app_order in Hsorted as [Hs Hord].
  split; [|split; [|split]].
  - rewrite length_take, (Permutation_length Hperm). lia.
  - intros r Hr. apply elem_of_take in Hr as (i & Hr & _).
    apply list_elem_of_lookup_2 in Hr. rewrite Hperm in Hr.
    now apply elem_of_filter_bool in Hr.
  - eapply StronglySorted_weaken; [|exact Hs].
    intros a b H. unfold newerFirst in H. now apply Z.leb_le in H.
  - intros e r He Hdated Hr.
    assert (e ∈ take 5 sorted ++ drop 5 sorted) as Hin.
    { rewrite take_drop, Hperm. now apply elem_of_filter_bool. }
    apply elem_of_app in Hin as [Hin|Hin]; [now left|]. right.
    specialize (Hord r e Hr Hin). unfold newerFirst in Hord. now apply Z.leb_le in Hord.
Qed.

(** X20.  The text beside an entry follows the time that has passed, in
    whole hours, not the calendar: 'Just now' under one hour, [Nh ago] with
    N from 1 to 23 under 24 hours, 'Yesterday' from 24 hours to under 48
    hours, [Nd ago] with N from 2 to 6 under 7 days, and the date from 7 days
    on.  An entry whose time is after [now] is shown as [Nd ago] with a
    negative N. *)
Theorem relative_time_ranges (now entryDate : Z) :
  ((0 <= now - entryDate < 3600000)%Z ->
   getRelativeTime now (Some entryDate) = JustNow)
  /\ ((3600000 <= now - entryDate < 86400000)%Z ->
      getRelativeTime now (Some entryDate) = HoursAgo ((now - entryDate) / 3600000)
      /\ (1 <= (now - entryDate) / 3600000 <= 23)%Z)
  /\ ((86400000 <= now - entryDate < 172800000)%Z ->
      getRelativeTime now (Some entryDate) = Yesterday)
  /\ ((172800000 <= now - entryDate < 604800000)%Z ->
      getRelativeTime now (Some entryDate) = DaysAgo ((now - entryDate) / 86400000)
      /\ (2 <= (now - entryDate) / 86400000 <= 6)%Z)
  /\ ((604800000 <= now - entryDate)%Z ->
      getRelativeTime now (Some entryDate) = LocaleDate entryDate)
  /\ ((now - entryDate < 0)%Z ->
      exists diffDays,
        getRelativeTime now (Some entryDate) = DaysAgo diffDays /\ (diffDays < 0)%Z).
Proof.
  unfold getRelativeTime. change (1000 * 60 * 60)%Z with 3600000%Z.
  set (diff := (now - entryDate)%Z).
  assert (diff / 3600000 / 24 = diff / 86400000)%Z as Hdays
    by (rewrite Z.div_div by lia; reflexivity).
  rewrite Hdays.
  pose proof (Z.mul_div_le diff 3600000 eq_refl) as Hh1.
  pose proof (Z.mul_succ_div_gt diff 3600000 eq_refl) as Hh2.
  pose proof (Z.mul_div_le diff 86400000 eq_refl) as Hd1.
  pose proof (Z.mul_succ_div_gt diff 86400000 eq_refl) as Hd2.
  split_and!; intros H.
  - assert (diff / 86400000 = 0)%Z as -> by lia.
    assert (diff / 3600000 = 0)%Z as -> by lia. reflexivity.
  - assert (diff / 86400000 = 0)%Z as -> by lia. cbn [Z.eqb].
    destruct (Z.eqb_spec (diff / 3600000) 0); [lia|]. split; [reflexivity | lia].
  - assert (diff / 86400000 = 1)%Z as -> by lia. reflexivity.
  - destruct (Z.eqb_spec (diff / 86400000) 0); [lia|].
    destruct (Z.eqb_spec (diff / 86400000) 1); [lia|].
    destruct (Z.ltb_spec (diff / 86400000) 7); [|lia]. split; [reflexivity | lia].
  - destruct (Z.eqb_spec (diff / 86400000) 0); [lia|].
    destruct (Z.eqb_spec (diff / 86400000) 1); [lia|].
    destruct (Z.ltb_spec (diff / 86400000) 7); [lia | reflexivity].
  - exists (diff / 86400000)%Z.
    destruct (Z.eqb_spec (diff / 86400000) 0); [lia|].
    destruct (Z.eqb_spec (diff / 86400000) 1); [lia|].
    destruct (Z.ltb_spec (diff / 86400000) 7); [|lia]. split; [reflexivity | lia].
Qed.

End SidebarExtras.

(** ** The charts *)

Section ChartExtras.

Import Sentiment Routes MoodChart MoodTracker Inv.

Lemma maxEntries_bounds (data : list WeeklyPoint) :
  1 <= maxEntries data /\ forall day, day ∈ data -> entries day <= maxEntries data.
Proof.
  unfold maxEntries. rewrite list_max_app.
  change (list_max [1]) with 1. split; [lia|].
  intros day Hday.
  assert (entries day <= list_max (map entries data)); [|lia].
  assert (Forall (fun k => k <= list_max (map entries data)) (map entries data)) as H
    by now apply list_max_le.
  rewrite Forall_forall in H. apply H.
  apply list_elem_of_In, in_map, list_elem_of_In, Hday.
Qed.

Lemma share_mono (a b m : nat) :
  a <= b -> (natQ a / natQ m * 100 <= natQ b / natQ m * 100)%Q.
Proof.
  intros H. apply Qmult_le_compat_r; [|discriminate]. unfold Qdiv.
  apply Qmult_le_compat_r; [|apply Qinv_le_0_compat, natQ_nonneg].
  unfold natQ. rewrite <- Zle_Qle. lia.
Qed.

Lemma share_full (m : nat) : 1 <= m -> (natQ m / natQ m * 100 == 100)%Q.
Proof.
  intros H. assert (~ natQ m == 0)%Q as Hm.
  { unfold natQ, Qeq. cbn. lia. }
  field. exact Hm.
Qed.

(** X21.  In the chart a bar is 10 percent high for a day without entry
    and between 20 and 100 percent for a day with entries; the day with the
    most entries has the full height, and a day with more entries never has
    the lower bar.  The divisor [maxEntries] is at least 1. *)
Theorem chart_bar_heights (data : list WeeklyPoint) (day : WeeklyPoint) :
  day ∈ data ->
  1 <= maxEntries data
  /\ entries day <= maxEntries data
  /\ (entries day = 0 -> heightPercentage (maxEntries data) day = 10%Q)
  /\ (0 < entries day ->
      (20 <= heightPercentage (maxEntries data) day)%Q
      /\ (heightPercentage (maxEntries data) day <= 100)%Q)
  /\ (0 < entries day -> entries day = maxEntries data ->
      (heightPercentage (maxEntries data) day == 100)%Q)
  /\ (forall day', day' ∈ data -> entries day <= entries day' ->
        (heightPercentage (maxEntries data) day
         <= heightPercentage (maxEntries data) day')%Q).
Proof.
  intros Hday. destruct (maxEntries_bounds data) as [Hm Hle].
  pose proof (Hle day Hday) as Hd. unfold heightPercentage.
  split; [exact Hm|]. split; [exact Hd|]. split_and!.
  - intros ->. reflexivity.
  - intros Hpos. destruct (Nat.ltb_spec 0 (entries day)); [|lia]. split.
    + apply Q.le_max_r.
    + apply Q.max_lub; [|discriminate].
      eapply Qle_trans; [apply (share_mono _ (maxEntries data)); exact Hd|].
      rewrite (share_full (maxEntries data) Hm). apply Qle_refl.
  - intros Hpos Heq. destruct (Nat.ltb_spec 0 (entries day)); [|lia].
    rewrite Heq. rewrite (share_full (maxEntries data) Hm). reflexivity.
  - intros day' Hday' Hmono.
    destruct (Nat.ltb_spec 0 (entries day)); destruct (Nat.ltb_spec 0 (entries day'));
      try lia.
    + apply Q.max_le_compat_r. now apply share_mono.
    + eapply Qle_trans; [|apply Q.le_max_r]. discriminate.
    + apply Qle_refl.
Qed.

Lemma chart_bar_heights_witness :
  (heightPercentage
     (maxEntries [ {| date := IsoDate 1; Routes.mood := happy; entries := 4 |};
                   {| date := IsoDate 2; Routes.mood := neutral; entries := 0 |};
                   {| date := IsoDate 3; Routes.mood := sad; entries := 1 |} ])
     {| date := IsoDate 1; Routes.mood := happy; entries := 4 |} == 100)%Q.
Proof.
  refine (proj1 (proj2 (proj2 (proj2 (proj2 (chart_bar_heights _ _ _))))) _ _).
  - apply list_elem_of_here.
  - cbn. lia.
  - reflexivity.
Defined.

(** X22.  On the page of the mood tracker a bar is 10 percent high for a
    day without entry and at least 50 percent for a day with entries; three
    entries reach 100 percent, and more entries change nothing.  A day with
    more entries never has the lower bar. *)
Theorem tracker_bar_saturates (day day' : WeeklyPoint) :
  (entries day = 0 <-> barHeight day = 10)
  /\ (0 < entries day -> 50 <= barHeight day <= 100)
  /\ (3 <= entries day <-> barHeight day = 100)
  /\ (entries day <= entries day' -> barHeight day <= barHeight day').
Proof.
  unfold barHeight.
  destruct (Nat.ltb_spec 0 (entries day)); destruct (Nat.ltb_spec 0 (entries day')); lia.
Qed.

End ChartExtras.

(** ** The insights of the mood tracker *)

Section InsightExtras.

Import Sentiment JsDate Routes MoodTracker Inv.

Lemma observationsOf_cons (k : DateKey) (e : JournalEntry) (es : list JournalEntry) :
  length (Spec.observationsOf k (e :: es))
  = (if bool_decide (dateKeyOf e = k) then 1 else 0)
    + length (Spec.observationsOf k es).
Proof.
  unfold Spec.observationsOf. cbn [List.filter].
  destruct (bool_decide (dateKeyOf e = k)); reflexivity.
Qed.

(** The seven buckets of the window share out the entries of the window. *)
Lemma window_buckets (es : list JournalEntry) (today : Z) :
  length (Spec.observationsOf (IsoDate (today - 6)) es)
  + length (Spec.observationsOf (IsoDate (today - 5)) es)
  + length (Spec.observationsOf (IsoDate (today - 4)) es)
  + length (Spec.observationsOf (IsoDate (today - 3)) es)
  + length (Spec.observationsOf (IsoDate (today - 2)) es)
  + length (Spec.observationsOf (IsoDate (today - 1)) es)
  + length (Spec.observationsOf (IsoDate (today - 0)) es)
  = length (List.filter (inWindow today) es).
Proof.
  induction es as [|e es IH]; [reflexivity|].
  rewrite !observationsOf_cons. cbn [List.filter].
  unfold inWindow, dateKeyOf in *. destruct (createdAt e) as [d|].
  - assert (forall x, bool_decide (IsoDate d = IsoDate x) = (d =? x)%Z) as Hkey.
    { intros x. destruct (Z.eqb_spec d x) as [->|Hne].
      - apply bool_decide_eq_true_2. reflexivity.
      - apply bool_decide_eq_false_2. intros [= Heq]. contradiction. }
    rewrite !Hkey.
    destruct (Z.leb_spec (today - 6) d); destruct (Z.leb_spec d today);
      cbn [andb length];
      destruct (Z.eqb_spec d (today - 6)); destruct (Z.eqb_spec d (today - 5));
      destruct (Z.eqb_spec d (today - 4)); destruct (Z.eqb_spec d (today - 3));
      destruct (Z.eqb_spec d (today - 2)); destruct (Z.eqb_spec d (today - 1));
      destruct (Z.eqb_spec d (today - 0)); lia.
  - rewrite !bool_decide_eq_false_2 by discriminate. lia.
Qed.

Lemma foldl_add (f : WeeklyPoint -> nat) (l : list WeeklyPoint) (n : nat) :
  foldl (fun sum day => sum + f day) n l = n + list_sum (map f l).
Proof.
  revert n. induction l as [|x l IH]; intros n; cbn [foldl map].
  - cbn. lia.
  - rewrite IH, list_sum_cons. lia.
Qed.

(** X23.  On a server whose time zone has no change of the clock, with the
    readings of the clock in the loop all on the UTC day [today]: the number
    of entries that the page shows for the week is the number of the
    entries sent to the aggregation whose day is one of the seven days of the
    window; the days tracked are at most 7 and at most that number, and no
    day is tracked exactly when the window has no entry. *)
Theorem weekly_totals (offset : Z) (clock : Z -> Z) (today : Z) (es : list JournalEntry) :
  (forall i, (0 <= i <= 6)%Z -> utcDay (clock i) = today) ->
  totalEntries (weeklyData (fixedOffset offset) clock es)
  = length (List.filter (inWindow today) es)
  /\ daysTracked (weeklyData (fixedOffset offset) clock es) <= 7
  /\ daysTracked (weeklyData (fixedOffset offset) clock es)
     <= totalEntries (weeklyData (fixedOffset offset) clock es)
  /\ (daysTracked (weeklyData (fixedOffset offset) clock es) = 0
      <-> List.filter (inWindow today) es = []).
Proof.
  intros Hclock.
  assert (forall l, daysTracked l <= list_sum (map entries l)
                    /\ (daysTracked l = 0 <-> list_sum (map entries l) = 0)) as Hd.
  { unfold daysTracked. induction l as [|p l [IH1 IH2]]; [cbn; lia|].
    cbn [List.filter map]. rewrite list_sum_cons.
    destruct (Nat.ltb_spec 0 (entries p)); cbn [length]; lia. }
  assert (forall now i,
            entries (weeklyPoint (fixedOffset offset) (groupByDate es) now i)
            = length (Spec.observationsOf (IsoDate (utcDay now - i)) es)) as Hpoint.
  { intros now i. rewrite <- (weeklyPoint_fixedOffset offset (groupByDate es)).
    unfold weeklyPoint. cbn [entries date]. now rewrite groupByDate_lookup. }
  assert (totalEntries (weeklyData (fixedOffset offset) clock es)
          = length (List.filter (inWindow today) es)) as Htotal.
  { unfold totalEntries. rewrite foldl_add, <- window_buckets.
    unfold weeklyData. cbn [map]. rewrite !Hpoint, !Hclock by lia.
    cbn [list_sum fold_right]. lia. }
  split; [exact Htotal|]. split.
  { unfold daysTracked. etransitivity; [apply filter_length_le|]. reflexivity. }
  unfold totalEntries in *. rewrite foldl_add in *. cbn [Nat.add] in *.
  destruct (Hd (weeklyData (fixedOffset offset) clock es)) as [H1 H2].
  split; [exact H1|]. rewrite H2, Htotal. apply length_zero_iff_nil.
Qed.

Lemma weekly_totals_witness :
  totalEntries
    (weeklyData (fixedOffset 3600000) (fun _ => 8640000000%Z)
       [ {| createdAt := Some 100%Z; detectedMood := happy |};
         {| createdAt := Some 93%Z; detectedMood := sad |};
         {| createdAt := Some 94%Z; detectedMood := sad |};
         {| createdAt := None; detectedMood := sad |} ])
  = 2.
Proof.
  etransitivity.
  - apply (weekly_totals 3600000 (fun _ => 8640000000%Z) 100).
    intros i Hi. reflexivity.
  - reflexivity.
Defined.

Lemma moodDistribution_countMoods (data : list WeeklyPoint) :
  moodDistribution data
  = countMoods (map Routes.mood (List.filter tracked data)).
Proof.
  unfold moodDistribution, countMoods.
  generalize (@nil (MoodType * nat)).
  induction data as [|day data IH]; intros acc; [reflexivity|].
  cbn [foldl List.filter]. unfold tracked at 1.
  destruct (0 <? entries day); cbn [map foldl]; apply IH.
Qed.

Lemma totalCount_setCount (counts : Counts) (m : MoodType) (n : nat) :
  totalCount (setCount counts m n) + default 0 (getCount counts m)
  = totalCount counts + n.
Proof.
  unfold totalCount, getCount.
  induction counts as [|[k v] rest IH]; cbn [setCount List.find fst map snd].
  - cbn. lia.
  - destruct (decide (k = m)) as [->|Hne].
    + rewrite bool_decide_eq_true_2 by reflexivity. cbn. lia.
    + rewrite bool_decide_eq_false_2 by exact Hne.
      cbn [map snd]. rewrite !list_sum_cons. lia.
Qed.

Lemma totalCount_countMoods (l : list MoodType) : totalCount (countMoods l) = length l.
Proof.
  induction l as [|x l IH] using rev_ind; [reflexivity|].
  rewrite countMoods_snoc, length_app. cbn [length].
  pose proof (totalCount_setCount (countMoods l) x
                (default 0 (getCount (countMoods l) x) + 1)). lia.
Qed.

(** X24.  The mood distribution lists each mood once, with the number of
    days that have entries and that mood, and only moods with such a day;
    its counts add up to the days tracked. *)
Theorem mood_distribution_counts (data : list WeeklyPoint) :
  NoDup (map fst (moodDistribution data))
  /\ (forall m n,
        (m, n) ∈ moodDistribution data
        <-> n = length (List.filter
                          (fun day => tracked day && bool_decide (Routes.mood day = m))
                          data)
            /\ 0 < n)
  /\ totalCount (moodDistribution data) = daysTracked data.
Proof.
  rewrite moodDistribution_countMoods. split; [apply NoDup_countMoods|]. split.
  - intros m n. rewrite In_getCount.
    assert (Spec.frequency m (map Routes.mood (List.filter tracked data))
            = length (List.filter
                        (fun day => tracked day && bool_decide (Routes.mood day = m))
                        data)) as ->; [|reflexivity].
    unfold Spec.frequency. induction data as [|day data IH]; [reflexivity|].
    cbn [List.filter]. destruct (tracked day); cbn [map List.filter andb]; [|exact IH].
    destruct (bool_decide (Routes.mood day = m)); cbn [length]; now rewrite IH.
  - rewrite totalCount_countMoods, length_map. reflexivity.
Qed.

End InsightExtras.

(** ** The guard of the page and the guard of the server *)

Section DashboardExtras.

Import Sentiment Routes Aux Dashboard Inv.

Lemma trimEnd_empty (s : string) :
  trimEnd s = EmptyString <-> allWhitespace s = true.
Proof.
  induction s as [|c s IH]; cbn [trimEnd allWhitespace]; [tauto|].
  destruct (trimEnd s) eqn:He.
  - destruct (Js.isWhitespace c); cbn [andb].
    + rewrite <- IH. tauto.
    + split; discriminate.
  - split; [discriminate|]. intros [_ H]%andb_true_iff.
    apply IH in H. discriminate.
Qed.

Lemma allWhitespace_trimStart (s : string) :
  allWhitespace (trimStart s) = allWhitespace s.
Proof.
  induction s as [|c s IH]; [reflexivity|].
  cbn [trimStart]. destruct (Js.isWhitespace c) eqn:Hc.
  - rewrite IH. cbn [allWhitespace]. rewrite Hc. reflexivity.
  - reflexivity.
Qed.

Lemma trim_empty (s : string) : trim s = EmptyString <-> allWhitespace s = true.
Proof. unfold trim. rewrite trimEnd_empty, allWhitespace_trimStart. reflexivity. Qed.

Lemma allWhitespace_noLetter (s : string) :
  allWhitespace s = true -> noLetter s = true.
Proof.
  induction s as [|c s IH]; [reflexivity|].
  cbn [allWhitespace noLetter]. intros [Hc Hs]%andb_true_iff.
  rewrite (IH Hs), andb_true_r.
  revert Hc. unfold Js.isWhitespace, isLetter, Js.inRange.
  generalize (Js.codeUnit c). intros n Hn.
  apply negb_true_iff, orb_false_iff.
  rewrite !andb_false_iff, !N.leb_gt.
  rewrite !orb_true_iff, andb_true_iff, !N.leb_le, !N.eqb_eq in Hn. lia.
Qed.

(** X25.  The page shows "Empty entry" and sends nothing exactly when every
    code unit of the text is whitespace; what it sends is the text as typed,
    not the trimmed one, and the handler does not answer 400 to it; the
    handler itself accepts a text of whitespace that is not empty and gives
    it the neutral result. *)
Theorem page_guard_is_stricter (moodText : string) :
  (handleSubmit moodText = None <-> allWhitespace moodText = true)
  /\ (forall entryText,
        handleSubmit moodText = Some entryText ->
        entryText = moodText
        /\ classifyEntry (JsString entryText)
           = Analyzed (Returned (analyzeSentiment entryText)))
  /\ (allWhitespace moodText = true -> moodText <> EmptyString ->
      classifyEntry (JsString moodText)
      = Analyzed (Returned
                    {| Sentiment.mood := neutral; confidence := 1 # 2;
                       isCrisis := false |})).
Proof.
  assert (forall t, t <> EmptyString ->
            classifyEntry (JsString t) = Analyzed (Returned (analyzeSentiment t)))
    as Hserver.
  { intros t Ht. unfold classifyEntry. cbn [truthy isString].
    destruct (String.eqb_spec t EmptyString); [contradiction|reflexivity]. }
  unfold handleSubmit. split; [|split].
  - rewrite <- trim_empty.
    destruct (String.eqb_spec (trim moodText) EmptyString); split;
      congruence || discriminate.
  - intros entryText.
    destruct (String.eqb_spec (trim moodText) EmptyString) as [|Hne]; [discriminate|].
    intros [= <-]. split; [reflexivity|]. apply Hserver.
    intros ->. apply Hne. reflexivity.
  - intros Hws Hne. rewrite (Hserver _ Hne).
    rewrite (analyzeSentiment_noLetter _ (allWhitespace_noLetter _ Hws)). reflexivity.
Qed.

End DashboardExtras.
